(** * The feed-forward network core of mlpack (methods/ann/ffn_impl.hpp)

    A shallow embedding of the member functions of [FFN] and the properties
    of its dimension / weight life cycle, its evaluation loops and its
    prediction loop.

    The class is a template over an output layer, an initialisation rule and
    a matrix type, and it drives a layer graph ([network]) whose code lives
    elsewhere.  These collaborators are interfaces here: type classes whose
    operations are the member functions that ffn_impl.hpp calls.  Whatever
    has to be assumed of them is a named, separately stated law. *)

From Stdlib Require Import NArith ZArith List String Bool Lia.
Import ListNotations.

Set Implicit Arguments.
Open Scope N_scope.

(* ================================================================== *)
(** * size_t arithmetic *)
(* ================================================================== *)

Module SizeT.

(** [size_t] is a 64-bit unsigned integer; every operation wraps. *)
Definition modulus : N := 2 ^ 64.

Definition wrap (n : N) : N := n mod modulus.

Definition add (a b : N) : N := wrap (a + b).

(** [a - b] on unsigned operands below [modulus]. *)
Definition sub (a b : N) : N := wrap (a + modulus - wrap b).

Definition mul (a b : N) : N := wrap (a * b).

(** Conversion of a [size_t] to [int] (two's complement, 32 bits) and of
    an [int] back to [size_t] (sign extension). *)
Definition to_int (z : Z) : Z := ((z + 2 ^ 31) mod 2 ^ 32 - 2 ^ 31)%Z.

Definition of_int (z : Z) : N := Z.to_N (z mod 2 ^ 64)%Z.

End SizeT.

(* ================================================================== *)
(** * Matrices *)
(* ================================================================== *)

(** The element type ([MatType::elem_type], [double] by default).  Its
    addition is kept abstract: no algebraic law of it is used, sums are
    always taken in the order in which the code takes them.  [fresh] is the
    content of storage that has been allocated and not yet written. *)
Class Elem (elem : Type) : Type := {
  zero : elem;
  add : elem -> elem -> elem;
  fresh : elem
}.

Section Matrices.

Context {elem : Type} `{Elem elem}.

(** A dense column-major matrix: [mem] holds column 0, then column 1, ... *)
Record Mat : Type := mkMat {
  n_rows : N;
  n_cols : N;
  mem : list elem
}.

Definition n_elem (m : Mat) : N := n_rows m * n_cols m.

Definition is_empty (m : Mat) : bool := n_elem m =? 0.

(** The default-constructed matrix, and the result of [clear()]. *)
Definition empty_Mat : Mat := mkMat 0 0 [].

Definition clear (_ : Mat) : Mat := empty_Mat.

(** The constructor [Mat(r, c)]: storage is allocated, not filled. *)
Definition Mat_new (r c : N) : Mat :=
  mkMat r c (repeat fresh (N.to_nat (r * c))).

(** [set_size(r, c)]: nothing happens when the size is already right, the
    storage is kept when only the shape changes, and is allocated anew
    otherwise. *)
Definition set_size (r c : N) (m : Mat) : Mat :=
  if (n_rows m =? r) && (n_cols m =? c) then m
  else if n_elem m =? r * c then mkMat r c (mem m)
  else Mat_new r c.

Definition same_shape (a b : Mat) : bool :=
  (n_rows a =? n_rows b) && (n_cols a =? n_cols b).

(** The storage of [n] columns starting at column [first]: what a matrix
    built on [colptr(first)] with [n] columns sees. *)
Definition colptr_view (first n : N) (m : Mat) : Mat :=
  mkMat (n_rows m) n
        (firstn (N.to_nat (n_rows m * n))
                (skipn (N.to_nat (n_rows m * first)) (mem m))).

(** [cols(first, last)], with the bounds check of the matrix library:
    [None] stands for "indices out of bounds or incorrectly used". *)
Definition cols (first last : N) (m : Mat) : option Mat :=
  if (first <=? last) && (last <? n_cols m)
  then Some (colptr_view first (last - first + 1) m)
  else None.

(** Writing the elements of [v] through a view placed at column [first]
    of [m]: they replace as many elements of [m], from the first element
    of that column on. *)
Definition write_cols (first : N) (v m : Mat) : Mat :=
  mkMat (n_rows m) (n_cols m)
        (firstn (N.to_nat (n_rows m * first)) (mem m)
         ++ mem v
         ++ skipn (N.to_nat (n_rows m * first + n_elem v)) (mem m)).

Fixpoint zip_add (a b : list elem) : list elem :=
  match a, b with
  | x :: a', y :: b' => add x y :: zip_add a' b'
  | _, _ => []
  end.

(** [a += b]: element-wise, [None] when the shapes differ. *)
Definition mat_add (a b : Mat) : option Mat :=
  if same_shape a b
  then Some (mkMat (n_rows a) (n_cols a) (zip_add (mem a) (mem b)))
  else None.

(** A matrix is well formed when its storage has one cell per element. *)
Definition wf_Mat (m : Mat) : Prop :=
  List.length (mem m) = N.to_nat (n_elem m).

End Matrices.

Arguments Mat elem : clear implicits.

(* ================================================================== *)
(** * Exceptions, observable calls, and the monad of member functions *)
(* ================================================================== *)

(** What a member function can throw.  [assertion_failure] is a failed
    [Log::Assert]; [matrix_error] is the matrix library refusing an index
    range or the resizing of a fixed-size view. *)
Inductive exn : Type :=
| invalid_argument (what : string)
| logic_error (what : string)
| assertion_failure (what : string)
| matrix_error (what : string).

(** The calls into collaborators that change what later calls see, and the
    messages written to the log, in the order in which they happen. *)
Inductive Event (elem : Type) : Type :=
| EvComputeOutputDimensions
| EvInitialize
| EvSetWeights
| EvTraining (mode : bool)
| EvTimer (start : bool) (name : string)
| EvWarn (samples : N)
| EvInfo (objective : elem).

Arguments EvComputeOutputDimensions {elem}.
Arguments EvInitialize {elem}.
Arguments EvSetWeights {elem}.
Arguments EvTraining {elem} mode.
Arguments EvTimer {elem} start name.
Arguments EvWarn {elem} samples.
Arguments EvInfo {elem} objective.

(** How a call ends: it returns, it throws, or the model ran out of the
    fuel given to one of its loops. *)
Inductive outcome (A : Type) : Type :=
| Val (a : A)
| Throw (e : exn)
| OutOfFuel.

Arguments Val {A} a.
Arguments Throw {A} e.
Arguments OutOfFuel {A}.

Module FFNMonad.

Section Def.

Variables (elem St : Type).

(** A member function: from the object's state to an outcome, the state
    it leaves behind (also when it throws) and the calls it made. *)
Definition M (A : Type) : Type :=
  St -> outcome A * St * list (Event elem).

Definition ret {A} (a : A) : M A := fun s => (Val a, s, []).

Definition bind {A B} (c : M A) (k : A -> M B) : M B :=
  fun s =>
  match c s with
  | (Val a, s1, t1) =>
      match k a s1 with
      | (o, s2, t2) => (o, s2, t1 ++ t2)
      end
  | (Throw e, s1, t1) => (Throw e, s1, t1)
  | (OutOfFuel, s1, t1) => (OutOfFuel, s1, t1)
  end.

Definition get : M St := fun s => (Val s, s, []).

Definition gets {A} (f : St -> A) : M A := fun s => (Val (f s), s, []).

Definition modify (f : St -> St) : M unit := fun s => (Val tt, f s, []).

Definition throw {A} (e : exn) : M A := fun s => (Throw e, s, []).

Definition out_of_fuel {A} : M A := fun s => (OutOfFuel, s, []).

Definition emit (e : Event elem) : M unit := fun s => (Val tt, s, [e]).

(** An index range checked by the matrix library. *)
Definition checked {A} (what : string) (o : option A) : M A :=
  match o with
  | Some a => ret a
  | None => throw (matrix_error what)
  end.

End Def.

Arguments ret {elem St A} a.
Arguments bind {elem St A B} c k.
Arguments get {elem St}.
Arguments gets {elem St A} f.
Arguments modify {elem St} f.
Arguments throw {elem St A} e.
Arguments out_of_fuel {elem St A}.
Arguments emit {elem St} e.
Arguments checked {elem St A} what o.

End FFNMonad.

Import FFNMonad.

Declare Scope ffn_scope.
Delimit Scope ffn_scope with ffn.
Notation "x <- c ;; k" := (bind c (fun x => k))
  (at level 61, c at next level, right associativity) : ffn_scope.
Notation "c ;; k" := (bind c (fun _ => k))
  (at level 61, right associativity) : ffn_scope.

(** Projections of a run. *)
Definition outcome_of {A St E} (r : outcome A * St * list E) : outcome A :=
  fst (fst r).

Definition state_of {A St E} (r : outcome A * St * list E) : St :=
  snd (fst r).

Definition trace_of {A St E} (r : outcome A * St * list E) : list E :=
  snd r.

(* ================================================================== *)
(** * The collaborators *)
(* ================================================================== *)

Section Collaborators.

Context {elem : Type} `{Elem elem}.

(** [OutputLayerType]: the loss and its derivative. *)
Class OutputLayerOps (O : Type) : Type := {
  out_Forward : O -> Mat elem -> Mat elem -> elem;
  out_Backward : O -> Mat elem -> Mat elem -> Mat elem -> Mat elem
}.

(** The layer graph [network].  Layers read their weights through views
    of the parameter buffer and do not write them, so every numerical
    operation receives the buffer and none returns it; operations that
    take an output argument by reference receive its current value and
    return its new one, with the new graph. *)
Class LayerGraphOps (G : Type) : Type := {
  (** the default-constructed graph *)
  net_default : G;
  (** [network.Network().size()] *)
  net_size : G -> N;
  net_WeightSize : G -> N;
  net_OutputSize : G -> N;
  (** [network.InputDimensions()], read and assigned *)
  net_InputDimensions : G -> list N;
  net_set_InputDimensions : list N -> G -> G;
  net_ComputeOutputDimensions : G -> G;
  (** [network.Training() = mode] *)
  net_set_Training : bool -> G -> G;
  (** [network.SetWeights(parameters.memptr())] *)
  net_SetWeights : Mat elem -> G -> G;
  (** [network.Forward(input, output)] *)
  net_Forward : Mat elem -> Mat elem -> Mat elem -> G -> G * Mat elem;
  (** [network.Forward(input, output, begin, end)] *)
  net_ForwardRange :
    Mat elem -> Mat elem -> Mat elem -> N -> N -> G -> G * Mat elem;
  (** [network.Backward(output, error, delta)] *)
  net_Backward :
    Mat elem -> Mat elem -> Mat elem -> Mat elem -> G -> G * Mat elem;
  (** [network.Gradient(input, error, gradient)] *)
  net_Gradient :
    Mat elem -> Mat elem -> Mat elem -> Mat elem -> G -> G * Mat elem;
  net_Loss : Mat elem -> G -> elem
}.

(** [NetworkInitialization<InitializationRuleType>::Initialize(layers,
    parameters)]: given the rule, the layers and the buffer, the layers
    and the buffer afterwards. *)
Class InitializerOps (I G : Type) : Type := {
  Initialize : I -> G -> Mat elem -> G * Mat elem
}.

End Collaborators.

(* ================================================================== *)
(** * The class FFN *)
(* ================================================================== *)

Section Core.

Context {elem : Type} `{Elem elem}.
Context {O I G : Type}.
Context `{OutputLayerOps (elem := elem) O}.
Context `{LayerGraphOps (elem := elem) G}.
Context `{InitializerOps (elem := elem) I G}.

(** The default arguments of [CheckNetwork(functionName,
    inputDimensionality, setMode, training)] and of
    [UpdateDimensions(functionName, inputDimensionality)] are given in the
    class declaration (ffn.hpp); the member functions below are defined for
    any choice of them. *)
Variables (CheckNetwork_setMode_default : bool).
Variables (CheckNetwork_training_default : bool).
Variables (UpdateDimensions_inputDimensionality_default : N).

(** The data members. *)
Record FFN : Type := mkFFN {
  outputLayer : O;
  initializeRule : I;
  network : G;
  parameters : Mat elem;
  inputDimensions : list N;
  predictors : Mat elem;
  responses : Mat elem;
  networkOutput : Mat elem;
  networkDelta : Mat elem;
  error : Mat elem;
  training : bool;
  layerMemoryIsSet : bool;
  inputDimensionsAreSet : bool
}.

Definition set_network (g : G) (s : FFN) : FFN :=
  mkFFN (outputLayer s) (initializeRule s) g (parameters s)
        (inputDimensions s) (predictors s) (responses s) (networkOutput s)
        (networkDelta s) (error s) (training s) (layerMemoryIsSet s)
        (inputDimensionsAreSet s).

Definition set_parameters (p : Mat elem) (s : FFN) : FFN :=
  mkFFN (outputLayer s) (initializeRule s) (network s) p
        (inputDimensions s) (predictors s) (responses s) (networkOutput s)
        (networkDelta s) (error s) (training s) (layerMemoryIsSet s)
        (inputDimensionsAreSet s).

Definition set_inputDimensions (d : list N) (s : FFN) : FFN :=
  mkFFN (outputLayer s) (initializeRule s) (network s) (parameters s)
        d (predictors s) (responses s) (networkOutput s)
        (networkDelta s) (error s) (training s) (layerMemoryIsSet s)
        (inputDimensionsAreSet s).

Definition set_predictors (m : Mat elem) (s : FFN) : FFN :=
  mkFFN (outputLayer s) (initializeRule s) (network s) (parameters s)
        (inputDimensions s) m (responses s) (networkOutput s)
        (networkDelta s) (error s) (training s) (layerMemoryIsSet s)
        (inputDimensionsAreSet s).

Definition set_responses (m : Mat elem) (s : FFN) : FFN :=
  mkFFN (outputLayer s) (initializeRule s) (network s) (parameters s)
        (inputDimensions s) (predictors s) m (networkOutput s)
        (networkDelta s) (error s) (training s) (layerMemoryIsSet s)
        (inputDimensionsAreSet s).

Definition set_networkOutput (m : Mat elem) (s : FFN) : FFN :=
  mkFFN (outputLayer s) (initializeRule s) (network s) (parameters s)
        (inputDimensions s) (predictors s) (responses s) m
        (networkDelta s) (error s) (training s) (layerMemoryIsSet s)
        (inputDimensionsAreSet s).

Definition set_networkDelta (m : Mat elem) (s : FFN) : FFN :=
  mkFFN (outputLayer s) (initializeRule s) (network s) (parameters s)
        (inputDimensions s) (predictors s) (responses s) (networkOutput s)
        m (error s) (training s) (layerMemoryIsSet s)
        (inputDimensionsAreSet s).

Definition set_error (m : Mat elem) (s : FFN) : FFN :=
  mkFFN (outputLayer s) (initializeRule s) (network s) (parameters s)
        (inputDimensions s) (predictors s) (responses s) (networkOutput s)
        (networkDelta s) m (training s) (layerMemoryIsSet s)
        (inputDimensionsAreSet s).

Definition set_training (b : bool) (s : FFN) : FFN :=
  mkFFN (outputLayer s) (initializeRule s) (network s) (parameters s)
        (inputDimensions s) (predictors s) (responses s) (networkOutput s)
        (networkDelta s) (error s) b (layerMemoryIsSet s)
        (inputDimensionsAreSet s).

Definition set_layerMemoryIsSet (b : bool) (s : FFN) : FFN :=
  mkFFN (outputLayer s) (initializeRule s) (network s) (parameters s)
        (inputDimensions s) (predictors s) (responses s) (networkOutput s)
        (networkDelta s) (error s) (training s) b
        (inputDimensionsAreSet s).

Definition set_inputDimensionsAreSet (b : bool) (s : FFN) : FFN :=
  mkFFN (outputLayer s) (initializeRule s) (network s) (parameters s)
        (inputDimensions s) (predictors s) (responses s) (networkOutput s)
        (networkDelta s) (error s) (training s) (layerMemoryIsSet s) b.

Local Abbreviation M := (FFNMonad.M elem FFN).
Local Open Scope ffn_scope.

(** ** Construction, copy, move, assignment *)

(** [FFN(outputLayer, initializeRule)] *)
Definition FFN_new (outputLayer0 : O) (initializeRule0 : I) : FFN :=
  mkFFN outputLayer0 initializeRule0 net_default empty_Mat [] empty_Mat
        empty_Mat empty_Mat empty_Mat empty_Mat false false false.

(** [FFN(const FFN& network)] *)
Definition FFN_copy (other : FFN) : FFN :=
  mkFFN (outputLayer other) (initializeRule other) (network other)
        (parameters other) (inputDimensions other) (predictors other)
        (responses other) empty_Mat empty_Mat empty_Mat (training other)
        false false.

(** [FFN(FFN&& network)] *)
Definition FFN_move (other : FFN) : FFN :=
  mkFFN (outputLayer other) (initializeRule other) (network other)
        (parameters other) (inputDimensions other) (predictors other)
        (responses other) empty_Mat empty_Mat empty_Mat (training other)
        false (inputDimensionsAreSet other).

(** [operator=(const FFN& other)]; [other] is [None] when it is the
    object itself ([this == &other]). *)
Definition copy_assign (other : option FFN) (this : FFN) : FFN :=
  match other with
  | None => this
  | Some o =>
      mkFFN (outputLayer o) (initializeRule o) (network o) (parameters o)
            (inputDimensions o) (predictors o) (responses o)
            (networkOutput o) (networkDelta o) (error o) (training o)
            false (inputDimensionsAreSet o)
  end.

(** [operator=(FFN&& other)] *)
Definition move_assign (other : option FFN) (this : FFN) : FFN :=
  match other with
  | None => this
  | Some o =>
      mkFFN (outputLayer o) (initializeRule o) (network o) (parameters o)
            (inputDimensions o) (predictors o) (responses o)
            (networkOutput o) (networkDelta o) (error o) (training o)
            (layerMemoryIsSet o) (inputDimensionsAreSet o)
  end.

(** ** Serialization *)

(** What [serialize] passes to the archive. *)
Record Archived : Type := mkArchived {
  ar_outputLayer : O;
  ar_initializeRule : I;
  ar_network : G;
  ar_parameters : Mat elem;
  ar_inputDimensions : list N;
  ar_training : bool
}.

(** An archive is being written, or read with the content it holds. *)
Inductive Archive : Type :=
| Saving
| Loading (content : Archived).

Definition serialize (ar : Archive) (s : FFN) : FFN * Archived :=
  match ar with
  | Saving =>
      (s, mkArchived (outputLayer s) (initializeRule s) (network s)
                     (parameters s) (inputDimensions s) (training s))
  | Loading a =>
      (mkFFN (ar_outputLayer a) (ar_initializeRule a) (ar_network a)
             (ar_parameters a) (ar_inputDimensions a)
             (clear (predictors s)) (clear (responses s))
             (clear (networkOutput s)) (clear (networkDelta s))
             (error s) (ar_training a) false false,
       a)
  end.

(** ** Arguments passed by reference *)

(** The matrix a [const MatType& parameters] argument refers to: the
    optimizer passes the member [parameters] itself, other callers pass a
    matrix of their own. *)
Inductive MatArg : Type :=
| ArgParameters
| ArgMat (m : Mat elem).

Definition arg_value (a : MatArg) (s : FFN) : Mat elem :=
  match a with
  | ArgParameters => parameters s
  | ArgMat m => m
  end.

(** The matrix a [MatType& results] argument refers to: the member
    [networkOutput], a matrix of the caller, or a fixed-size view of
    storage of the caller (a matrix built on a pointer with [strict]
    set). *)
Inductive MatRef : Type :=
| RefNetworkOutput
| RefMat (m : Mat elem)
| RefView (m : Mat elem).

Definition ref_value (r : MatRef) (s : FFN) : Mat elem :=
  match r with
  | RefNetworkOutput => networkOutput s
  | RefMat m => m
  | RefView m => m
  end.

(** ** The dimension and weight life cycle *)

(** [SetNetworkMode(training)] *)
Definition SetNetworkMode (training0 : bool) : M unit :=
  modify (set_training training0) ;;
  modify (fun s => set_network (net_set_Training (training s) (network s)) s) ;;
  emit (EvTraining training0).

(** [ResetData(predictors, responses)] *)
Definition ResetData (predictors0 responses0 : Mat elem) : M unit :=
  modify (set_predictors predictors0) ;;
  modify (set_responses responses0) ;;
  SetNetworkMode true.

(** [InitializeWeights()] *)
Definition InitializeWeights : M unit :=
  SetNetworkMode false ;;
  modify (fun s =>
            let (g, p) := Initialize (initializeRule s) (network s)
                                     (parameters s) in
            set_parameters p (set_network g s)) ;;
  emit EvInitialize.

(** Modelled from the spec: [Log::Assert(condition, message)], whose code is
    in the logging part of the library; the spec calls it a fatal assertion
    that aborts rather than continues. *)
Definition Log_Assert (condition : bool) (message : string) : M unit :=
  if condition then ret tt else throw (assertion_failure message).

(** [SetLayerMemory()] *)
Definition SetLayerMemory : M unit :=
  totalWeightSize <- gets (fun s => net_WeightSize (network s)) ;;
  n <- gets (fun s => n_elem (parameters s)) ;;
  Log_Assert (totalWeightSize =? n)
    "FFN::SetLayerMemory(): total layer weight size does not match parameter size!"%string ;;
  modify (fun s => set_network (net_SetWeights (parameters s) (network s)) s) ;;
  emit EvSetWeights ;;
  modify (set_layerMemoryIsSet true).

(** [operator==] on [std::vector<size_t>]. *)
Fixpoint dims_eqb (a b : list N) : bool :=
  match a, b with
  | [], [] => true
  | x :: a', y :: b' => (x =? y) && dims_eqb a' b'
  | _, _ => false
  end.

(** The loop [totalInputSize *= inputDimensions[i]] of [UpdateDimensions]. *)
Definition totalInputSize (dims : list N) : N :=
  fold_left SizeT.mul dims 1.

(** [UpdateDimensions(functionName, inputDimensionality)] *)
Definition UpdateDimensions (functionName : string)
    (inputDimensionality : N) : M unit :=
  dims0 <- gets inputDimensions ;;
  (if (N.of_nat (List.length dims0) =? 0)
   then modify (set_inputDimensions [inputDimensionality])
   else ret tt) ;;
  dims <- gets inputDimensions ;;
  if negb (totalInputSize dims =? inputDimensionality)
     && negb (inputDimensionality =? 0)
  then throw (logic_error
                (functionName ++
                 ": input size does not match expected size set with InputDimensions()!")%string)
  else
    g <- gets network ;;
    if dims_eqb dims (net_InputDimensions g)
    then modify (set_inputDimensionsAreSet true)
    else
      modify (fun s =>
                set_network (net_set_InputDimensions (inputDimensions s)
                                                     (network s)) s) ;;
      modify (fun s =>
                set_network (net_ComputeOutputDimensions (network s)) s) ;;
      emit EvComputeOutputDimensions ;;
      modify (set_inputDimensionsAreSet true).

(** [CheckNetwork(functionName, inputDimensionality, setMode, training)] *)
Definition CheckNetwork (functionName : string) (inputDimensionality : N)
    (setMode training0 : bool) : M unit :=
  size <- gets (fun s => net_size (network s)) ;;
  if size =? 0
  then throw (invalid_argument
                (functionName ++ ": cannot use network with no layers!")%string)
  else
    dimsSet <- gets inputDimensionsAreSet ;;
    (if negb dimsSet
     then UpdateDimensions functionName inputDimensionality
     else ret tt) ;;
    empty <- gets (fun s => is_empty (parameters s)) ;;
    (if empty
     then InitializeWeights
     else
       n <- gets (fun s => n_elem (parameters s)) ;;
       weights <- gets (fun s => net_WeightSize (network s)) ;;
       if negb (n =? weights)
       then modify (fun s => set_parameters (clear (parameters s)) s) ;;
            InitializeWeights
       else ret tt) ;;
    memSet <- gets layerMemoryIsSet ;;
    (if negb memSet then SetLayerMemory else ret tt) ;;
    if setMode then SetNetworkMode training0 else ret tt.

(** [CheckNetwork(functionName, inputDimensionality)] *)
Definition CheckNetwork_default (functionName : string)
    (inputDimensionality : N) : M unit :=
  CheckNetwork functionName inputDimensionality
               CheckNetwork_setMode_default CheckNetwork_training_default.

(** [WeightSize()] *)
Definition WeightSize : M N :=
  UpdateDimensions "FFN::WeightSize()"%string
                   UpdateDimensions_inputDimensionality_default ;;
  gets (fun s => net_WeightSize (network s)).

(** [std::accumulate(first, last, 0)] over [size_t] values: the
    accumulator has the type of the initial value, [int]; each step adds in
    [size_t] and converts the sum back to [int]. *)
Definition accumulate_int (dims : list N) : Z :=
  fold_left (fun acc x =>
               SizeT.to_int (Z.of_N (SizeT.add (SizeT.of_int acc) x)))
            dims 0%Z.

(** [Reset(inputDimensionality)] *)
Definition Reset (inputDimensionality : N) : M unit :=
  modify (fun s => set_parameters (clear (parameters s)) s) ;;
  if negb (inputDimensionality =? 0)
  then CheckNetwork "FFN::Reset()"%string inputDimensionality true false
  else
    dims <- gets inputDimensions ;;
    let inputDims := SizeT.of_int (accumulate_int dims) in
    CheckNetwork "FFN::Reset()"%string inputDims true false.

(** ** The passes *)

(** The assignment [results = networkOutput] that ends [Forward], skipped
    when [results] is [networkOutput] itself.  A view of foreign storage
    takes the shape and the content when the number of elements is the one
    of its storage, and is refused otherwise.  The value is what [results]
    holds afterwards. *)
Definition assign_results (results : MatRef) : M (Mat elem) :=
  out <- gets networkOutput ;;
  match results with
  | RefNetworkOutput => ret out
  | RefMat _ => ret out
  | RefView v =>
      if n_elem v =? n_elem out then ret out
      else throw (matrix_error
                    "Mat::init(): mismatch between size of auxiliary memory and requested size")
  end.

(** [Forward(inputs, results, begin, end)] *)
Definition Forward_range (inputs : Mat elem) (results : MatRef)
    (begin_ end_ : N) : M (Mat elem) :=
  if end_ <? begin_ then gets (ref_value results)
  else
    CheckNetwork_default "FFN::Forward()"%string (n_rows inputs) ;;
    modify (fun s =>
              set_networkOutput
                (set_size (net_OutputSize (network s)) (n_cols inputs)
                          (networkOutput s)) s) ;;
    modify (fun s =>
              let (g, out) :=
                net_ForwardRange (parameters s) inputs (networkOutput s)
                                 begin_ end_ (network s) in
              set_networkOutput out (set_network g s)) ;;
    assign_results results.

(** [Forward(inputs, results)] *)
Definition Forward (inputs : Mat elem) (results : MatRef) : M (Mat elem) :=
  size <- gets (fun s => net_size (network s)) ;;
  Forward_range inputs results 0 (SizeT.sub size 1).

(** [Backward(inputs, targets, gradients)]: the loss, and the content of
    [gradients] afterwards. *)
Definition Backward (inputs targets gradients : Mat elem)
    : M (elem * Mat elem) :=
  res <- gets (fun s =>
                 add (out_Forward (outputLayer s) (networkOutput s) targets)
                     (net_Loss (parameters s) (network s))) ;;
  modify (fun s =>
            set_error (out_Backward (outputLayer s) (networkOutput s)
                                    targets (error s)) s) ;;
  modify (fun s =>
            let (g, delta) :=
              net_Backward (parameters s) (networkOutput s) (error s)
                           (networkDelta s) (network s) in
            set_networkDelta delta (set_network g s)) ;;
  rows <- gets (fun s => n_rows (parameters s)) ;;
  cols_ <- gets (fun s => n_cols (parameters s)) ;;
  let gradients1 := set_size rows cols_ gradients in
  r <- gets (fun s =>
               net_Gradient (parameters s) inputs (error s) gradients1
                            (network s)) ;;
  modify (set_network (fst r)) ;;
  ret (res, snd r).

(** [Evaluate(predictors, responses)] *)
Definition Evaluate_predictors_responses (predictors0 responses0 : Mat elem)
    : M elem :=
  CheckNetwork_default "FFN::Evaluate()"%string (n_rows predictors0) ;;
  modify (fun s =>
            let (g, out) :=
              net_Forward (parameters s) predictors0 (networkOutput s)
                          (network s) in
            set_networkOutput out (set_network g s)) ;;
  gets (fun s =>
          add (out_Forward (outputLayer s) (networkOutput s) responses0)
              (net_Loss (parameters s) (network s))).

(** The slice [m.cols(begin, begin + batchSize - 1)]. *)
Definition batch (begin_ batchSize : N) (m : Mat elem) : M (Mat elem) :=
  checked "Mat::cols(): indices out of bounds or incorrectly used"
          (cols begin_ (SizeT.sub (SizeT.add begin_ batchSize) 1) m).

(** [Evaluate(parameters, begin, batchSize)]; the first argument has no
    name in the definition. *)
Definition Evaluate_batch (_ : MatArg) (begin_ batchSize : N) : M elem :=
  rows <- gets (fun s => n_rows (predictors s)) ;;
  CheckNetwork_default "FFN::Evaluate()"%string rows ;;
  modify (fun s =>
            set_networkOutput
              (set_size (net_OutputSize (network s)) batchSize
                        (networkOutput s)) s) ;;
  data <- gets predictors ;;
  x <- batch begin_ batchSize data ;;
  modify (fun s =>
            let (g, out) :=
              net_Forward (parameters s) x (networkOutput s) (network s) in
            set_networkOutput out (set_network g s)) ;;
  labels <- gets responses ;;
  y <- batch begin_ batchSize labels ;;
  gets (fun s =>
          add (out_Forward (outputLayer s) (networkOutput s) y)
              (net_Loss (parameters s) (network s))).

(** The loop of [Evaluate(parameters)], from index [i] with [res]
    accumulated so far. *)
Fixpoint Evaluate_loop (fuel : nat) (parameters0 : MatArg) (i : N)
    (res : elem) : M elem :=
  n <- gets (fun s => n_cols (predictors s)) ;;
  if i <? n
  then
    match fuel with
    | 0%nat => out_of_fuel
    | S fuel' =>
        e <- Evaluate_batch parameters0 i 1 ;;
        Evaluate_loop fuel' parameters0 (SizeT.add i 1) (add res e)
    end
  else ret res.

(** [Evaluate(parameters)] *)
Definition Evaluate (parameters0 : MatArg) : M elem :=
  n <- gets (fun s => n_cols (predictors s)) ;;
  Evaluate_loop (S (N.to_nat n)) parameters0 0 zero.

(** [EvaluateWithGradient(parameters, begin, gradient, batchSize)]: the
    objective, and the content of [gradient] afterwards. *)
Definition EvaluateWithGradient_batch (parameters0 : MatArg) (begin_ : N)
    (gradient : Mat elem) (batchSize : N) : M (elem * Mat elem) :=
  rows <- gets (fun s => n_rows (predictors s)) ;;
  CheckNetwork_default "FFN::EvaluateWithGradient()"%string rows ;;
  modify (fun s =>
            set_networkOutput
              (set_size (net_OutputSize (network s)) batchSize
                        (networkOutput s)) s) ;;
  data <- gets predictors ;;
  x <- batch begin_ batchSize data ;;
  modify (fun s =>
            let (g, out) :=
              net_Forward (parameters s) x (networkOutput s) (network s) in
            set_networkOutput out (set_network g s)) ;;
  labels <- gets responses ;;
  y <- batch begin_ batchSize labels ;;
  obj <- gets (fun s =>
                 add (out_Forward (outputLayer s) (networkOutput s) y)
                     (net_Loss (parameters s) (network s))) ;;
  y' <- batch begin_ batchSize labels ;;
  modify (fun s =>
            set_error (out_Backward (outputLayer s) (networkOutput s) y'
                                    (error s)) s) ;;
  modify (fun s =>
            set_networkDelta
              (set_size (n_rows (predictors s)) batchSize
                        (networkDelta s)) s) ;;
  modify (fun s =>
            let (g, delta) :=
              net_Backward (parameters s) (networkOutput s) (error s)
                           (networkDelta s) (network s) in
            set_networkDelta delta (set_network g s)) ;;
  p <- gets (arg_value parameters0) ;;
  let gradient1 := set_size (n_rows p) (n_cols p) gradient in
  x' <- batch begin_ batchSize data ;;
  r <- gets (fun s =>
               net_Gradient (parameters s) x' (error s) gradient1
                            (network s)) ;;
  modify (set_network (fst r)) ;;
  ret (obj, snd r).

(** The loop of [EvaluateWithGradient(parameters, gradient)], from index
    [i] with [res] and [gradient] accumulated so far. *)
Fixpoint EvaluateWithGradient_loop (fuel : nat) (parameters0 : MatArg)
    (i : N) (res : elem) (gradient : Mat elem) : M (elem * Mat elem) :=
  n <- gets (fun s => n_cols (predictors s)) ;;
  if i <? n
  then
    match fuel with
    | 0%nat => out_of_fuel
    | S fuel' =>
        let tmpGradient := Mat_new (n_rows gradient) (n_cols gradient) in
        r <- EvaluateWithGradient_batch parameters0 i tmpGradient 1 ;;
        gradient' <- checked "addition: incompatible matrix dimensions"
                             (mat_add gradient (snd r)) ;;
        EvaluateWithGradient_loop fuel' parameters0 (SizeT.add i 1)
                                  (add res (fst r)) gradient'
    end
  else ret (res, gradient).

(** [EvaluateWithGradient(parameters, gradient)] *)
Definition EvaluateWithGradient (parameters0 : MatArg)
    (gradient : Mat elem) : M (elem * Mat elem) :=
  r <- EvaluateWithGradient_batch parameters0 0 gradient 1 ;;
  n <- gets (fun s => n_cols (predictors s)) ;;
  EvaluateWithGradient_loop (N.to_nat n) parameters0 1
                            (add zero (fst r)) (snd r).

(** [Gradient(parameters, begin, gradient, batchSize)]: the content of
    [gradient] afterwards. *)
Definition Gradient (parameters0 : MatArg) (begin_ : N)
    (gradient : Mat elem) (batchSize : N) : M (Mat elem) :=
  r <- EvaluateWithGradient_batch parameters0 begin_ gradient batchSize ;;
  ret (snd r).

(** The loop of [Predict]: column [i] onwards, [results] as written so
    far.  [predictorAlias] and [resultAlias] are views of the columns
    [i .. i + effectiveBatchSize - 1]; what [Forward] assigns to the second
    is written to those columns of [results]. *)
Fixpoint Predict_loop (fuel : nat) (predictors0 : Mat elem) (batchSize i : N)
    (results : Mat elem) : M (Mat elem) :=
  if i <? n_cols predictors0
  then
    match fuel with
    | 0%nat => out_of_fuel
    | S fuel' =>
        let effectiveBatchSize :=
          N.min batchSize (SizeT.sub (n_cols predictors0) i) in
        let predictorAlias := colptr_view i effectiveBatchSize predictors0 in
        let resultAlias := colptr_view i effectiveBatchSize results in
        written <- Forward predictorAlias (RefView resultAlias) ;;
        Predict_loop fuel' predictors0 batchSize (SizeT.add i batchSize)
                     (write_cols i written results)
    end
  else ret results.

(** [Predict(predictors, results, batchSize)]: the content of [results]
    afterwards. *)
Definition Predict (predictors0 results : Mat elem) (batchSize : N)
    : M (Mat elem) :=
  CheckNetwork "FFN::Predict()"%string (n_rows predictors0) true false ;;
  size <- gets (fun s => net_OutputSize (network s)) ;;
  let results1 := set_size size (n_cols predictors0) results in
  Predict_loop (S (N.to_nat (n_cols predictors0))) predictors0 batchSize 0
               results1.

(** [WarnMessageMaxIterations(optimizer, samples)]; [MaxIterations] is
    [None] for an optimizer type without a [MaxIterations()] member, for
    which the overload that does nothing is selected. *)
Definition WarnMessageMaxIterations (MaxIterations : option N)
    (samples : N) : M unit :=
  match MaxIterations with
  | Some maxIterations =>
      if (maxIterations <? samples) && negb (maxIterations =? 0)
      then emit (EvWarn samples)
      else ret tt
  | None => ret tt
  end.

(** [Train(predictors, responses, optimizer, callbacks...)].  The optimizer
    receives the object and its [parameters]; [Optimize] is what its
    call of [Optimize] on the object does with them. *)
Definition Train (predictors0 responses0 : Mat elem)
    (MaxIterations : option N) (Optimize : M elem) : M elem :=
  ResetData predictors0 responses0 ;;
  samples <- gets (fun s => n_cols (predictors s)) ;;
  WarnMessageMaxIterations MaxIterations samples ;;
  rows <- gets (fun s => n_rows (predictors s)) ;;
  CheckNetwork "FFN::Train()"%string rows true true ;;
  emit (EvTimer true "ffn_optimization") ;;
  out <- Optimize ;;
  emit (EvTimer false "ffn_optimization") ;;
  emit (EvInfo out) ;;
  ret out.

End Core.

Arguments FFN : clear implicits.
Arguments Archived : clear implicits.
Arguments Archive : clear implicits.
Arguments MatArg : clear implicits.
Arguments MatRef : clear implicits.

(* ================================================================== *)
(** * What is assumed of the collaborators, and derived notions *)
(* ================================================================== *)

Section Contracts.

Context {elem : Type} `{Elem elem}.
Context {O I G : Type}.
Context `{OutputLayerOps (elem := elem) O}.
Context `{LayerGraphOps (elem := elem) G}.
Context `{InitializerOps (elem := elem) I G}.

(** The life cycle managed by [CheckNetwork] relies on this much of the
    layer graph and of the initializer: switching the mode, binding the
    weights, recording the input shape and initializing keep the number of
    layers; switching the mode and binding the weights keep the weight
    size; assigning the mode twice is assigning it once; and an empty
    buffer comes back from the initializer with one element per weight. *)
Record LifecycleLaws : Prop := {
  size_set_Training :
    forall b (g : G), net_size (net_set_Training b g) = net_size g;
  size_SetWeights :
    forall p (g : G), net_size (net_SetWeights p g) = net_size g;
  size_set_InputDimensions :
    forall d (g : G), net_size (net_set_InputDimensions d g) = net_size g;
  size_ComputeOutputDimensions :
    forall (g : G), net_size (net_ComputeOutputDimensions g) = net_size g;
  size_Initialize :
    forall (r : I) (g : G) p, net_size (fst (Initialize r g p)) = net_size g;
  WeightSize_set_Training :
    forall b (g : G),
      net_WeightSize (net_set_Training b g) = net_WeightSize g;
  WeightSize_SetWeights :
    forall p (g : G), net_WeightSize (net_SetWeights p g) = net_WeightSize g;
  set_Training_twice :
    forall b c (g : G),
      net_set_Training b (net_set_Training c g) = net_set_Training b g;
  Initialize_sized :
    forall (r : I) (g : G) p,
      is_empty p = true ->
      n_elem (snd (Initialize r g p))
      = net_WeightSize (fst (Initialize r g p))
}.

(** [network.Gradient] fills the gradient it is given and keeps its
    shape. *)
Definition GradientKeepsShape : Prop :=
  forall p x e gr (g : G),
    same_shape (snd (net_Gradient p x e gr g)) gr = true.

(** The stages a core goes through inside [CheckNetwork]. *)
Definition HasLayers (s : FFN elem O I G) : Prop :=
  net_size (network s) <> 0.

Definition DimensionsBound (s : FFN elem O I G) : Prop :=
  HasLayers s /\ inputDimensionsAreSet s = true.

Definition WeightsSized (s : FFN elem O I G) : Prop :=
  DimensionsBound s /\ n_elem (parameters s) = net_WeightSize (network s).

Definition WeightsBound (s : FFN elem O I G) : Prop :=
  WeightsSized s /\ layerMemoryIsSet s = true.

(** The mode asked for by [CheckNetwork(.., setMode, mode)] is the mode of
    the core and the last one assigned to the graph. *)
Definition InMode (setMode mode : bool) (s : FFN elem O I G) : Prop :=
  setMode = true ->
  training s = mode /\ exists g, network s = net_set_Training mode g.

(** A core on which [CheckNetwork] finds nothing left to do: the graph has
    layers, both readiness flags are set, and the buffer is non-empty with
    one element per weight. *)
Definition Ready (s : FFN elem O I G) : Prop :=
  net_size (network s) <> 0 /\
  inputDimensionsAreSet s = true /\
  layerMemoryIsSet s = true /\
  is_empty (parameters s) = false /\
  n_elem (parameters s) = net_WeightSize (network s).

(** A graph that is deterministic on the columns of [X]: with the weights
    [p], a full forward pass leaves the graph as it was and computes [F],
    and [F] works column by column, so that the pass over any range of
    columns of [X] is that range of columns of the pass over [X]. *)
Record ComputesByColumn (p : Mat elem) (g : G) (X : Mat elem)
    (F : Mat elem -> Mat elem) : Prop := {
  forward_pure :
    forall first n buf,
      first + n <= n_cols X ->
      net_ForwardRange p (colptr_view first n X) buf 0
                       (SizeT.sub (net_size g) 1) g
      = (g, F (colptr_view first n X));
  forward_shape :
    forall first n,
      first + n <= n_cols X ->
      n_rows (F (colptr_view first n X)) = net_OutputSize g /\
      n_cols (F (colptr_view first n X)) = n;
  forward_columns :
    forall first n,
      first + n <= n_cols X ->
      mem (F (colptr_view first n X))
      = mem (colptr_view first n (F X));
  forward_wf : wf_Mat (F X) /\ n_rows (F X) = net_OutputSize g
               /\ n_cols (F X) = n_cols X
}.

(** The shape that [UpdateDimensions] works with: the recorded one, or the
    flat shape [[d]] when none is recorded. *)
Definition effective_shape (d : N) (s : FFN elem O I G) : list N :=
  match inputDimensions s with
  | [] => [d]
  | _ :: _ => inputDimensions s
  end.

(** The run [r] of a member function called on [s] is the refusal of an
    empty graph in the name of [caller]: the error is raised, the core is
    as it was, and nothing was asked of a collaborator. *)
Definition refused {A} (caller : string) (s : FFN elem O I G)
    (r : outcome A * FFN elem O I G * list (Event elem)) : Prop :=
  r = (Throw (invalid_argument
                (caller ++ ": cannot use network with no layers!")),
       s, []).

(** What [WarnMessageMaxIterations] writes to the log. *)
Definition warning_of (MaxIterations : option N) (samples : N)
    : list (Event elem) :=
  match MaxIterations with
  | Some m => if (m <? samples) && negb (m =? 0) then [EvWarn samples] else []
  | None => []
  end.

End Contracts.

(* ================================================================== *)
(** * The full-dataset passes, as the spec words them *)
(* ================================================================== *)

Section Sums.

Context {elem : Type} `{Elem elem}.
Context {O I G : Type}.
Context `{OutputLayerOps (elem := elem) O}.
Context `{LayerGraphOps (elem := elem) G}.
Context `{InitializerOps (elem := elem) I G}.

Variables (setMode_default training_default : bool).

Local Abbreviation M := (FFNMonad.M elem (FFN elem O I G)).
Local Open Scope ffn_scope.

(** The indices [first], [first + 1], ..., [first + count - 1]. *)
Definition indices (first : N) (count : nat) : list N :=
  map N.of_nat (seq (N.to_nat first) count).

(** The objectives in the order given, added up from the left. *)
Definition sum_objectives (start : elem) (es : list elem) : elem :=
  fold_left add es start.

(** The gradients in the order given, added to [g] from the left; [None]
    when two of them differ in shape. *)
Fixpoint sum_gradients (g : Mat elem) (gs : list (Mat elem))
    : option (Mat elem) :=
  match gs with
  | [] => Some g
  | h :: rest =>
      match mat_add g h with
      | Some g' => sum_gradients g' rest
      | None => None
      end
  end.

(** The single-example evaluations [Evaluate(parameters, i, 1)] for the
    given [i], one after the other. *)
Fixpoint Evaluate_each (parameters0 : MatArg elem) (examples : list N)
    : M (list elem) :=
  match examples with
  | [] => ret []
  | i :: rest =>
      e <- Evaluate_batch setMode_default training_default parameters0 i 1 ;;
      es <- Evaluate_each parameters0 rest ;;
      ret (e :: es)
  end.

(** "The sum of the N mini-batch evaluations". *)
Definition Evaluate_sum (parameters0 : MatArg elem) : M elem :=
  n <- gets (fun s => n_cols (predictors s)) ;;
  es <- Evaluate_each parameters0 (indices 0 (N.to_nat n)) ;;
  ret (sum_objectives zero es).

(** The single-example evaluations [EvaluateWithGradient(parameters, i,
    tmp, 1)] for the given [i], one after the other, each into a new
    [rows] x [cols] matrix. *)
Fixpoint EvaluateWithGradient_each (parameters0 : MatArg elem)
    (rows cols : N) (examples : list N) : M (list (elem * Mat elem)) :=
  match examples with
  | [] => ret []
  | i :: rest =>
      r <- EvaluateWithGradient_batch setMode_default training_default
             parameters0 i (Mat_new rows cols) 1 ;;
      rs <- EvaluateWithGradient_each parameters0 rows cols rest ;;
      ret (r :: rs)
  end.

(** "The sum of the N single-example objectives, the element-wise sum of
    the N single-example gradients": example 0 is evaluated into the
    caller's [gradient], every other example into a matrix of the size that
    came back for example 0. *)
Definition EvaluateWithGradient_sum (parameters0 : MatArg elem)
    (gradient : Mat elem) : M (elem * Mat elem) :=
  r0 <- EvaluateWithGradient_batch setMode_default training_default
          parameters0 0 gradient 1 ;;
  n <- gets (fun s => n_cols (predictors s)) ;;
  rs <- EvaluateWithGradient_each parameters0 (n_rows (snd r0))
          (n_cols (snd r0)) (indices 1 (N.to_nat n - 1)) ;;
  g <- checked "addition: incompatible matrix dimensions"
               (sum_gradients (snd r0) (map snd rs)) ;;
  ret (sum_objectives zero (map fst (r0 :: rs)), g).

(** ** Prediction in chunks *)

(** "Chunks of [batchSize], the last chunk possibly smaller": the first
    column and the number of columns of every chunk of [n] columns, in
    column order. *)
Definition chunks_of (n batchSize : N) : list (N * N) :=
  map (fun k => (k * batchSize, N.min batchSize (n - k * batchSize)))
      (indices 0 (N.to_nat ((n + batchSize - 1) / batchSize))).

(** Forwarding the given chunks of [predictors0] in turn, each into the
    same columns of [results]. *)
Fixpoint Predict_by_chunks (predictors0 : Mat elem)
    (chunks : list (N * N)) (results : Mat elem) : M (Mat elem) :=
  match chunks with
  | [] => ret results
  | (first, n) :: rest =>
      written <- Forward setMode_default training_default
                   (colptr_view first n predictors0)
                   (RefView (colptr_view first n results)) ;;
      Predict_by_chunks predictors0 rest (write_cols first written results)
  end.

(** No index that the loop of [Predict] reaches overflows when the batch
    size is added to it. *)
Definition steps_fit (n batchSize : N) : Prop :=
  forall q, q * batchSize < n -> q * batchSize + batchSize < SizeT.modulus.

(** The columns below [i] of [R] are those of [F X]. *)
Definition filled_below (X : Mat elem) (F : Mat elem -> Mat elem)
    (s : FFN elem O I G) (i : N) (R : Mat elem) : Prop :=
  firstn (N.to_nat (net_OutputSize (network s) * N.min i (n_cols X))) (mem R)
  = firstn (N.to_nat (net_OutputSize (network s) * N.min i (n_cols X)))
           (mem (F X)).

(** Checking the network again before a forward pass changes nothing on
    [s], whatever the last output was. *)
Definition Settled (rows : N) (s : FFN elem O I G) : Prop :=
  forall m,
    outcome_of (CheckNetwork_default setMode_default training_default
                  "FFN::Forward()" rows (set_networkOutput m s)) = Val tt /\
    state_of (CheckNetwork_default setMode_default training_default
                "FFN::Forward()" rows (set_networkOutput m s))
    = set_networkOutput m s.

End Sums.

(* ================================================================== *)
(** * Notions used to reason about runs *)
(* ================================================================== *)

Section RunNotions.

Context {elem St : Type}.

Local Abbreviation M := (FFNMonad.M elem St).

(** [r] with the calls [t] made before it. *)
Definition after {A} (t : list (Event elem))
    (r : outcome A * St * list (Event elem))
    : outcome A * St * list (Event elem) :=
  (outcome_of r, state_of r, t ++ trace_of r).

(** [c] leaves the projection [f] of the state as it found it. *)
Definition preserves {A X} (f : St -> X) (c : M A) : Prop :=
  forall s, f (state_of (c s)) = f s.

(** Started where [P] holds, [c] returns only where [Q] holds. *)
Definition ensures {A} (P : St -> Prop) (c : M A) (Q : St -> Prop) : Prop :=
  forall s a s' t, P s -> c s = (Val a, s', t) -> Q s'.

End RunNotions.

(* ================================================================== *)
(** * Further notions: the states the life cycle steps lead to *)
(* ================================================================== *)

Section MoreNotions.

Context {elem : Type} `{Elem elem}.
Context {O I G : Type}.
Context `{OutputLayerOps (elem := elem) O}.
Context `{LayerGraphOps (elem := elem) G}.
Context `{InitializerOps (elem := elem) I G}.

(** The mathematical product and sum of a shape. *)
Definition dims_product (dims : list N) : N := fold_left N.mul dims 1.

Definition dims_sum (dims : list N) : N := fold_left N.add dims 0.

(** The core after [SetNetworkMode(mode)]. *)
Definition mode_set (mode : bool) (s : FFN elem O I G) : FFN elem O I G :=
  set_network (net_set_Training mode (network s)) (set_training mode s).

(** The core after [InitializeWeights()]. *)
Definition weights_initialized (s : FFN elem O I G) : FFN elem O I G :=
  set_parameters
    (snd (Initialize (initializeRule s)
                     (net_set_Training false (network s)) (parameters s)))
    (set_network
       (fst (Initialize (initializeRule s)
                        (net_set_Training false (network s)) (parameters s)))
       (mode_set false s)).

(** The core after a [SetLayerMemory()] whose assertion holds. *)
Definition weights_bound (s : FFN elem O I G) : FFN elem O I G :=
  set_layerMemoryIsSet true
    (set_network (net_SetWeights (parameters s) (network s)) s).

(** The core after an [UpdateDimensions(_, d)] that returns. *)
Definition dimensions_updated (d : N) (s : FFN elem O I G)
    : FFN elem O I G :=
  let dims := effective_shape d s in
  if dims_eqb dims (net_InputDimensions (network s))
  then set_inputDimensionsAreSet true (set_inputDimensions dims s)
  else set_inputDimensionsAreSet true
         (set_network
            (net_ComputeOutputDimensions
               (net_set_InputDimensions dims (network s)))
            (set_inputDimensions dims s)).

(** The graph gives back the input shape it was given, and computing the
    output dimensions does not change it. *)
Record DimensionLaws : Prop := {
  InputDimensions_set :
    forall d (g : G), net_InputDimensions (net_set_InputDimensions d g) = d;
  InputDimensions_Compute :
    forall (g : G),
      net_InputDimensions (net_ComputeOutputDimensions g)
      = net_InputDimensions g
}.

(** A ready core whose recorded shape is the one the graph has, and agrees
    with the input size [d] (or [d] is zero). *)
Definition Consistent (d : N) (s : FFN elem O I G) : Prop :=
  Ready s /\
  inputDimensions s <> [] /\
  inputDimensions s = net_InputDimensions (network s) /\
  (totalInputSize (inputDimensions s) = d \/ d = 0).

(** How [CheckNetwork] ends on a core [s] with the calls [t] made so far:
    the mode is assigned when [setMode] is set. *)
Definition finished (setMode mode : bool) (s : FFN elem O I G)
    (t : list (Event elem)) : outcome unit * FFN elem O I G * list (Event elem) :=
  if setMode
  then (Val tt, mode_set mode s, t ++ [EvTraining mode])
  else (Val tt, s, t).

(** Whether the buffer of [s] has to be initialized. *)
Definition needs_weights (s : FFN elem O I G) : bool :=
  is_empty (parameters s)
  || negb (n_elem (parameters s) =? net_WeightSize (network s)).

(** The core after the weight step of [CheckNetwork], and the calls the
    step makes. *)
Definition after_weight_step (s : FFN elem O I G) : FFN elem O I G :=
  if is_empty (parameters s) then weights_initialized s
  else if negb (n_elem (parameters s) =? net_WeightSize (network s))
  then weights_initialized (set_parameters empty_Mat s)
  else s.

Definition weight_step_calls (s : FFN elem O I G) : list (Event elem) :=
  if needs_weights s then [EvTraining false; EvInitialize] else [].

(** Whether a trace has a call of the initializer. *)
Definition initializes (t : list (Event elem)) : bool :=
  existsb (fun e => match e with EvInitialize => true | _ => false end) t.

End MoreNotions.

Section MoreRunNotions.

Context {elem St : Type}.

(** [c] never runs out of fuel. *)
Definition terminates {A} (c : FFNMonad.M elem St A) : Prop :=
  forall s, outcome_of (c s) <> OutOfFuel.

End MoreRunNotions.

(* ================================================================== *)
(** * A small instance of the collaborators *)
(* ================================================================== *)

(** Integer matrices; a graph that adds one shared bias, the first weight,
    to every entry of its input and has one weight per input row when it
    is [weighted], none otherwise (a graph of activation layers only); a
    loss that adds up the differences between prediction and target; and an
    initializer that fills the buffer with a constant. *)
Module Toy.

#[export] Instance Elem_Z : Elem Z := {|
  zero := 0%Z;
  add := Z.add;
  fresh := 0%Z
|}.

Record Graph : Type := mkGraph {
  layers : N;
  weighted : bool;
  dims : list N;
  rows : N;
  train : bool;
  bound : bool
}.

Definition bias (p : Mat Z) : Z := hd 0%Z (mem p).

Definition shift (p x : Mat Z) : Mat Z :=
  mkMat (n_rows x) (n_cols x) (map (fun v => (v + bias p)%Z) (mem x)).

Fixpoint zip_sub (a b : list Z) : list Z :=
  match a, b with
  | x :: a', y :: b' => (x - y)%Z :: zip_sub a' b'
  | _, _ => []
  end.

Definition total (l : list Z) : Z := fold_left Z.add l 0%Z.

#[export] Instance Graph_ops : LayerGraphOps (elem := Z) Graph := {|
  net_default := mkGraph 0 false [] 0 false false;
  net_size := layers;
  net_WeightSize := fun g => if weighted g then rows g else 0;
  net_OutputSize := rows;
  net_InputDimensions := dims;
  net_set_InputDimensions := fun d g =>
    mkGraph (layers g) (weighted g) d (rows g) (train g) (bound g);
  net_ComputeOutputDimensions := fun g =>
    mkGraph (layers g) (weighted g) (dims g) (fold_left N.mul (dims g) 1)
            (train g) (bound g);
  net_set_Training := fun b g =>
    mkGraph (layers g) (weighted g) (dims g) (rows g) b (bound g);
  net_SetWeights := fun _ g =>
    mkGraph (layers g) (weighted g) (dims g) (rows g) (train g) true;
  net_Forward := fun p x _ g => (g, shift p x);
  net_ForwardRange := fun p x _ _ _ g => (g, shift p x);
  net_Backward := fun _ _ e _ g => (g, e);
  net_Gradient := fun _ _ e gr g =>
    (g, mkMat (n_rows gr) (n_cols gr)
              (repeat (total (mem e)) (N.to_nat (n_elem gr))));
  net_Loss := fun _ _ => 0%Z
|}.

#[export] Instance Output_ops : OutputLayerOps (elem := Z) unit := {|
  out_Forward := fun _ y t => total (zip_sub (mem y) (mem t));
  out_Backward := fun _ y t _ =>
    mkMat (n_rows y) (n_cols y) (zip_sub (mem y) (mem t))
|}.

#[export] Instance Init_ops : InitializerOps (elem := Z) Z Graph := {|
  Initialize := fun v g p =>
    if is_empty p
    then (g, mkMat (net_WeightSize g) 1
                   (repeat v (N.to_nat (net_WeightSize g))))
    else (g, mkMat (n_rows p) (n_cols p) (repeat v (N.to_nat (n_elem p))))
|}.

Definition Core : Type := FFN Z unit Z Graph.

(** A freshly constructed core to which [count] layers were added and
    whose input shape was set to [shape]. *)
Definition core (count : N) (with_weights : bool) (shape : list N) : Core :=
  set_inputDimensions shape
    (set_network (mkGraph count with_weights [] 0 false false)
                 (FFN_new tt 7%Z)).

(** A 2 x 3 data set, column-major. *)
Definition data : Mat Z := mkMat 2 3 [1; 2; 3; 4; 5; 6]%Z.

Definition labels : Mat Z := mkMat 2 3 [0; 0; 1; 1; 2; 2]%Z.

End Toy.

(* ================================================================== *)
(** * Facts about size_t arithmetic and matrices *)
(* ================================================================== *)

Module SizeTFacts.

Lemma wrap_small n : n < SizeT.modulus -> SizeT.wrap n = n.
Proof. intros Hn. unfold SizeT.wrap. now apply N.mod_small. Qed.

Lemma add_small a b : a + b < SizeT.modulus -> SizeT.add a b = a + b.
Proof. intros Hab. unfold SizeT.add. now apply wrap_small. Qed.

Lemma sub_small a b :
  b <= a -> a < SizeT.modulus -> SizeT.sub a b = a - b.
Proof.
  intros Hle Hlt. unfold SizeT.sub.
  rewrite (@wrap_small b) by lia.
  unfold SizeT.wrap.
  replace (a + SizeT.modulus - b) with ((a - b) + 1 * SizeT.modulus) by lia.
  rewrite N.Div0.mod_add. apply N.mod_small. lia.
Qed.

Lemma mul_one_l d : d < SizeT.modulus -> SizeT.mul 1 d = d.
Proof. intros Hd. unfold SizeT.mul. rewrite N.mul_1_l. now apply wrap_small. Qed.

End SizeTFacts.

Section MatrixFacts.

Context {elem : Type} `{Elem elem}.

Lemma n_rows_set_size r c (m : Mat elem) : n_rows (set_size r c m) = r.
Proof.
  unfold set_size.
  destruct (andb _ _) eqn:E.
  - apply andb_true_iff in E. destruct E as [E _]. now apply N.eqb_eq in E.
  - destruct (n_elem m =? r * c); reflexivity.
Qed.

Lemma n_cols_set_size r c (m : Mat elem) : n_cols (set_size r c m) = c.
Proof.
  unfold set_size.
  destruct (andb _ _) eqn:E.
  - apply andb_true_iff in E. destruct E as [_ E]. now apply N.eqb_eq in E.
  - destruct (n_elem m =? r * c); reflexivity.
Qed.

Lemma wf_set_size r c (m : Mat elem) : wf_Mat m -> wf_Mat (set_size r c m).
Proof.
  intros Hwf. unfold set_size.
  destruct (andb _ _); [assumption|].
  destruct (n_elem m =? r * c) eqn:E.
  - apply N.eqb_eq in E. unfold wf_Mat, n_elem in *. simpl. now rewrite <- E.
  - unfold wf_Mat, Mat_new, n_elem. simpl. apply repeat_length.
Qed.

Lemma same_shape_iff (a b : Mat elem) :
  same_shape a b = true <-> n_rows a = n_rows b /\ n_cols a = n_cols b.
Proof. unfold same_shape. rewrite andb_true_iff, !N.eqb_eq. tauto. Qed.

Lemma Mat_eq (a b : Mat elem) :
  n_rows a = n_rows b -> n_cols a = n_cols b -> mem a = mem b -> a = b.
Proof. destruct a, b. simpl. intros -> -> ->. reflexivity. Qed.

Lemma cols_Some first last (m v : Mat elem) :
  cols first last m = Some v -> last < n_cols m.
Proof.
  unfold cols. destruct (andb _ _) eqn:E; [|discriminate].
  intros _. apply andb_true_iff in E. destruct E as [_ E].
  now apply N.ltb_lt in E.
Qed.

Lemma cols_of_none first last (m : Mat elem) :
  n_cols m = 0 -> cols first last m = None.
Proof.
  intros Hm. unfold cols. rewrite Hm.
  replace (last <? 0) with false by (symmetry; apply N.ltb_ge; lia).
  now rewrite andb_false_r.
Qed.

End MatrixFacts.

(* ================================================================== *)
(** * Reasoning about runs *)
(* ================================================================== *)

Section Runs.

Context {elem St : Type}.

Local Abbreviation M := (FFNMonad.M elem St).

Lemma after_nil {A} (r : outcome A * St * list (Event elem)) :
  after [] r = r.
Proof. destruct r as [[o s] t]. reflexivity. Qed.

Lemma after_after {A} t1 t2 (r : outcome A * St * list (Event elem)) :
  after t1 (after t2 r) = after (t1 ++ t2) r.
Proof. destruct r as [[o s] t]. unfold after. simpl. now rewrite app_assoc. Qed.

Lemma after_triple {A} (t1 : list (Event elem)) (o : outcome A) (s : St) t :
  after t1 (o, s, t) = (o, s, t1 ++ t).
Proof. reflexivity. Qed.

Lemma bind_Val {A B} (c : M A) (k : A -> M B) s a s1 t1 :
  c s = (Val a, s1, t1) -> bind c k s = after t1 (k a s1).
Proof.
  intros Hc. unfold bind. rewrite Hc.
  destruct (k a s1) as [[o s2] t2]. reflexivity.
Qed.

Lemma bind_ret {A B} (a : A) (k : A -> M B) s : bind (ret a) k s = k a s.
Proof. unfold bind, ret. now destruct (k a s) as [[o s2] t2]. Qed.

Lemma bind_gets {A B} (f : St -> A) (k : A -> M B) s :
  bind (gets f) k s = k (f s) s.
Proof. unfold bind, gets. now destruct (k (f s) s) as [[o s2] t2]. Qed.

Lemma bind_get {B} (k : St -> M B) s : bind get k s = k s s.
Proof. unfold bind, get. now destruct (k s s) as [[o s2] t2]. Qed.

Lemma bind_modify {B} (u : St -> St) (k : unit -> M B) s :
  bind (modify u) k s = k tt (u s).
Proof. unfold bind, modify. now destruct (k tt (u s)) as [[o s2] t2]. Qed.

Lemma bind_emit {B} e (k : unit -> M B) s :
  bind (emit e) k s = after [e] (k tt s).
Proof. unfold bind, emit. now destruct (k tt s) as [[o s2] t2]. Qed.

Lemma bind_throw {A B} e (k : A -> M B) s :
  bind (throw e) k s = (Throw e, s, []).
Proof. reflexivity. Qed.

Lemma bind_assoc {A B C} (c : M A) (k : A -> M B) (k' : B -> M C) s :
  bind (bind c k) k' s = bind c (fun a => bind (k a) k') s.
Proof.
  unfold bind. destruct (c s) as [[[a| e |] s1] t1]; try reflexivity.
  destruct (k a s1) as [[[b| e |] s2] t2]; try reflexivity.
  destruct (k' b s2) as [[o s3] t3]. now rewrite app_assoc.
Qed.

Lemma bind_if {A B} (b : bool) (c d : M A) (k : A -> M B) s :
  bind (if b then c else d) k s = if b then bind c k s else bind d k s.
Proof. now destruct b. Qed.

Lemma run_if {A} (b : bool) (c d : M A) s :
  (if b then c else d) s = if b then c s else d s.
Proof. now destruct b. Qed.

Lemma bind_Throw {A B} (c : M A) (k : A -> M B) s e s1 t1 :
  c s = (Throw e, s1, t1) -> bind c k s = (Throw e, s1, t1).
Proof. intros Hc. unfold bind. now rewrite Hc. Qed.

Lemma bind_OutOfFuel {A B} (c : M A) (k : A -> M B) s s1 t1 :
  c s = (OutOfFuel, s1, t1) -> bind c k s = (OutOfFuel, s1, t1).
Proof. intros Hc. unfold bind. now rewrite Hc. Qed.

Lemma run_eta {A} (r : outcome A * St * list (Event elem)) :
  r = (outcome_of r, state_of r, trace_of r).
Proof. destruct r as [[o s] t]. reflexivity. Qed.

(** A bind returns only if its first part returns. *)
Lemma outcome_after {A} t (r : outcome A * St * list (Event elem)) :
  outcome_of (after t r) = outcome_of r.
Proof. reflexivity. Qed.

Lemma state_after {A} t (r : outcome A * St * list (Event elem)) :
  state_of (after t r) = state_of r.
Proof. reflexivity. Qed.

Lemma trace_after {A} t (r : outcome A * St * list (Event elem)) :
  trace_of (after t r) = t ++ trace_of r.
Proof. reflexivity. Qed.

Lemma bind_Val_inv {A B} (c : M A) (k : A -> M B) s b s2 t :
  bind c k s = (Val b, s2, t) ->
  exists a s1 t1 t2,
    c s = (Val a, s1, t1) /\ k a s1 = (Val b, s2, t2) /\ t = t1 ++ t2.
Proof.
  unfold bind. destruct (c s) as [[[a| e |] s1] t1]; try discriminate.
  destruct (k a s1) as [[o s2'] t2] eqn:Hk.
  intros [= -> -> <-]. exists a, s1, t1, t2. auto.
Qed.

Lemma preserves_ret {A X} (f : St -> X) (a : A) : preserves f (ret a : M A).
Proof. intros s. reflexivity. Qed.

Lemma preserves_gets {A X} (f : St -> X) (g : St -> A) :
  preserves f (gets g : M A).
Proof. intros s. reflexivity. Qed.

Lemma preserves_throw {A X} (f : St -> X) e :
  preserves f (throw e : M A).
Proof. intros s. reflexivity. Qed.

Lemma preserves_out_of_fuel {A X} (f : St -> X) :
  preserves f (out_of_fuel : M A).
Proof. intros s. reflexivity. Qed.

Lemma preserves_emit {X} (f : St -> X) (e : Event elem) :
  preserves f (emit e).
Proof. intros s. reflexivity. Qed.

Lemma preserves_checked {A X} (f : St -> X) what (o : option A) :
  preserves f (checked what o : M A).
Proof. intros s. destruct o; reflexivity. Qed.

Lemma preserves_modify {X} (f : St -> X) (u : St -> St) :
  (forall s, f (u s) = f s) -> preserves f (modify u : M unit).
Proof. intros Hu s. apply Hu. Qed.

Lemma preserves_bind {A B X} (f : St -> X) (c : M A) (k : A -> M B) :
  preserves f c -> (forall a, preserves f (k a)) -> preserves f (bind c k).
Proof.
  intros Hc Hk s. unfold bind.
  specialize (Hc s). unfold state_of in *.
  destruct (c s) as [[[a| e |] s1] t1]; simpl in *; try assumption.
  specialize (Hk a s1). unfold state_of in Hk.
  destruct (k a s1) as [[o s2] t2]. simpl in *. congruence.
Qed.

Lemma ensures_ret {A} (P Q : St -> Prop) (a : A) :
  (forall s, P s -> Q s) -> ensures P (ret a : M A) Q.
Proof. intros HPQ s b s' t HP [= _ <- _]. auto. Qed.

Lemma ensures_throw {A} (P Q : St -> Prop) e :
  ensures P (throw e : M A) Q.
Proof. intros s a s' t _ Hrun. discriminate. Qed.

Lemma ensures_emit (P Q : St -> Prop) (e : Event elem) :
  (forall s, P s -> Q s) -> ensures P (emit e) Q.
Proof. intros HPQ s b s' t HP [= _ <- _]. auto. Qed.

Lemma ensures_modify (P Q : St -> Prop) (u : St -> St) :
  (forall s, P s -> Q (u s)) -> ensures P (modify u : M unit) Q.
Proof. intros HPQ s b s' t HP [= _ <- _]. auto. Qed.

Lemma ensures_bind {A B} (P R Q : St -> Prop) (c : M A) (k : A -> M B) :
  ensures P c R -> (forall a, ensures R (k a) Q) -> ensures P (bind c k) Q.
Proof.
  intros Hc Hk s b s' t HP Hrun.
  apply bind_Val_inv in Hrun.
  destruct Hrun as (a & s1 & t1 & t2 & H1 & H2 & _).
  eapply Hk; [|exact H2]. eapply Hc; eauto.
Qed.

(** Reading the state: the continuation runs where [P] holds and the value
    read is the one it was given. *)
Lemma ensures_gets {A B} (P Q : St -> Prop) (f : St -> A) (k : A -> M B) :
  (forall v, ensures (fun s => P s /\ f s = v) (k v) Q) ->
  ensures P (bind (gets f) k) Q.
Proof.
  intros Hk s b s' t HP Hrun. rewrite bind_gets in Hrun.
  eapply Hk; [|exact Hrun]. auto.
Qed.

Lemma ensures_weaken {A} (P P' Q Q' : St -> Prop) (c : M A) :
  ensures P' c Q' -> (forall s, P s -> P' s) -> (forall s, Q' s -> Q s) ->
  ensures P c Q.
Proof. intros Hc HP HQ s a s' t Hs Hrun. apply HQ. eapply Hc; eauto. Qed.

Lemma ensures_if {A} (P Q : St -> Prop) (b : bool) (c d : M A) :
  (b = true -> ensures P c Q) -> (b = false -> ensures P d Q) ->
  ensures P (if b then c else d) Q.
Proof. destruct b; auto. Qed.

Lemma preserves_if {A X} (f : St -> X) (b : bool) (c d : M A) :
  preserves f c -> preserves f d -> preserves f (if b then c else d).
Proof. destruct b; auto. Qed.

End Runs.

(** Splits a goal [preserves f c] along the structure of [c]; what remains
    are the state updates, solved by computation. *)
Ltac frame :=
  repeat first
    [ apply preserves_ret | apply preserves_gets | apply preserves_throw
    | apply preserves_out_of_fuel | apply preserves_emit
    | apply preserves_checked
    | apply preserves_modify; intros [];
      cbn;
      repeat match goal with
             | |- context [let (_, _) := ?x in _] => destruct x
             end;
      reflexivity
    | apply preserves_bind; [| intros ?]
    | apply preserves_if
    | match goal with
      | |- preserves _ (match ?x with _ => _ end) => destruct x
      end
    | assumption ].

(** Runs a computation symbolically as far as its head is determined. *)
Ltac step :=
  repeat first
    [ rewrite bind_assoc | rewrite bind_ret | rewrite bind_gets
    | rewrite bind_get | rewrite bind_modify | rewrite bind_emit
    | rewrite bind_throw | rewrite after_nil | rewrite after_after
    | rewrite after_triple ].

(* ================================================================== *)
(** * Properties of the core *)
(* ================================================================== *)

Section CoreFacts.

Context {elem : Type} `{Elem elem}.
Context {O I G : Type}.
Context `{OutputLayerOps (elem := elem) O}.
Context `{LayerGraphOps (elem := elem) G}.
Context `{InitializerOps (elem := elem) I G}.

(** The default arguments [setMode] and [training] of [CheckNetwork]. *)
Variables (sm td : bool).

Local Abbreviation Core := (FFN elem O I G).
Local Abbreviation M := (FFNMonad.M elem Core).
Local Open Scope ffn_scope.

(** ** Copy, move and deserialization *)

(** C5 (as amended).  Deserialization clears both readiness flags.  Move
    construction clears [layerMemoryIsSet] and carries
    [inputDimensionsAreSet] over from the source, and so does copy
    assignment; move assignment carries [inputDimensionsAreSet] over from
    the source as well. *)
Theorem readiness_flags_after_move_and_load :
  (forall (a : Archived elem O I G) (s : Core),
      layerMemoryIsSet (fst (serialize (Loading a) s)) = false /\
      inputDimensionsAreSet (fst (serialize (Loading a) s)) = false) /\
  (forall other : Core,
      layerMemoryIsSet (FFN_move other) = false /\
      inputDimensionsAreSet (FFN_move other) = inputDimensionsAreSet other) /\
  (forall other this : Core,
      inputDimensionsAreSet (move_assign (Some other) this)
      = inputDimensionsAreSet other).
Proof.
  split; [|split].
  - intros a s. split; reflexivity.
  - intros other. split; reflexivity.
  - intros other this. reflexivity.
Qed.

(** ** UpdateDimensions *)

Lemma totalInputSize_flat d :
  d < SizeT.modulus -> totalInputSize [d] = d.
Proof. intros Hd. unfold totalInputSize. simpl. now apply SizeTFacts.mul_one_l. Qed.

Lemma length_eqb_0 {A} (l : list A) :
  (N.of_nat (List.length l) =? 0) = match l with [] => true | _ => false end.
Proof. destruct l; reflexivity. Qed.

Lemma UpdateDimensions_throws functionName d (s : Core) :
  d < SizeT.modulus ->
  totalInputSize (effective_shape d s) <> d -> d <> 0 ->
  UpdateDimensions functionName d s
  = (Throw (logic_error
              (functionName ++
               ": input size does not match expected size set with InputDimensions()!")),
     s, []).
Proof.
  intros Hd Hne Hd0. unfold effective_shape in Hne.
  destruct (inputDimensions s) as [|x l] eqn:Hdims.
  - exfalso. apply Hne. now apply totalInputSize_flat.
  - unfold UpdateDimensions. step. rewrite length_eqb_0, Hdims. step.
    rewrite Hdims.
    apply N.eqb_neq in Hne, Hd0. rewrite Hne, Hd0. reflexivity.
Qed.

Lemma UpdateDimensions_returns functionName d (s : Core) :
  d < SizeT.modulus ->
  totalInputSize (effective_shape d s) = d \/ d = 0 ->
  outcome_of (UpdateDimensions functionName d s) = Val tt /\
  inputDimensions (state_of (UpdateDimensions functionName d s))
  = effective_shape d s /\
  inputDimensionsAreSet (state_of (UpdateDimensions functionName d s)) = true.
Proof.
  intros Hd Hok. unfold effective_shape in *.
  assert (Hcond :
            forall dims, (totalInputSize dims = d \/ d = 0) ->
                         negb (totalInputSize dims =? d) && negb (d =? 0)
                         = false).
  { intros dims [E | E].
    - apply N.eqb_eq in E. now rewrite E.
    - apply N.eqb_eq in E. rewrite E. now rewrite andb_false_r. }
  unfold UpdateDimensions. step. rewrite length_eqb_0.
  destruct (inputDimensions s) as [|x l] eqn:Hdims; step.
  - cbn [inputDimensions set_inputDimensions]. rewrite (Hcond [d] Hok). step.
    destruct (dims_eqb _ _); step; cbn; auto.
  - rewrite Hdims. rewrite (Hcond (x :: l) Hok). step.
    destruct (dims_eqb _ _); step; cbn; auto.
Qed.

Lemma wrap_wrap n : SizeT.wrap (SizeT.wrap n) = SizeT.wrap n.
Proof. unfold SizeT.wrap. apply N.Div0.mod_mod. Qed.

Lemma fold_mul_wrap dims :
  forall a b,
    SizeT.wrap a = SizeT.wrap b ->
    SizeT.wrap (fold_left SizeT.mul dims a)
    = SizeT.wrap (fold_left N.mul dims b).
Proof.
  induction dims as [|x dims IH]; intros a b Hab; cbn [fold_left].
  - exact Hab.
  - apply IH. unfold SizeT.mul. rewrite wrap_wrap.
    unfold SizeT.wrap in *.
    rewrite <- (N.Div0.mul_mod_idemp_l a), <- (N.Div0.mul_mod_idemp_l b).
    now rewrite Hab.
Qed.

Lemma fold_mul_lt dims :
  forall a, a < SizeT.modulus -> fold_left SizeT.mul dims a < SizeT.modulus.
Proof.
  induction dims as [|x dims IH]; intros a Ha; cbn [fold_left].
  - exact Ha.
  - apply IH. unfold SizeT.mul, SizeT.wrap. apply N.mod_lt. discriminate.
Qed.

Lemma totalInputSize_small (dims : list N) :
  dims_product dims < SizeT.modulus -> totalInputSize dims = dims_product dims.
Proof.
  intros Hlt. unfold totalInputSize, dims_product in *.
  rewrite <- (SizeTFacts.wrap_small (n := fold_left SizeT.mul dims 1))
    by (apply fold_mul_lt; reflexivity).
  rewrite (@fold_mul_wrap dims 1 1 eq_refl).
  now apply SizeTFacts.wrap_small.
Qed.

(** C8 (as amended).  [UpdateDimensions] raises the size-mismatch error
    exactly when the product of the shape it works with, as the code
    computes it in [size_t] (that is, modulo 2^64), differs from a nonzero
    [inputDimensionality].  Whenever the product of the shape is below
    2^64, this is exactly when the product itself differs from a nonzero
    argument.  A zero argument never raises.  When it raises, the core is
    exactly as it was: in particular the parameter buffer is untouched and
    [inputDimensionsAreSet] has not been set; nothing was asked of the layer
    graph. *)
Theorem UpdateDimensions_size_mismatch functionName d (s : Core) :
  d < SizeT.modulus ->
  let r := UpdateDimensions functionName d s in
  let mismatch := totalInputSize (effective_shape d s) <> d /\ d <> 0 in
  ((exists e, outcome_of r = Throw e) <-> mismatch) /\
  (mismatch ->
   r = (Throw (logic_error
                 (functionName ++
                  ": input size does not match expected size set with InputDimensions()!")),
        s, [])) /\
  (~ mismatch -> outcome_of r = Val tt) /\
  (d = 0 -> outcome_of r = Val tt) /\
  (dims_product (effective_shape d s) < SizeT.modulus ->
   ((exists e, outcome_of r = Throw e) <->
    dims_product (effective_shape d s) <> d /\ d <> 0)).
Proof.
  intros Hd r mismatch.
  assert (Hdec : mismatch \/ (totalInputSize (effective_shape d s) = d \/ d = 0)).
  { unfold mismatch.
    destruct (N.eq_dec (totalInputSize (effective_shape d s)) d);
      destruct (N.eq_dec d 0); auto. }
  assert (Hthrow : mismatch -> r = (Throw (logic_error
                 (functionName ++
                  ": input size does not match expected size set with InputDimensions()!")),
        s, [])).
  { intros [Hne Hd0]. now apply UpdateDimensions_throws. }
  assert (Hret : (totalInputSize (effective_shape d s) = d \/ d = 0) ->
                 outcome_of r = Val tt).
  { intros Hok. now apply UpdateDimensions_returns. }
  assert (Hiff : (exists e, outcome_of r = Throw e) <-> mismatch).
  { split.
    - intros [e He]. destruct Hdec as [Hm | Hok]; [exact Hm|].
      rewrite (Hret Hok) in He. discriminate.
    - intros Hm. rewrite (Hthrow Hm). eexists. reflexivity. }
  split; [exact Hiff|]. split; [exact Hthrow|]. split; [|split].
  - intros Hn. destruct Hdec as [Hm | Hok]; [contradiction | auto].
  - intros Hd0. apply Hret. now right.
  - intros Hfit. rewrite <- (@totalInputSize_small _ Hfit). exact Hiff.
Qed.

(** ** What the life cycle leaves alone *)

Lemma SetNetworkMode_data b :
  preserves (fun s : Core => (predictors s, responses s)) (SetNetworkMode b).
Proof. unfold SetNetworkMode. frame. Qed.

Lemma InitializeWeights_data :
  preserves (fun s : Core => (predictors s, responses s)) InitializeWeights.
Proof. unfold InitializeWeights. pose proof SetNetworkMode_data. frame. Qed.

Lemma SetLayerMemory_data :
  preserves (fun s : Core => (predictors s, responses s)) SetLayerMemory.
Proof. unfold SetLayerMemory, Log_Assert. frame. Qed.

Lemma UpdateDimensions_data functionName d :
  preserves (fun s : Core => (predictors s, responses s))
            (UpdateDimensions functionName d).
Proof. unfold UpdateDimensions. frame. Qed.

Lemma CheckNetwork_data functionName d setMode t :
  preserves (fun s : Core => (predictors s, responses s))
            (CheckNetwork functionName d setMode t).
Proof.
  unfold CheckNetwork.
  pose proof SetNetworkMode_data. pose proof InitializeWeights_data.
  pose proof SetLayerMemory_data. pose proof UpdateDimensions_data.
  frame.
Qed.

Lemma Evaluate_batch_data p begin_ batchSize :
  preserves (fun s : Core => (predictors s, responses s))
            (Evaluate_batch sm td p begin_ batchSize).
Proof.
  unfold Evaluate_batch, CheckNetwork_default, batch.
  pose proof CheckNetwork_data. frame.
Qed.

Lemma EvaluateWithGradient_batch_data p begin_ gradient batchSize :
  preserves (fun s : Core => (predictors s, responses s))
            (EvaluateWithGradient_batch sm td p begin_ gradient batchSize).
Proof.
  unfold EvaluateWithGradient_batch, CheckNetwork_default, batch.
  pose proof CheckNetwork_data. frame.
Qed.

(** ** An empty layer graph *)

Lemma CheckNetwork_no_layers functionName d setMode t (s : Core) :
  net_size (network s) = 0 ->
  refused functionName s (CheckNetwork functionName d setMode t s).
Proof.
  intros Hs. unfold refused, CheckNetwork. step. rewrite Hs. reflexivity.
Qed.

Lemma Forward_range_no_layers X R b e (s : Core) :
  net_size (network s) = 0 -> b <= e ->
  refused "FFN::Forward()" s (Forward_range sm td X R b e s).
Proof.
  intros Hs Hbe. unfold Forward_range.
  replace (e <? b) with false by (symmetry; apply N.ltb_ge; exact Hbe).
  unfold CheckNetwork_default. step.
  apply bind_Throw. now apply CheckNetwork_no_layers.
Qed.

Lemma EvaluateWithGradient_batch_no_layers p b g bs (s : Core) :
  net_size (network s) = 0 ->
  refused "FFN::EvaluateWithGradient()" s
          (EvaluateWithGradient_batch sm td p b g bs s).
Proof.
  intros Hs. unfold EvaluateWithGradient_batch, CheckNetwork_default. step.
  apply bind_Throw. now apply CheckNetwork_no_layers.
Qed.

Lemma Evaluate_batch_no_layers p b bs (s : Core) :
  net_size (network s) = 0 ->
  refused "FFN::Evaluate()" s (Evaluate_batch sm td p b bs s).
Proof.
  intros Hs. unfold Evaluate_batch, CheckNetwork_default. step.
  apply bind_Throw. now apply CheckNetwork_no_layers.
Qed.

(** C1 (as amended).  On a layer graph without layers, [Predict],
    [Forward] (with [begin <= end] when a range is given), both forms of
    [Evaluate] that take data or a batch, the full-dataset [Evaluate] over a
    non-empty dataset, both forms of [EvaluateWithGradient] and [Gradient]
    raise the invalid-argument error, named after the function that ran
    [CheckNetwork], with the core exactly as it was and before anything is
    asked of the graph or the initializer.  [Train] raises the same error
    after it has stored the dataset and switched the core and the graph to
    training mode; nothing else has changed by then. *)
Theorem empty_graph_is_refused (s : Core) :
  net_size (network s) = 0 ->
  (forall X R bs, refused "FFN::Predict()" s (Predict sm td X R bs s)) /\
  (forall X R, refused "FFN::Forward()" s (Forward sm td X R s)) /\
  (forall X R b e,
      b <= e -> refused "FFN::Forward()" s (Forward_range sm td X R b e s)) /\
  (forall X Y,
      refused "FFN::Evaluate()" s
              (Evaluate_predictors_responses sm td X Y s)) /\
  (forall p b bs,
      refused "FFN::Evaluate()" s (Evaluate_batch sm td p b bs s)) /\
  (forall p,
      0 < n_cols (predictors s) ->
      refused "FFN::Evaluate()" s (Evaluate sm td p s)) /\
  (forall p b g bs,
      refused "FFN::EvaluateWithGradient()" s
              (EvaluateWithGradient_batch sm td p b g bs s)) /\
  (forall p g,
      refused "FFN::EvaluateWithGradient()" s
              (EvaluateWithGradient sm td p g s)) /\
  (forall p b g bs,
      refused "FFN::EvaluateWithGradient()" s (Gradient sm td p b g bs s)) /\
  (forall X Y MaxIterations Optimize,
      net_size (net_set_Training true (network s)) = 0 ->
      Train X Y MaxIterations Optimize s
      = (Throw (invalid_argument
                  "FFN::Train(): cannot use network with no layers!"),
         set_network (net_set_Training true (network s))
                     (set_training true
                        (set_responses Y (set_predictors X s))),
         EvTraining true :: warning_of MaxIterations (n_cols X))).
Proof.
  intros Hs.
  repeat match goal with |- _ /\ _ => split end.
  - intros X R bs. unfold Predict.
    apply bind_Throw. now apply CheckNetwork_no_layers.
  - intros X R. unfold Forward. step.
    apply Forward_range_no_layers; [assumption | apply N.le_0_l].
  - intros X R b e Hbe. now apply Forward_range_no_layers.
  - intros X Y. unfold Evaluate_predictors_responses, CheckNetwork_default.
    apply bind_Throw. now apply CheckNetwork_no_layers.
  - intros p b bs. now apply Evaluate_batch_no_layers.
  - intros p Hn. unfold refused, Evaluate. step.
    cbn [Evaluate_loop]. step.
    replace (0 <? n_cols (predictors s)) with true
      by (symmetry; now apply N.ltb_lt).
    apply bind_Throw. now apply Evaluate_batch_no_layers.
  - intros p b g bs. now apply EvaluateWithGradient_batch_no_layers.
  - intros p g. unfold EvaluateWithGradient.
    apply bind_Throw. now apply EvaluateWithGradient_batch_no_layers.
  - intros p b g bs. unfold Gradient.
    apply bind_Throw. now apply EvaluateWithGradient_batch_no_layers.
  - intros X Y MaxIterations Optimize Hs'.
    unfold Train, ResetData, SetNetworkMode. step.
    cbn [training set_training network set_network set_responses
         set_predictors predictors n_cols n_rows].
    assert (HW : forall s0 : Core,
               WarnMessageMaxIterations MaxIterations (n_cols X) s0
               = (Val tt, s0, warning_of MaxIterations (n_cols X))).
    { intros s0. unfold WarnMessageMaxIterations, warning_of.
      destruct MaxIterations as [m|]; [|reflexivity].
      destruct ((m <? n_cols X) && negb (m =? 0)); reflexivity. }
    erewrite bind_Val; [|apply HW]. step.
    cbn [training set_training network set_network set_responses
         set_predictors predictors n_cols n_rows].
    erewrite bind_Throw.
    2:{ apply CheckNetwork_no_layers. exact Hs'. }
    rewrite after_triple, app_nil_r. reflexivity.
Qed.

(** ** The mini-batch objective *)

(** C9.  [Evaluate(parameters, begin, batchSize)] does not depend on its
    first argument: with any two matrices (the member [parameters] or a
    matrix of the caller) it returns the same loss, leaves the same core
    and makes the same calls.  When it returns, the loss is that of the
    output layer on the columns [begin .. begin + batchSize - 1] of the
    stored responses plus the loss of the graph, the same columns of the
    stored predictors having been in range. *)
Theorem Evaluate_batch_ignores_parameters
    (p1 p2 : MatArg elem) (begin_ batchSize : N) (s : Core) :
  Evaluate_batch sm td p1 begin_ batchSize s
  = Evaluate_batch sm td p2 begin_ batchSize s /\
  (forall v s' t,
      Evaluate_batch sm td p1 begin_ batchSize s = (Val v, s', t) ->
      exists x y,
        cols begin_ (SizeT.sub (SizeT.add begin_ batchSize) 1) (predictors s)
        = Some x /\
        cols begin_ (SizeT.sub (SizeT.add begin_ batchSize) 1) (responses s)
        = Some y /\
        v = add (out_Forward (outputLayer s') (networkOutput s') y)
                (net_Loss (parameters s') (network s'))).
Proof.
  split; [reflexivity|].
  intros v s' t. unfold Evaluate_batch, CheckNetwork_default. step.
  intros Hrun.
  apply bind_Val_inv in Hrun.
  destruct Hrun as ([] & s1 & t1 & t2 & Hcheck & Hrest & _).
  pose proof (CheckNetwork_data "FFN::Evaluate()" (n_rows (predictors s))
                                sm td s) as Hdata.
  unfold state_of in Hdata. rewrite Hcheck in Hdata. simpl in Hdata.
  injection Hdata as Hp Hr.
  revert Hrest. step.
  cbn [predictors responses set_networkOutput].
  rewrite Hp. unfold batch.
  destruct (cols begin_ _ (predictors s)) as [x|]; [|discriminate].
  cbn [checked]. step.
  destruct (net_Forward _ _ _ _) as [g out].
  cbn [responses set_networkOutput set_network]. rewrite Hr.
  destruct (cols begin_ _ (responses s)) as [y|]; [|discriminate].
  cbn [checked]. step. unfold gets.
  intros [= <- <- _]. exists x, y. auto.
Qed.

(** ** Forward, then Backward *)

Lemma assign_results_value (results : MatRef elem) (s s' : Core) out t :
  assign_results results s = (Val out, s', t) ->
  out = networkOutput s' /\ s' = s.
Proof.
  unfold assign_results. step.
  destruct results as [|m|v]; unfold ret.
  - intros [= <- <- _]. auto.
  - intros [= <- <- _]. auto.
  - destruct (n_elem v =? n_elem (networkOutput s)); [|discriminate].
    intros [= <- <- _]. auto.
Qed.

Lemma Forward_returns_networkOutput inputs results (s0 s : Core) out t :
  Forward sm td inputs results s0 = (Val out, s, t) ->
  out = networkOutput s.
Proof.
  unfold Forward, Forward_range. step.
  replace (SizeT.sub (net_size (network s0)) 1 <? 0) with false
    by (symmetry; apply N.ltb_ge; apply N.le_0_l).
  intros Hrun. apply bind_Val_inv in Hrun.
  destruct Hrun as ([] & s1 & t1 & t2 & _ & Hrest & _).
  revert Hrest. step. intros Hrest.
  now apply assign_results_value in Hrest.
Qed.

(** C2.  After a full-graph [Forward] that returned [out],
    [Backward(inputs, targets, gradients)] returns the loss of the output
    layer on [out] and [targets] plus the loss of the graph.  The gradient
    it hands back is what [network.Gradient] made of [gradients] resized to
    the rows and columns of the parameter buffer, and has that size when
    [network.Gradient] keeps the shape of the matrix it fills.  The
    parameter buffer is as it was, and neither the initializer nor the
    graph's life cycle is called. *)
Theorem Backward_after_Forward
    (inputs targets gradients : Mat elem) (results : MatRef elem)
    (s0 s : Core) (out : Mat elem) t0 :
  GradientKeepsShape (G := G) ->
  Forward sm td inputs results s0 = (Val out, s, t0) ->
  exists gradients' s',
    Backward inputs targets gradients s
    = (Val (add (out_Forward (outputLayer s) out targets)
                (net_Loss (parameters s) (network s)),
            gradients'),
       s', []) /\
    gradients'
    = snd (net_Gradient (parameters s') inputs (error s')
             (set_size (n_rows (parameters s)) (n_cols (parameters s))
                       gradients)
             (fst (net_Backward (parameters s) out
                     (out_Backward (outputLayer s) out targets (error s))
                     (networkDelta s) (network s)))) /\
    n_rows gradients' = n_rows (parameters s) /\
    n_cols gradients' = n_cols (parameters s) /\
    parameters s' = parameters s.
Proof.
  intros Hshape Hfwd.
  apply Forward_returns_networkOutput in Hfwd. subst out.
  unfold Backward. step.
  cbn [outputLayer networkOutput error parameters networkDelta network
       set_error].
  destruct (net_Backward (parameters s) (networkOutput s)
              (out_Backward (outputLayer s) (networkOutput s) targets
                            (error s))
              (networkDelta s) (network s)) as [g1 delta] eqn:Hback.
  cbn [outputLayer networkOutput error parameters networkDelta network
       set_error set_network set_networkDelta fst snd].
  unfold ret.
  eexists. eexists. split; [reflexivity|].
  cbn [outputLayer networkOutput error parameters networkDelta network
       set_error set_network set_networkDelta fst snd].
  split; [reflexivity|].
  pose proof (Hshape (parameters s) inputs
                (out_Backward (outputLayer s) (networkOutput s) targets
                              (error s))
                (set_size (n_rows (parameters s)) (n_cols (parameters s))
                          gradients) g1) as Hk.
  apply same_shape_iff in Hk. destruct Hk as [Hr Hc].
  rewrite n_rows_set_size in Hr. rewrite n_cols_set_size in Hc.
  auto.
Qed.

(** ** The full-dataset passes over an empty dataset *)

Lemma first_column_index : SizeT.sub (SizeT.add 0 1) 1 = 0.
Proof. reflexivity. Qed.

Lemma batch_empty begin_ batchSize (m : Mat elem) (s : Core) :
  n_cols m = 0 ->
  batch begin_ batchSize m s
  = (Throw (matrix_error
              "Mat::cols(): indices out of bounds or incorrectly used"),
     s, []).
Proof.
  intros Hm. unfold batch. now rewrite cols_of_none.
Qed.

Lemma EvaluateWithGradient_batch_Val_inv p b g bs (s s' : Core) v t :
  EvaluateWithGradient_batch sm td p b g bs s = (Val v, s', t) ->
  exists x, cols b (SizeT.sub (SizeT.add b bs) 1) (predictors s) = Some x.
Proof.
  unfold EvaluateWithGradient_batch, CheckNetwork_default. step.
  intros Hrun. apply bind_Val_inv in Hrun.
  destruct Hrun as ([] & s1 & t1 & t2 & Hcheck & Hrest & _).
  pose proof (CheckNetwork_data "FFN::EvaluateWithGradient()"
                                (n_rows (predictors s)) sm td s) as Hdata.
  unfold state_of in Hdata. rewrite Hcheck in Hdata. simpl in Hdata.
  injection Hdata as Hp Hr.
  revert Hrest. step. cbn [predictors set_networkOutput]. rewrite Hp.
  unfold batch at 1.
  destruct (cols b _ (predictors s)) as [x|]; [|discriminate].
  intros _. now exists x.
Qed.

(** C10.  The full-dataset [EvaluateWithGradient] evaluates the example in
    column 0 before its loop and without looking at the number of
    examples: it returns only if the stored predictors have a column 0.
    Over an empty dataset it runs [CheckNetwork] and then asks for the
    columns [0 .. 0] of the predictors, which the matrix library refuses,
    whereas the full-dataset [Evaluate] returns zero, leaves the core as it
    was and asks nothing of anyone. *)
Theorem EvaluateWithGradient_needs_an_example
    (p : MatArg elem) (gradient : Mat elem) (s : Core) :
  (forall v s' t,
      EvaluateWithGradient sm td p gradient s = (Val v, s', t) ->
      0 < n_cols (predictors s)) /\
  (n_cols (predictors s) = 0 ->
   Evaluate sm td p s = (Val zero, s, []) /\
   forall s1 t1,
     CheckNetwork_default sm td "FFN::EvaluateWithGradient()"
                          (n_rows (predictors s)) s = (Val tt, s1, t1) ->
     EvaluateWithGradient sm td p gradient s
     = (Throw (matrix_error
                 "Mat::cols(): indices out of bounds or incorrectly used"),
        set_networkOutput
          (set_size (net_OutputSize (network s1)) 1 (networkOutput s1)) s1,
        t1)).
Proof.
  split.
  - intros v s' t Hrun. unfold EvaluateWithGradient in Hrun.
    apply bind_Val_inv in Hrun.
    destruct Hrun as (r & s1 & t1 & t2 & Hfirst & _ & _).
    apply EvaluateWithGradient_batch_Val_inv in Hfirst.
    destruct Hfirst as [x Hx]. apply cols_Some in Hx.
    rewrite first_column_index in Hx. exact Hx.
  - intros Hn. split.
    + unfold Evaluate. step. cbn [Evaluate_loop]. step.
      rewrite Hn. reflexivity.
    + intros s1 t1 Hcheck.
      unfold EvaluateWithGradient. apply bind_Throw.
      unfold EvaluateWithGradient_batch. step.
      erewrite bind_Val; [|exact Hcheck]. step.
      cbn [predictors set_networkOutput].
      pose proof (CheckNetwork_data "FFN::EvaluateWithGradient()"
                                    (n_rows (predictors s)) sm td s) as Hdata.
      unfold CheckNetwork_default in Hcheck.
      unfold state_of in Hdata. rewrite Hcheck in Hdata. simpl in Hdata.
      injection Hdata as Hp Hr.
      erewrite bind_Throw; [|apply batch_empty; congruence].
      rewrite after_triple, app_nil_r. reflexivity.
Qed.

(** ** Running CheckNetwork twice *)

Section Lifecycle.

Hypothesis laws : LifecycleLaws (I := I) (G := G).

Lemma SetNetworkMode_run b (s : Core) :
  SetNetworkMode b s
  = (Val tt,
     set_network (net_set_Training b (network s)) (set_training b s),
     [EvTraining b]).
Proof. unfold SetNetworkMode. step. reflexivity. Qed.

Lemma UpdateDimensions_ensures functionName d :
  ensures (fun s : Core => HasLayers s)
          (UpdateDimensions functionName d) DimensionsBound.
Proof.
  unfold UpdateDimensions.
  apply ensures_gets; intros dims0.
  apply ensures_bind with (R := fun s : Core => HasLayers s).
  { apply ensures_if; intros _;
      [apply ensures_modify | apply ensures_ret]; intros s [Hs _]; exact Hs. }
  intros _. apply ensures_gets; intros dims.
  apply ensures_if; intros _; [apply ensures_throw|].
  apply ensures_gets; intros g.
  apply ensures_if; intros _.
  - apply ensures_modify. intros s [[Hs _] _]. split; [exact Hs | reflexivity].
  - apply ensures_bind with (R := fun s : Core => HasLayers s).
    { apply ensures_modify. intros s [[Hs _] _].
      unfold HasLayers in *. cbn. now rewrite (size_set_InputDimensions laws). }
    intros _.
    apply ensures_bind with (R := fun s : Core => HasLayers s).
    { apply ensures_modify. intros s Hs.
      unfold HasLayers in *. cbn.
      now rewrite (size_ComputeOutputDimensions laws). }
    intros _.
    apply ensures_bind with (R := fun s : Core => HasLayers s).
    { apply ensures_emit. auto. }
    intros _. apply ensures_modify. intros s Hs. split; [exact Hs | reflexivity].
Qed.

Lemma InitializeWeights_ensures :
  ensures (fun s : Core => DimensionsBound s /\ is_empty (parameters s) = true)
          InitializeWeights WeightsSized.
Proof.
  intros s [] s' t [[Hs Hd] He]. unfold InitializeWeights. step.
  erewrite bind_Val; [|apply SetNetworkMode_run]. step.
  cbn [outcome_of state_of trace_of fst snd initializeRule network
       parameters set_network set_training].
  unfold emit. rewrite after_triple. intros [= <- _].
  pose proof (Initialize_sized laws (initializeRule s)
                (net_set_Training false (network s)) (parameters s) He) as Hsz.
  pose proof (size_Initialize laws (initializeRule s)
                (net_set_Training false (network s)) (parameters s)) as Hn.
  destruct (Initialize (initializeRule s)
              (net_set_Training false (network s)) (parameters s))
    as [g p].
  cbn in Hsz, Hn.
  split; [split|].
  - unfold HasLayers in *. cbn. rewrite Hn.
    now rewrite (size_set_Training laws).
  - exact Hd.
  - exact Hsz.
Qed.

Lemma SetLayerMemory_ensures :
  ensures (fun s : Core => WeightsSized s) SetLayerMemory WeightsBound.
Proof.
  intros s [] s' t [[Hs Hd] Hsz]. unfold SetLayerMemory, Log_Assert. step.
  destruct (net_WeightSize (network s) =? n_elem (parameters s));
    [|discriminate].
  step. unfold modify. rewrite after_triple. intros [= <- _].
  split; [split; [split|]|].
  - unfold HasLayers in *. cbn. now rewrite (size_SetWeights laws).
  - exact Hd.
  - cbn. now rewrite (WeightSize_SetWeights laws).
  - reflexivity.
Qed.

Lemma SetNetworkMode_ensures mode :
  ensures (fun s : Core => WeightsBound s) (SetNetworkMode mode)
          (fun s => WeightsBound s /\ InMode true mode s).
Proof.
  intros s [] s' t [[[Hs Hd] Hsz] Hm]. rewrite SetNetworkMode_run.
  intros [= <- _].
  split; [split; [split; [split|]|]|].
  - unfold HasLayers in *. cbn. now rewrite (size_set_Training laws).
  - exact Hd.
  - cbn. now rewrite (WeightSize_set_Training laws).
  - exact Hm.
  - intros _. cbn. split; [reflexivity|]. now exists (network s).
Qed.

(** A call of [CheckNetwork] that returns leaves the core dimension-bound
    and weight-bound, the buffer sized to the graph, in the mode asked
    for. *)
Lemma CheckNetwork_ensures functionName d setMode mode :
  ensures (fun _ : Core => True)
          (CheckNetwork functionName d setMode mode)
          (fun s => WeightsBound s /\ InMode setMode mode s).
Proof.
  unfold CheckNetwork.
  apply ensures_gets; intros size.
  apply ensures_if; intros Hsize; [apply ensures_throw|].
  apply ensures_gets; intros dimsSet.
  apply ensures_bind with (R := DimensionsBound).
  { apply ensures_if; intros Hb.
    - eapply ensures_weaken; [apply UpdateDimensions_ensures| |auto].
      intros s [[_ Hs] _]. unfold HasLayers. rewrite Hs.
      now apply N.eqb_neq.
    - apply ensures_ret. intros s [[_ Hs] Hd]. split.
      + unfold HasLayers. rewrite Hs. now apply N.eqb_neq.
      + rewrite Hd. now destruct dimsSet. }
  intros _. apply ensures_gets; intros empty.
  apply ensures_bind with (R := WeightsSized).
  { apply ensures_if; intros He.
    - eapply ensures_weaken; [apply InitializeWeights_ensures| |auto].
      intros s [Hs Hemp]. split; [exact Hs | congruence].
    - apply ensures_gets; intros n. apply ensures_gets; intros w.
      apply ensures_if; intros Hnw.
      + apply ensures_bind
          with (R := fun s : Core =>
                       DimensionsBound s /\ is_empty (parameters s) = true).
        * apply ensures_modify. intros s [[[Hs _] _] _].
          split; [exact Hs | reflexivity].
        * intros _. apply InitializeWeights_ensures.
      + apply ensures_ret. intros s [[[Hs _] Hn] Hw]. split; [exact Hs|].
        apply negb_false_iff, N.eqb_eq in Hnw. congruence. }
  intros _. apply ensures_gets; intros memSet.
  apply ensures_bind with (R := WeightsBound).
  { apply ensures_if; intros Hb.
    - eapply ensures_weaken; [apply SetLayerMemory_ensures| |auto].
      now intros s [Hs _].
    - apply ensures_ret. intros s [Hs Hm]. split; [exact Hs|].
      rewrite Hm. now destruct memSet. }
  intros _. apply ensures_if; intros Hsm.
  - subst setMode. apply SetNetworkMode_ensures.
  - apply ensures_ret. intros s Hs. split; [exact Hs|].
    intros Habs. congruence.
Qed.

Lemma WeightsBound_Ready (s : Core) :
  WeightsBound s -> net_WeightSize (network s) <> 0 -> Ready s.
Proof.
  intros [[[Hs Hd] Hsz] Hm] Hw. unfold Ready. repeat split; auto.
  unfold is_empty. apply N.eqb_neq. congruence.
Qed.

End Lifecycle.

(** On a ready core [CheckNetwork] only assigns the mode, and only when
    asked to. *)
Lemma CheckNetwork_Ready functionName d setMode mode (s : Core) :
  Ready s ->
  CheckNetwork functionName d setMode mode s
  = if setMode
    then (Val tt,
          set_network (net_set_Training mode (network s))
                      (set_training mode s),
          [EvTraining mode])
    else (Val tt, s, []).
Proof.
  intros (Hs & Hd & Hm & He & Hsz). unfold CheckNetwork. step.
  apply N.eqb_neq in Hs. rewrite Hs. step. rewrite Hd. cbn [negb]. step.
  rewrite He. step. rewrite Hsz, N.eqb_refl. cbn [negb]. step.
  rewrite Hm. cbn [negb]. step.
  destruct setMode; [|reflexivity].
  unfold SetNetworkMode. step. reflexivity.
Qed.

(** C3 (as amended).  With a layer graph and an initializer that keep to
    [LifecycleLaws], a call of [CheckNetwork] that returns and leaves a
    graph with a nonzero weight size makes a second call with the same
    arguments return at once: the core is identical afterwards, the
    dimensions are not propagated again, the parameter buffer is not
    initialized again and the weights are not bound again; the one thing
    the second call does is to assign the mode again when [setMode] is
    set.  Running the call twice in a row therefore leaves the core that
    running it once leaves.  When the first call throws, the second is not
    reached. *)
Theorem CheckNetwork_twice functionName d setMode mode (s : Core) :
  LifecycleLaws (I := I) (G := G) ->
  (forall s1 t1,
      CheckNetwork functionName d setMode mode s = (Val tt, s1, t1) ->
      net_WeightSize (network s1) <> 0 ->
      CheckNetwork functionName d setMode mode s1
      = (Val tt, s1, if setMode then [EvTraining mode] else []) /\
      (CheckNetwork functionName d setMode mode ;;
       CheckNetwork functionName d setMode mode) s
      = (Val tt, s1, t1 ++ if setMode then [EvTraining mode] else [])) /\
  (forall e s1 t1,
      CheckNetwork functionName d setMode mode s = (Throw e, s1, t1) ->
      (CheckNetwork functionName d setMode mode ;;
       CheckNetwork functionName d setMode mode) s
      = (Throw e, s1, t1)).
Proof.
  intros laws. split.
  - intros s1 t1 Hrun Hw.
    assert (Hpost : WeightsBound s1 /\ InMode setMode mode s1).
    { eapply (CheckNetwork_ensures laws); [|exact Hrun]. exact Logic.I. }
    destruct Hpost as [Hb Hmode].
    assert (Hsecond :
              CheckNetwork functionName d setMode mode s1
              = (Val tt, s1, if setMode then [EvTraining mode] else [])).
    { rewrite (CheckNetwork_Ready _ _ _ _ (WeightsBound_Ready Hb Hw)).
      destruct setMode; [|reflexivity].
      destruct (Hmode eq_refl) as [Ht [g Hg]].
      f_equal. f_equal.
      rewrite Hg, (set_Training_twice laws), <- Hg, <- Ht.
      destruct s1; reflexivity. }
    split; [exact Hsecond|].
    erewrite bind_Val; [|exact Hrun]. rewrite Hsecond. reflexivity.
  - intros e s1 t1 Hrun. now apply bind_Throw.
Qed.

(** ** The full-dataset passes are sums of single-example passes *)

Lemma bind_cong {A B} (c : M A) (k k' : A -> M B) (s : Core) :
  (forall a s1 t1, c s = (Val a, s1, t1) -> k a s1 = k' a s1) ->
  bind c k s = bind c k' s.
Proof.
  intros Hk. unfold bind.
  destruct (c s) as [[[a| e |] s1] t1] eqn:Hc; try reflexivity.
  now rewrite (Hk a s1 t1 eq_refl).
Qed.

Lemma indices_S first count :
  indices first (S count) = first :: indices (first + 1) count.
Proof.
  unfold indices. cbn [seq map]. rewrite N2Nat.id. f_equal.
  replace (N.to_nat (first + 1)) with (S (N.to_nat first)) by lia.
  reflexivity.
Qed.

Lemma Evaluate_loop_done fuel p i res (s : Core) :
  n_cols (predictors s) <= i ->
  Evaluate_loop sm td fuel p i res s = (Val res, s, []).
Proof.
  intros Hi. apply N.ltb_ge in Hi.
  destruct fuel; cbn [Evaluate_loop]; step; now rewrite Hi.
Qed.

Lemma Evaluate_loop_S fuel p i res (s : Core) :
  i < n_cols (predictors s) ->
  Evaluate_loop sm td (S fuel) p i res s
  = bind (Evaluate_batch sm td p i 1)
         (fun e => Evaluate_loop sm td fuel p (SizeT.add i 1) (add res e)) s.
Proof.
  intros Hi. apply N.ltb_lt in Hi.
  cbn [Evaluate_loop]. step. now rewrite Hi.
Qed.

Lemma Evaluate_batch_n_cols p i bs (s s1 : Core) o t :
  Evaluate_batch sm td p i bs s = (o, s1, t) ->
  n_cols (predictors s1) = n_cols (predictors s).
Proof.
  intros Hrun. pose proof (Evaluate_batch_data p i bs s) as Hd.
  unfold state_of in Hd. rewrite Hrun in Hd. simpl in Hd. congruence.
Qed.

Lemma Evaluate_loop_each p count :
  forall fuel i res (s : Core),
    n_cols (predictors s) = i + N.of_nat count ->
    i + N.of_nat count < SizeT.modulus ->
    (count < fuel)%nat ->
    Evaluate_loop sm td fuel p i res s
    = bind (Evaluate_each sm td p (indices i count))
           (fun es => ret (sum_objectives res es)) s.
Proof.
  induction count as [|count IH]; intros fuel i res s Hn Hlt Hfuel.
  - rewrite Evaluate_loop_done by lia. reflexivity.
  - destruct fuel as [|fuel]; [lia|].
    rewrite Evaluate_loop_S by lia.
    rewrite indices_S. cbn [Evaluate_each]. step.
    apply bind_cong. intros e s1 t1 He.
    rewrite SizeTFacts.add_small by lia.
    rewrite IH.
    + step. reflexivity.
    + rewrite (Evaluate_batch_n_cols _ _ _ _ He). lia.
    + lia.
    + lia.
Qed.

Lemma EvaluateWithGradient_batch_n_cols p i g bs (s s1 : Core) o t :
  EvaluateWithGradient_batch sm td p i g bs s = (o, s1, t) ->
  n_cols (predictors s1) = n_cols (predictors s).
Proof.
  intros Hrun. pose proof (EvaluateWithGradient_batch_data p i g bs s) as Hd.
  unfold state_of in Hd. rewrite Hrun in Hd. simpl in Hd. congruence.
Qed.

Lemma mat_add_shape (a b c : Mat elem) :
  mat_add a b = Some c -> n_rows c = n_rows a /\ n_cols c = n_cols a.
Proof.
  unfold mat_add. destruct (same_shape a b); [|discriminate].
  intros [= <-]. auto.
Qed.

Lemma EvaluateWithGradient_loop_done fuel p i res g (s : Core) :
  n_cols (predictors s) <= i ->
  EvaluateWithGradient_loop sm td fuel p i res g s = (Val (res, g), s, []).
Proof.
  intros Hi. apply N.ltb_ge in Hi.
  destruct fuel; cbn [EvaluateWithGradient_loop]; step; now rewrite Hi.
Qed.

Lemma EvaluateWithGradient_loop_S fuel p i res g (s : Core) :
  i < n_cols (predictors s) ->
  EvaluateWithGradient_loop sm td (S fuel) p i res g s
  = bind (EvaluateWithGradient_batch sm td p i
            (Mat_new (n_rows g) (n_cols g)) 1)
         (fun r =>
            g' <- checked "addition: incompatible matrix dimensions"
                          (mat_add g (snd r)) ;;
            EvaluateWithGradient_loop sm td fuel p (SizeT.add i 1)
                                      (add res (fst r)) g') s.
Proof.
  intros Hi. apply N.ltb_lt in Hi.
  cbn [EvaluateWithGradient_loop]. step. now rewrite Hi.
Qed.

(** The loop returns exactly when every single-example pass returns and the
    gradients add up, with the sums as its result. *)
Lemma EvaluateWithGradient_loop_each p count :
  forall fuel i res g (s : Core) v s' t,
    n_cols (predictors s) = i + N.of_nat count ->
    i + N.of_nat count < SizeT.modulus ->
    (count <= fuel)%nat ->
    EvaluateWithGradient_loop sm td fuel p i res g s = (Val v, s', t) <->
    exists rs total,
      EvaluateWithGradient_each sm td p (n_rows g) (n_cols g)
                                (indices i count) s = (Val rs, s', t) /\
      sum_gradients g (map snd rs) = Some total /\
      v = (sum_objectives res (map fst rs), total).
Proof.
  induction count as [|count IH]; intros fuel i res g s v s' t Hn Hlt Hfuel.
  - rewrite EvaluateWithGradient_loop_done by lia. cbn. split.
    + intros [= <- <- <-]. exists [], g. auto.
    + intros (rs & total & [= <- <- <-] & [= <-] & ->). reflexivity.
  - destruct fuel as [|fuel]; [lia|].
    rewrite EvaluateWithGradient_loop_S by lia.
    rewrite indices_S. cbn [EvaluateWithGradient_each]. split.
    + intros Hrun. apply bind_Val_inv in Hrun.
      destruct Hrun as (r & s1 & t1 & t2 & Hr & Hrest & ->).
      revert Hrest. unfold checked.
      destruct (mat_add g (snd r)) as [g'|] eqn:Hadd; [|discriminate].
      step. intros Hloop.
      rewrite SizeTFacts.add_small in Hloop by lia.
      apply IH in Hloop;
        [| rewrite (EvaluateWithGradient_batch_n_cols _ _ _ _ _ Hr); lia
         | lia | lia].
      destruct Hloop as (rs & total & Heach & Hsum & ->).
      destruct (mat_add_shape _ _ Hadd) as [Hrows Hcols].
      rewrite Hrows, Hcols in Heach.
      exists (r :: rs), total. split; [|split].
      * erewrite bind_Val; [|exact Hr].
        erewrite bind_Val; [|exact Heach].
        unfold ret. rewrite !after_triple, app_nil_r. reflexivity.
      * cbn. now rewrite Hadd.
      * reflexivity.
    + intros (rs & total & Heach & Hsum & ->).
      apply bind_Val_inv in Heach.
      destruct Heach as (r & s1 & t1 & t2 & Hr & Hrest & ->).
      apply bind_Val_inv in Hrest.
      destruct Hrest as (rs' & s2 & t3 & t4 & Heach & Hret & ->).
      unfold ret in Hret. injection Hret as <- <- <-.
      cbn in Hsum.
      destruct (mat_add g (snd r)) as [g'|] eqn:Hadd; [|discriminate].
      destruct (mat_add_shape _ _ Hadd) as [Hrows Hcols].
      erewrite bind_Val; [|exact Hr].
      unfold checked. rewrite Hadd. step.
      rewrite SizeTFacts.add_small by lia.
      assert (Hloop :
                EvaluateWithGradient_loop sm td fuel p (i + 1)
                  (add res (fst r)) g' s1
                = (Val (sum_objectives (add res (fst r)) (map fst rs'),
                        total), s2, t3)).
      { apply IH;
          [ rewrite (EvaluateWithGradient_batch_n_cols _ _ _ _ _ Hr); lia
          | lia | lia |].
        exists rs', total. rewrite Hrows, Hcols. auto. }
      rewrite Hloop, after_triple, app_nil_r. reflexivity.
Qed.

(** C6.  Over a stored dataset, the full-dataset [Evaluate(parameters)] is
    the sum, taken from the left and starting from zero, of the
    single-example evaluations [Evaluate(parameters, i, 1)] made one after
    the other for [i = 0 .. N-1]: same result, same core, same calls.  With
    at least one example, the full-dataset [EvaluateWithGradient] returns
    exactly when the [N] single-example passes return and their gradients
    have one shape, and then its objective is the sum of the [N]
    objectives and its gradient the element-wise sum of the [N] gradients,
    both taken from the left. *)
Theorem full_dataset_passes_are_sums
    (p : MatArg elem) (gradient : Mat elem) (s : Core) :
  n_cols (predictors s) < SizeT.modulus ->
  Evaluate sm td p s = Evaluate_sum sm td p s /\
  (1 <= n_cols (predictors s) ->
   forall v s' t,
     EvaluateWithGradient sm td p gradient s = (Val v, s', t) <->
     EvaluateWithGradient_sum sm td p gradient s = (Val v, s', t)).
Proof.
  intros Hlt. split.
  - unfold Evaluate, Evaluate_sum. step.
    apply Evaluate_loop_each; [rewrite N2Nat.id; lia | rewrite N2Nat.id; lia | lia].
  - intros Hn v s' t.
    destruct (EvaluateWithGradient_batch sm td p 0 gradient 1 s)
      as [[[r0| e |] s1] t1] eqn:Hfirst;
      unfold EvaluateWithGradient, EvaluateWithGradient_sum.
    + pose proof (EvaluateWithGradient_batch_n_cols _ _ _ _ _ Hfirst) as Hcols.
      assert (E1 :
                EvaluateWithGradient sm td p gradient s
                = after t1
                    (EvaluateWithGradient_loop sm td
                       (N.to_nat (n_cols (predictors s))) p 1
                       (add zero (fst r0)) (snd r0) s1)).
      { unfold EvaluateWithGradient.
        erewrite bind_Val; [|exact Hfirst]. step. now rewrite Hcols. }
      assert (E2 :
                EvaluateWithGradient_sum sm td p gradient s
                = after t1
                    (bind (EvaluateWithGradient_each sm td p
                             (n_rows (snd r0)) (n_cols (snd r0))
                             (indices 1
                                (N.to_nat (n_cols (predictors s)) - 1)))
                          (fun rs =>
                             g <- checked
                                    "addition: incompatible matrix dimensions"
                                    (sum_gradients (snd r0) (map snd rs)) ;;
                             ret (sum_objectives zero (map fst (r0 :: rs)),
                                  g)) s1)).
      { unfold EvaluateWithGradient_sum.
        erewrite bind_Val; [|exact Hfirst]. step. now rewrite Hcols. }
      fold (EvaluateWithGradient sm td p gradient s).
      fold (EvaluateWithGradient_sum sm td p gradient s).
      rewrite E1, E2. clear E1 E2.
      destruct (EvaluateWithGradient_loop sm td
                  (N.to_nat (n_cols (predictors s))) p 1
                  (add zero (fst r0)) (snd r0) s1)
        as [[o2 s2] t2] eqn:Hloop.
      rewrite after_triple.
      split.
      * intros [= -> -> <-].
        apply (@EvaluateWithGradient_loop_each p
                 (N.to_nat (n_cols (predictors s)) - 1)%nat)
          in Hloop;
          [| lia | lia | lia].
        destruct Hloop as (rs & total & Heach & Hsum & ->).
        erewrite bind_Val; [|exact Heach].
        unfold checked. rewrite Hsum. step. unfold ret.
        rewrite !after_triple, app_nil_r. reflexivity.
      * intros Hsum.
        remember (EvaluateWithGradient_each sm td p (n_rows (snd r0))
                    (n_cols (snd r0))
                    (indices 1 (N.to_nat (n_cols (predictors s)) - 1)%nat))
          as each eqn:Heq.
        destruct (bind each _ s1) as [[o3 s3] t3] eqn:Hb.
        rewrite after_triple in Hsum. injection Hsum as -> -> <-.
        apply bind_Val_inv in Hb.
        destruct Hb as (rs & s4 & t4 & t5 & Heach & Hrest & ->).
        revert Hrest. unfold checked.
        destruct (sum_gradients (snd r0) (map snd rs)) as [total|] eqn:Hsum;
          [|discriminate].
        step. unfold ret. intros [= <- <- <-].
        subst each.
        assert (Hloop' :
                  EvaluateWithGradient_loop sm td
                    (N.to_nat (n_cols (predictors s))) p 1
                    (add zero (fst r0)) (snd r0) s1
                  = (Val (sum_objectives (add zero (fst r0)) (map fst rs),
                          total), s4, t4)).
        { apply (@EvaluateWithGradient_loop_each p
                   (N.to_nat (n_cols (predictors s)) - 1)%nat);
            [lia | lia | lia |].
          exists rs, total. auto. }
        rewrite Hloop' in Hloop. injection Hloop as <- <- <-.
        rewrite app_nil_r. reflexivity.
    + erewrite bind_Throw; [|exact Hfirst].
      erewrite bind_Throw; [|exact Hfirst]. reflexivity.
    + erewrite bind_OutOfFuel; [|exact Hfirst].
      erewrite bind_OutOfFuel; [|exact Hfirst]. reflexivity.
Qed.

(** ** Prediction does not depend on the batch size *)

Lemma firstn_plus {A} (a b : nat) (l : list A) :
  firstn (a + b) l = firstn a l ++ firstn b (skipn a l).
Proof.
  revert l. induction a as [|a IH]; intros l; [reflexivity|].
  destruct l as [|x l]; cbn.
  - now rewrite firstn_nil.
  - now rewrite IH.
Qed.

Lemma firstn_exact {A} (l r : list A) : firstn (List.length l) (l ++ r) = l.
Proof.
  rewrite firstn_app, Nat.sub_diag, firstn_all. cbn. apply app_nil_r.
Qed.

Lemma set_networkOutput_twice m m' (s : Core) :
  set_networkOutput m (set_networkOutput m' s) = set_networkOutput m s.
Proof. reflexivity. Qed.

Lemma set_network_same (s : Core) : set_network (network s) s = s.
Proof. now destruct s. Qed.

Lemma set_networkOutput_same (s : Core) :
  set_networkOutput (networkOutput s) s = s.
Proof. now destruct s. Qed.

Section Prediction.

Variables (X : Mat elem) (F : Mat elem -> Mat elem) (s1 : Core).

Hypothesis settled : Settled sm td (n_rows X) s1.
Hypothesis by_column : ComputesByColumn (parameters s1) (network s1) X F.

(** One turn of the loop of [Predict]: the chunk is forwarded and comes
    back as the chunk of [F X]. *)
Lemma Forward_chunk first n (R : Mat elem) m :
  first + n <= n_cols X ->
  n_rows R = net_OutputSize (network s1) ->
  exists t,
    Forward sm td (colptr_view first n X) (RefView (colptr_view first n R))
            (set_networkOutput m s1)
    = (Val (F (colptr_view first n X)),
       set_networkOutput (F (colptr_view first n X)) s1, t).
Proof.
  intros Hrange HR.
  destruct (settled m) as [Ho Hs].
  destruct (CheckNetwork_default sm td "FFN::Forward()" (n_rows X)
              (set_networkOutput m s1)) as [[o s'] t] eqn:Hcheck.
  cbn in Ho, Hs. subst o s'.
  exists (t ++ []).
  unfold Forward, Forward_range. step.
  replace (SizeT.sub _ 1 <? 0) with false
    by (symmetry; apply N.ltb_ge; apply N.le_0_l).
  change (n_rows (colptr_view first n X)) with (n_rows X).
  erewrite bind_Val; [|exact Hcheck]. step.
  cbn [network parameters networkOutput set_networkOutput set_network
       n_cols colptr_view].
  rewrite (forward_pure by_column) by exact Hrange.
  cbn [network parameters networkOutput set_networkOutput set_network].
  unfold assign_results. step.
  cbn [network parameters networkOutput set_networkOutput set_network].
  destruct (forward_shape by_column first n Hrange) as [Hrows Hcols].
  assert (Hsame : (n_elem (colptr_view first n R)
                   =? n_elem (F (colptr_view first n X))) = true).
  { apply N.eqb_eq. unfold n_elem. cbn [n_rows n_cols colptr_view].
    congruence. }
  rewrite Hsame. unfold ret. rewrite after_triple. reflexivity.
Qed.

Local Abbreviation agrees_below := (filled_below X F s1).

Lemma write_chunk_agrees bs q (R : Mat elem) :
  let i := q * bs in
  let n := N.min bs (n_cols X - i) in
  i < n_cols X ->
  n_rows R = net_OutputSize (network s1) ->
  n_cols R = n_cols X ->
  wf_Mat R ->
  agrees_below i R ->
  let R' := write_cols i (F (colptr_view i n X)) R in
  n_rows R' = net_OutputSize (network s1) /\
  n_cols R' = n_cols X /\
  wf_Mat R' /\
  agrees_below (i + bs) R'.
Proof.
  intros i n Hi Hrows Hcols Hwf Hagree R'.
  assert (Hrange : i + n <= n_cols X) by (unfold n; lia).
  destruct (forward_shape by_column i n Hrange) as [Hvr Hvc].
  pose proof (forward_columns by_column i n Hrange) as Hvm.
  destruct (forward_wf by_column) as (HwfF & HrF & HcF).
  cbn [mem colptr_view] in Hvm. rewrite HrF in Hvm.
  unfold wf_Mat, n_elem in Hwf, HwfF.
  rewrite Hrows, Hcols in Hwf. rewrite HrF, HcF in HwfF.
  unfold filled_below in Hagree.
  replace (N.min i (n_cols X)) with i in Hagree by lia.
  set (rows := net_OutputSize (network s1)) in *.
  assert (Hmem :
            mem R'
            = firstn (N.to_nat (rows * (i + n))) (mem (F X))
              ++ skipn (N.to_nat (rows * (i + n))) (mem R)).
  { unfold R', write_cols, n_elem. cbn [mem].
    rewrite Hrows, Hvr, Hvc, Hvm, Hagree.
    replace (rows * i + rows * n) with (rows * (i + n)) by lia.
    rewrite app_assoc. f_equal.
    replace (N.to_nat (rows * (i + n)))
      with (N.to_nat (rows * i) + N.to_nat (rows * n))%nat by lia.
    symmetry. apply firstn_plus. }
  assert (Hlen : List.length (firstn (N.to_nat (rows * (i + n))) (mem (F X)))
                 = N.to_nat (rows * (i + n))).
  { rewrite firstn_length_le; [reflexivity|]. rewrite HwfF. nia. }
  split; [exact Hrows|]. split; [exact Hcols|]. split.
  - unfold wf_Mat, n_elem. change (n_rows R') with (n_rows R).
    change (n_cols R') with (n_cols R). rewrite Hrows, Hcols, Hmem.
    rewrite length_app, Hlen, length_skipn, Hwf. nia.
  - unfold filled_below.
    replace (N.min (i + bs) (n_cols X)) with (i + n) by (unfold n; lia).
    rewrite Hmem.
    pose proof (firstn_exact
                  (firstn (N.to_nat (rows * (i + n))) (mem (F X)))
                  (skipn (N.to_nat (rows * (i + n))) (mem R))) as E.
    rewrite Hlen in E. exact E.
Qed.

Lemma Predict_loop_result bs :
  n_cols X < SizeT.modulus ->
  steps_fit (n_cols X) bs ->
  forall fuel q (R : Mat elem) m,
    n_rows R = net_OutputSize (network s1) ->
    n_cols R = n_cols X ->
    wf_Mat R ->
    agrees_below (q * bs) R ->
    n_cols X - q * bs <= N.of_nat fuel * bs ->
    outcome_of (Predict_loop sm td fuel X bs (q * bs) R
                             (set_networkOutput m s1))
    = Val (F X).
Proof.
  intros Hlt Hfit.
  induction fuel as [|fuel IH]; intros q R m Hrows Hcols Hwf Hagree Hfuel.
  - assert (Hdone : n_cols X <= q * bs) by lia.
    cbn [Predict_loop].
    replace (q * bs <? n_cols X) with false
      by (symmetry; now apply N.ltb_ge).
    cbn. destruct (forward_wf by_column) as (HwfF & HrF & HcF).
    f_equal. apply Mat_eq; try congruence.
    unfold filled_below in Hagree.
    replace (N.min (q * bs) (n_cols X)) with (n_cols X) in Hagree by lia.
    unfold wf_Mat, n_elem in Hwf, HwfF.
    rewrite Hrows, Hcols in Hwf. rewrite HrF, HcF in HwfF.
    rewrite <- Hwf in Hagree at 1. rewrite <- HwfF in Hagree.
    now rewrite !firstn_all in Hagree.
  - destruct (q * bs <? n_cols X) eqn:Hi.
    + apply N.ltb_lt in Hi.
      cbn [Predict_loop].
      replace (q * bs <? n_cols X) with true
        by (symmetry; now apply N.ltb_lt).
      rewrite SizeTFacts.sub_small by lia.
      set (n := N.min bs (n_cols X - q * bs)).
      destruct (@Forward_chunk (q * bs) n R m) as [t Hfwd];
        [unfold n; lia | exact Hrows |].
      erewrite bind_Val; [|exact Hfwd]. rewrite outcome_after.
      rewrite SizeTFacts.add_small by (apply Hfit; exact Hi).
      replace (q * bs + bs) with ((q + 1) * bs) by lia.
      destruct (@write_chunk_agrees bs q R Hi Hrows Hcols Hwf Hagree)
        as (Hr' & Hc' & Hwf' & Hag').
      apply IH; try assumption.
      * replace ((q + 1) * bs) with (q * bs + bs) by lia. exact Hag'.
      * lia.
    + apply N.ltb_ge in Hi.
      cbn [Predict_loop].
      replace (q * bs <? n_cols X) with false
        by (symmetry; now apply N.ltb_ge).
      cbn. destruct (forward_wf by_column) as (HwfF & HrF & HcF).
      f_equal. apply Mat_eq; try congruence.
      unfold filled_below in Hagree.
      replace (N.min (q * bs) (n_cols X)) with (n_cols X) in Hagree by lia.
      unfold wf_Mat, n_elem in Hwf, HwfF.
      rewrite Hrows, Hcols in Hwf. rewrite HrF, HcF in HwfF.
      rewrite <- Hwf in Hagree at 1. rewrite <- HwfF in Hagree.
      now rewrite !firstn_all in Hagree.
Qed.

End Prediction.

Lemma chunk_count q n bs :
  1 <= bs -> (q * bs < n <-> q < (n + bs - 1) / bs).
Proof.
  intros Hbs. split; intros Hq.
  - assert (Hle : q + 1 <= (n + bs - 1) / bs).
    { apply N.div_le_lower_bound; [lia | nia]. }
    lia.
  - pose proof (N.Div0.mul_div_le (n + bs - 1) bs) as Hle.
    nia.
Qed.

(** The loop of [Predict] forwards the chunks of [chunks_of] in order. *)
Lemma Predict_loop_by_chunks (X : Mat elem) bs :
  1 <= bs ->
  n_cols X < SizeT.modulus ->
  steps_fit (n_cols X) bs ->
  forall count fuel q (R : Mat elem) (s : Core),
    N.of_nat count + q = (n_cols X + bs - 1) / bs ->
    (count <= fuel)%nat ->
    Predict_loop sm td fuel X bs (q * bs) R s
    = Predict_by_chunks sm td X
        (map (fun k => (k * bs, N.min bs (n_cols X - k * bs)))
             (indices q count)) R s.
Proof.
  intros Hbs Hlt Hfit.
  induction count as [|count IH]; intros fuel q R s Hcount Hfuel.
  - assert (Hdone : n_cols X <= q * bs).
    { apply N.le_ngt. intros Hq. apply chunk_count in Hq; lia. }
    apply N.ltb_ge in Hdone.
    destruct fuel; cbn [Predict_loop indices seq map Predict_by_chunks];
      now rewrite Hdone.
  - destruct fuel as [|fuel]; [lia|].
    assert (Hq : q * bs < n_cols X) by (apply chunk_count; lia).
    rewrite indices_S. cbn [map Predict_by_chunks Predict_loop].
    replace (q * bs <? n_cols X) with true
      by (symmetry; now apply N.ltb_lt).
    rewrite SizeTFacts.sub_small by lia.
    apply bind_cong. intros written s' t' _.
    rewrite SizeTFacts.add_small by (now apply Hfit).
    replace (q * bs + bs) with ((q + 1) * bs) by lia.
    apply IH; lia.
Qed.

Lemma Predict_outcome (X R : Mat elem) F bs (s s1 : Core) t1 :
  wf_Mat R ->
  n_cols X < SizeT.modulus ->
  CheckNetwork "FFN::Predict()" (n_rows X) true false s = (Val tt, s1, t1) ->
  Settled sm td (n_rows X) s1 ->
  ComputesByColumn (parameters s1) (network s1) X F ->
  steps_fit (n_cols X) bs ->
  n_cols X <= N.of_nat (S (N.to_nat (n_cols X))) * bs ->
  outcome_of (Predict sm td X R bs s) = Val (F X).
Proof.
  intros HwfR Hlt Hcheck Hsettled Hcol Hfit Hfuel.
  unfold Predict. erewrite bind_Val; [|exact Hcheck]. step.
  rewrite outcome_after.
  rewrite <- (set_networkOutput_same s1) at 2.
  change 0 with (0 * bs) at 1.
  apply (@Predict_loop_result X F s1 Hsettled Hcol bs Hlt Hfit).
  - apply n_rows_set_size.
  - apply n_cols_set_size.
  - now apply wf_set_size.
  - unfold filled_below. rewrite N.mul_0_l.
    replace (N.min 0 (n_cols X)) with 0 by lia.
    now rewrite N.mul_0_r.
  - lia.
Qed.

(** C7.  Let [Predict]'s own check of the network pass and leave a core on
    which the check made before each forward pass changes nothing, with a
    graph that is deterministic on the predictors: a forward pass leaves it
    as it was and computes [F] column by column.  Then [Predict] with
    [batchSize] equal to the number [N] of examples and [Predict] with
    [batchSize = 1] return the same results, namely [F] of the
    predictors, of size [graph output size, N]; so does [Predict] with any
    [batchSize >= 1] that the column indices can be stepped by, and its
    loop forwards the chunks of [batchSize] columns in column order, the
    last one with the columns that remain, each into the same columns of
    the results. *)
Theorem Predict_batch_size_is_irrelevant
    (X R : Mat elem) (F : Mat elem -> Mat elem) (s s1 : Core) t1 :
  wf_Mat R ->
  n_cols X < SizeT.modulus ->
  CheckNetwork "FFN::Predict()" (n_rows X) true false s = (Val tt, s1, t1) ->
  Settled sm td (n_rows X) s1 ->
  ComputesByColumn (parameters s1) (network s1) X F ->
  outcome_of (Predict sm td X R (n_cols X) s) = Val (F X) /\
  outcome_of (Predict sm td X R 1 s) = Val (F X) /\
  n_rows (F X) = net_OutputSize (network s1) /\
  n_cols (F X) = n_cols X /\
  (forall bs,
      1 <= bs -> steps_fit (n_cols X) bs ->
      outcome_of (Predict sm td X R bs s) = Val (F X) /\
      forall R0 (s0 : Core),
        Predict_loop sm td (S (N.to_nat (n_cols X))) X bs 0 R0 s0
        = Predict_by_chunks sm td X (chunks_of (n_cols X) bs) R0 s0).
Proof.
  intros HwfR Hlt Hcheck Hsettled Hcol.
  assert (Hany : forall bs,
             steps_fit (n_cols X) bs ->
             n_cols X <= N.of_nat (S (N.to_nat (n_cols X))) * bs ->
             outcome_of (Predict sm td X R bs s) = Val (F X)).
  { intros bs Hfit Hfuel. eapply Predict_outcome; eauto. }
  destruct (forward_wf Hcol) as (_ & HrF & HcF).
  split; [|split; [|split; [|split]]].
  - apply Hany.
    + intros q Hq.
      assert (q = 0).
      { destruct (N.eq_dec q 0) as [|Hne]; [assumption|].
        assert (1 * n_cols X <= q * n_cols X)
          by (apply N.mul_le_mono_r; lia).
        lia. }
      subst q. lia.
    + nia.
  - apply Hany.
    + intros q Hq. lia.
    + lia.
  - exact HrF.
  - exact HcF.
  - intros bs Hbs Hfit. split.
    + apply Hany; [exact Hfit | nia].
    + intros R0 s0. unfold chunks_of.
      change 0 with (0 * bs) at 1.
      apply Predict_loop_by_chunks; try assumption.
      * rewrite N2Nat.id. lia.
      * assert ((n_cols X + bs - 1) / bs <= n_cols X); [|lia].
        destruct (N.eq_dec (n_cols X) 0) as [Hz|Hnz].
        -- rewrite Hz, N.div_small; lia.
        -- apply N.Div0.div_le_upper_bound.
           assert (Hb : exists b, bs = b + 1) by (exists (bs - 1); lia).
           destruct Hb as [b ->]. nia.
Qed.

(** ** Reset without an input dimensionality *)

Lemma of_int_lt z : SizeT.of_int z < SizeT.modulus.
Proof.
  unfold SizeT.of_int, SizeT.modulus.
  apply N2Z.inj_lt. rewrite Z2N.id.
  - change (Z.of_N (2 ^ 64)) with (2 ^ 64)%Z.
    apply Z.mod_pos_bound. reflexivity.
  - apply Z.mod_pos_bound. reflexivity.
Qed.

(** [Reset(0)] hands [CheckNetwork] what [std::accumulate] makes of the
    stored shape.  On a core whose dimensions are not bound yet,
    [UpdateDimensions] compares that number with the product of the shape
    and refuses it when the two differ. *)
Lemma Reset_zero_mismatch (s : Core) :
  net_size (network s) <> 0 ->
  inputDimensionsAreSet s = false ->
  inputDimensions s <> [] ->
  totalInputSize (inputDimensions s)
  <> SizeT.of_int (accumulate_int (inputDimensions s)) ->
  SizeT.of_int (accumulate_int (inputDimensions s)) <> 0 ->
  Reset 0 s
  = (Throw (logic_error
              "FFN::Reset(): input size does not match expected size set with InputDimensions()!"),
     set_parameters (clear (parameters s)) s, []).
Proof.
  intros Hsize Hflag Hdims Hne Hd0.
  unfold Reset. step. cbn [N.eqb negb]. step.
  cbn [inputDimensions set_parameters].
  unfold CheckNetwork. step.
  cbn [network inputDimensionsAreSet set_parameters].
  apply N.eqb_neq in Hsize. rewrite Hsize. step.
  cbn [network inputDimensionsAreSet set_parameters].
  rewrite Hflag. cbn [negb].
  apply bind_Throw. apply UpdateDimensions_throws.
  - apply of_int_lt.
  - unfold effective_shape. cbn [inputDimensions set_parameters].
    destruct (inputDimensions s); [contradiction | exact Hne].
  - exact Hd0.
Qed.

(** Where [Settled] comes from: a ready core is settled when the default
    of [CheckNetwork] leaves the mode alone, or asks for the mode the core
    and the graph are in already. *)
Lemma Ready_Settled rows (s1 : Core) :
  LifecycleLaws (I := I) (G := G) ->
  Ready s1 ->
  (sm = true ->
   training s1 = td /\ exists g, network s1 = net_set_Training td g) ->
  Settled sm td rows s1.
Proof.
  intros laws Hready Hmode m.
  assert (Hready' : Ready (set_networkOutput m s1)) by exact Hready.
  unfold CheckNetwork_default.
  rewrite (CheckNetwork_Ready _ _ _ _ Hready').
  destruct sm; [|split; reflexivity].
  destruct (Hmode eq_refl) as [Ht [g Hg]].
  split; [reflexivity|].
  cbn [state_of fst snd network set_networkOutput].
  rewrite Hg, (set_Training_twice laws), <- Hg, <- Ht.
  destruct s1; reflexivity.
Qed.

End CoreFacts.

(* ================================================================== *)
(** * The small instance: laws, runs, counterexamples *)
(* ================================================================== *)

Module ToyFacts.

Import Toy.

Local Open Scope ffn_scope.

Lemma laws : LifecycleLaws (I := Z) (G := Graph).
Proof.
  constructor; intros; try reflexivity.
  - cbn [Initialize Init_ops]. now destruct (is_empty p).
  - cbn [Initialize Init_ops]. rewrite H.
    cbn. apply N.mul_1_r.
Qed.

Lemma gradient_shape : GradientKeepsShape (G := Graph).
Proof. intros p x e gr g. apply same_shape_iff. split; reflexivity. Qed.

Lemma shift_by_column (p : Mat Z) (g : Graph) (X : Mat Z) :
  wf_Mat X -> n_rows X = rows g ->
  ComputesByColumn p g X (shift p).
Proof.
  intros Hwf Hrows. constructor.
  - intros first n buf _. reflexivity.
  - intros first n _. cbn. auto.
  - intros first n _. cbn [mem shift colptr_view n_rows].
    now rewrite <- firstn_map, <- skipn_map.
  - unfold wf_Mat, n_elem in *. cbn. rewrite length_map. auto.
Qed.

(** A core with one weighted layer for inputs of two rows, before and
    after [Predict]'s check of the network. *)
Lemma checked_core :
  CheckNetwork "FFN::Predict()" 2 true false (core 1 true [2])
  = (Val tt,
     state_of (CheckNetwork "FFN::Predict()" 2 true false (core 1 true [2])),
     trace_of (CheckNetwork "FFN::Predict()" 2 true false (core 1 true [2]))).
Proof. vm_compute. reflexivity. Qed.

Lemma checked_core_settled :
  Settled false false 2
    (state_of (CheckNetwork "FFN::Predict()" 2 true false (core 1 true [2]))).
Proof. intros m. split; vm_compute; reflexivity. Qed.


Lemma wf_data : wf_Mat data.
Proof. reflexivity. Qed.

(** *** C1 *)

Lemma empty_graph_is_refused_witness :
  net_size (network (core 0 true [2])) = 0 /\
  refused "FFN::Predict()" (core 0 true [2])
          (Predict false false data empty_Mat 1 (core 0 true [2])) /\
  refused "FFN::EvaluateWithGradient()" (core 0 true [2])
          (EvaluateWithGradient false false ArgParameters empty_Mat
                                (core 0 true [2])).
Proof.
  assert (Hempty : net_size (network (core 0 true [2])) = 0)
    by (vm_compute; reflexivity).
  split; [exact Hempty|].
  pose proof (@empty_graph_is_refused Z _ unit Z Graph _ _ _ false false
                (core 0 true [2]) Hempty) as Hall.
  split.
  - exact (proj1 Hall data empty_Mat 1).
  - exact (proj1 (proj2 (proj2 (proj2 (proj2 (proj2 (proj2 (proj2 Hall)))))))
                 ArgParameters empty_Mat).
Defined.

(** Against C1 as stated: [Train] on a graph without layers raises the
    error, but not with the core as it was: the dataset is stored and the mode is switched to
    training before the graph is looked at. *)
Lemma Train_on_empty_graph_changes_the_core :
  outcome_of (Train data labels None (ret 0%Z) (core 0 true [2]))
  = Throw (invalid_argument
             "FFN::Train(): cannot use network with no layers!") /\
  training (core 0 true [2]) = false /\
  training (state_of (Train data labels None (ret 0%Z) (core 0 true [2])))
  = true /\
  trace_of (Train data labels None (ret 0%Z) (core 0 true [2]))
  = [EvTraining true] /\
  ~ refused "FFN::Train()" (core 0 true [2])
            (Train data labels None (ret 0%Z) (core 0 true [2])).
Proof.
  split; [vm_compute; reflexivity|].
  split; [vm_compute; reflexivity|].
  split; [vm_compute; reflexivity|].
  split; [vm_compute; reflexivity|].
  intros Hr. unfold refused in Hr.
  apply (f_equal (fun r => training (state_of r))) in Hr.
  vm_compute in Hr. discriminate Hr.
Qed.

(** *** C2 *)

Lemma Backward_after_Forward_witness :
  GradientKeepsShape (G := Graph) /\
  exists gradients' s',
    Backward data labels empty_Mat
      (state_of (Forward false false data (RefMat empty_Mat)
                         (core 1 true [2])))
    = (Val (57%Z, gradients'), s', []) /\
    n_rows gradients' = 2 /\ n_cols gradients' = 1.
Proof.
  split; [exact gradient_shape|].
  assert (Hforward :
            Forward false false data (RefMat empty_Mat) (core 1 true [2])
            = (Val (networkOutput
                      (state_of (Forward false false data (RefMat empty_Mat)
                                         (core 1 true [2])))),
               state_of (Forward false false data (RefMat empty_Mat)
                                 (core 1 true [2])),
               trace_of (Forward false false data (RefMat empty_Mat)
                                 (core 1 true [2]))))
    by (vm_compute; reflexivity).
  destruct (@Backward_after_Forward Z _ unit Z Graph _ _ _ false false
              data labels empty_Mat (RefMat empty_Mat) (core 1 true [2])
              _ _ _ gradient_shape Hforward)
    as (g' & s' & Hrun & _ & Hrows & Hcols & _).
  exists g', s'. split; [|split].
  - rewrite Hrun. vm_compute. reflexivity.
  - rewrite Hrows. vm_compute. reflexivity.
  - rewrite Hcols. vm_compute. reflexivity.
Defined.

(** *** C3 *)

Lemma CheckNetwork_twice_witness :
  LifecycleLaws (I := Z) (G := Graph) /\
  CheckNetwork "FFN::Forward()" 2 false false
    (state_of (CheckNetwork "FFN::Forward()" 2 false false (core 1 true [2])))
  = (Val tt,
     state_of (CheckNetwork "FFN::Forward()" 2 false false (core 1 true [2])),
     []).
Proof.
  split; [exact laws|].
  assert (Hfirst :
            CheckNetwork "FFN::Forward()" 2 false false (core 1 true [2])
            = (Val tt,
               state_of (CheckNetwork "FFN::Forward()" 2 false false
                                      (core 1 true [2])),
               trace_of (CheckNetwork "FFN::Forward()" 2 false false
                                      (core 1 true [2]))))
    by (vm_compute; reflexivity).
  assert (Hweights :
            net_WeightSize
              (network (state_of (CheckNetwork "FFN::Forward()" 2 false false
                                               (core 1 true [2]))))
            <> 0)
    by (vm_compute; discriminate).
  exact (proj1 (proj1 (@CheckNetwork_twice Z unit Z Graph _ _
                         "FFN::Forward()" 2 false false (core 1 true [2])
                         laws)
                      _ _ Hfirst Hweights)).
Defined.

(** Against C3 as stated: on a graph without weights the buffer stays
    empty, so every call of [CheckNetwork] initializes it again; the second
    call in a row is not short-circuited. *)
Lemma CheckNetwork_twice_initializes_again :
  outcome_of (CheckNetwork "FFN::Forward()" 2 false false (core 1 false [2]))
  = Val tt /\
  trace_of
    (CheckNetwork "FFN::Forward()" 2 false false
       (state_of (CheckNetwork "FFN::Forward()" 2 false false
                               (core 1 false [2]))))
  = [EvTraining false; EvInitialize].
Proof. split; vm_compute; reflexivity. Qed.

(** *** C4 *)

(** C4, at an input on which the code departs from it.  [Reset(0)] on a
    core with one layer whose input shape was set to 2 x 3: the input size handed to [CheckNetwork] is the sum 5 of the
    dimensions, which [UpdateDimensions] compares with their product 6 and
    refuses, whereas [Reset(6)] binds the dimensions and sizes the buffer
    for them. *)
Theorem Reset_zero_adds_the_dimensions :
  SizeT.of_int (accumulate_int [2; 3]) = 5 /\
  totalInputSize [2; 3] = 6 /\
  Reset 0 (core 1 true [2; 3])
  = (Throw (logic_error
              "FFN::Reset(): input size does not match expected size set with InputDimensions()!"),
     core 1 true [2; 3], []) /\
  outcome_of (Reset 6 (core 1 true [2; 3])) = Val tt /\
  n_elem (parameters (state_of (Reset 6 (core 1 true [2; 3])))) = 6.
Proof.
  split; [vm_compute; reflexivity|].
  split; [vm_compute; reflexivity|].
  split; [vm_compute; reflexivity|].
  split; vm_compute; reflexivity.
Qed.

(** *** C5 *)

(** Against C5 as stated: moving a core whose dimensions are bound gives
    a core whose dimensions are bound. *)
Lemma FFN_move_keeps_inputDimensionsAreSet :
  inputDimensionsAreSet
    (FFN_move (state_of (CheckNetwork "FFN::Predict()" 2 true false
                                      (core 1 true [2]))))
  = true /\
  ~ (layerMemoryIsSet
       (FFN_move (state_of (CheckNetwork "FFN::Predict()" 2 true false
                                         (core 1 true [2]))))
     = false /\
     inputDimensionsAreSet
       (FFN_move (state_of (CheckNetwork "FFN::Predict()" 2 true false
                                         (core 1 true [2]))))
     = false).
Proof.
  split; [vm_compute; reflexivity|].
  intros [_ Hd]. vm_compute in Hd. discriminate Hd.
Qed.

(** *** C6 *)

Lemma full_dataset_passes_are_sums_witness :
  n_cols (predictors (set_responses labels (set_predictors data
                                              (core 1 true [2]))))
  < SizeT.modulus /\
  Evaluate false false ArgParameters
           (set_responses labels (set_predictors data (core 1 true [2])))
  = Evaluate_sum false false ArgParameters
                 (set_responses labels (set_predictors data (core 1 true [2]))).
Proof.
  assert (Hsmall :
            n_cols (predictors (set_responses labels
                                  (set_predictors data (core 1 true [2]))))
            < SizeT.modulus)
    by (vm_compute; reflexivity).
  split; [exact Hsmall|].
  exact (proj1 (@full_dataset_passes_are_sums Z _ unit Z Graph _ _ _
                  false false ArgParameters empty_Mat
                  (set_responses labels
                     (set_predictors data (core 1 true [2])))
                  Hsmall)).
Defined.

(** *** C7 *)

Lemma Predict_batch_size_is_irrelevant_witness :
  wf_Mat (elem := Z) empty_Mat /\
  n_cols data < SizeT.modulus /\
  outcome_of (Predict false false data empty_Mat 3 (core 1 true [2]))
  = outcome_of (Predict false false data empty_Mat 1 (core 1 true [2])).
Proof.
  assert (Hwf : wf_Mat (elem := Z) empty_Mat) by (vm_compute; reflexivity).
  assert (Hsmall : n_cols data < SizeT.modulus) by (vm_compute; reflexivity).
  split; [exact Hwf|]. split; [exact Hsmall|].
  assert (Hrows :
            n_rows data
            = rows (network (state_of (CheckNetwork "FFN::Predict()" 2 true
                                                    false (core 1 true [2])))))
    by (vm_compute; reflexivity).
  destruct (@Predict_batch_size_is_irrelevant Z _ unit Z Graph _ _
              false false data empty_Mat
              (shift (parameters
                        (state_of (CheckNetwork "FFN::Predict()" 2 true false
                                                (core 1 true [2])))))
              (core 1 true [2]) _ _
              Hwf Hsmall checked_core checked_core_settled
              (shift_by_column _ _ wf_data Hrows))
    as (Hall & Hone & _).
  exact (eq_trans Hall (eq_sym Hone)).
Defined.

(** Seven columns in chunks of three, and in chunks of one. *)
Lemma chunks_of_seven :
  chunks_of 7 3 = [(0, 3); (3, 3); (6, 1)] /\
  chunks_of 3 1 = [(0, 1); (1, 1); (2, 1)] /\
  chunks_of 3 3 = [(0, 3)].
Proof. repeat split. Qed.

(** *** C8 *)

Lemma UpdateDimensions_size_mismatch_witness :
  5 < SizeT.modulus /\
  UpdateDimensions "FFN::Predict()" 5 (core 1 true [2; 3])
  = (Throw (logic_error
              "FFN::Predict(): input size does not match expected size set with InputDimensions()!"),
     core 1 true [2; 3], []).
Proof.
  assert (Hsmall : 5 < SizeT.modulus) by (vm_compute; reflexivity).
  split; [exact Hsmall|].
  assert (Hmismatch :
            totalInputSize (effective_shape 5 (core 1 true [2; 3])) <> 5
            /\ 5 <> 0)
    by (split; vm_compute; discriminate).
  exact (proj1 (proj2 (@UpdateDimensions_size_mismatch Z unit Z Graph _
                         "FFN::Predict()" 5 (core 1 true [2; 3]) Hsmall))
               Hmismatch).
Defined.

(** Against C8 as stated: the product of the shape [2; 2^63 + 3] is
    2^64 + 6, which differs from the nonzero input size 6, yet
    [UpdateDimensions] raises nothing, records the shape and marks the
    dimensions bound: the product it computes in [size_t] wraps to 6. *)
Lemma UpdateDimensions_accepts_a_wrapped_product :
  dims_product (effective_shape 6 (core 1 true [2; 9223372036854775811]))
  = 18446744073709551622 /\
  dims_product (effective_shape 6 (core 1 true [2; 9223372036854775811]))
  <> 6 /\
  6 <> 0 /\
  6 < SizeT.modulus /\
  totalInputSize (effective_shape 6 (core 1 true [2; 9223372036854775811]))
  = 6 /\
  outcome_of (UpdateDimensions "FFN::Predict()" 6
                (core 1 true [2; 9223372036854775811]))
  = Val tt /\
  inputDimensionsAreSet
    (state_of (UpdateDimensions "FFN::Predict()" 6
                 (core 1 true [2; 9223372036854775811])))
  = true /\
  ~ (exists e,
        outcome_of (UpdateDimensions "FFN::Predict()" 6
                      (core 1 true [2; 9223372036854775811]))
        = Throw e).
Proof.
  split; [vm_compute; reflexivity|].
  split; [vm_compute; discriminate|].
  split; [discriminate|].
  split; [vm_compute; reflexivity|].
  split; [vm_compute; reflexivity|].
  split; [vm_compute; reflexivity|].
  split; [vm_compute; reflexivity|].
  intros [e He]. vm_compute in He. discriminate He.
Qed.

(** *** C10 *)

Lemma EvaluateWithGradient_needs_an_example_witness :
  n_cols (predictors (core 1 true [2])) = 0 /\
  Evaluate false false ArgParameters (core 1 true [2])
  = (Val 0%Z, core 1 true [2], []) /\
  outcome_of (EvaluateWithGradient false false ArgParameters empty_Mat
                                   (core 1 true [2]))
  = Throw (matrix_error
             "Mat::cols(): indices out of bounds or incorrectly used").
Proof.
  assert (Hnone : n_cols (predictors (core 1 true [2])) = 0)
    by (vm_compute; reflexivity).
  split; [exact Hnone|].
  assert (Hcheck :
            CheckNetwork_default false false "FFN::EvaluateWithGradient()"
              (n_rows (predictors (core 1 true [2]))) (core 1 true [2])
            = (Val tt,
               state_of (CheckNetwork_default false false
                           "FFN::EvaluateWithGradient()"
                           (n_rows (predictors (core 1 true [2])))
                           (core 1 true [2])),
               trace_of (CheckNetwork_default false false
                           "FFN::EvaluateWithGradient()"
                           (n_rows (predictors (core 1 true [2])))
                           (core 1 true [2]))))
    by (vm_compute; reflexivity).
  destruct (proj2 (@EvaluateWithGradient_needs_an_example Z _ unit Z Graph
                     _ _ _ false false ArgParameters empty_Mat
                     (core 1 true [2]))
                  Hnone) as [Hev Hgrad].
  split; [exact Hev|].
  rewrite (Hgrad _ _ Hcheck). reflexivity.
Defined.

End ToyFacts.
(* ================================================================== *)
(** * Runs that do not run out of fuel *)
(* ================================================================== *)

Section MoreRuns.

Context {elem St : Type}.

Local Abbreviation M := (FFNMonad.M elem St).

Lemma outcome_bind {A B} (c : M A) (k : A -> M B) s :
  outcome_of (bind c k s)
  = match outcome_of (c s) with
    | Val a => outcome_of (k a (state_of (c s)))
    | Throw e => Throw e
    | OutOfFuel => OutOfFuel
    end.
Proof.
  unfold bind, outcome_of, state_of.
  destruct (c s) as [[[a| e |] s1] t1]; cbn; try reflexivity.
  now destruct (k a s1) as [[o s2] t2].
Qed.

Lemma terminates_ret {A} (a : A) : terminates (ret a : M A).
Proof. intros s. discriminate. Qed.

Lemma terminates_gets {A} (g : St -> A) : terminates (gets g : M A).
Proof. intros s. discriminate. Qed.

Lemma terminates_throw {A} e : terminates (throw e : M A).
Proof. intros s. discriminate. Qed.

Lemma terminates_emit (e : Event elem) : terminates (emit e : M unit).
Proof. intros s. discriminate. Qed.

Lemma terminates_modify (u : St -> St) : terminates (modify u : M unit).
Proof. intros s. discriminate. Qed.

Lemma terminates_checked {A} what (o : option A) :
  terminates (checked what o : M A).
Proof. intros s. destruct o; discriminate. Qed.

Lemma terminates_bind {A B} (c : M A) (k : A -> M B) :
  terminates c -> (forall a, terminates (k a)) -> terminates (bind c k).
Proof.
  intros Hc Hk s. rewrite outcome_bind.
  specialize (Hc s).
  destruct (outcome_of (c s)); [apply Hk | discriminate | congruence].
Qed.

Lemma terminates_if {A} (b : bool) (c d : M A) :
  terminates c -> terminates d -> terminates (if b then c else d).
Proof. now destruct b. Qed.

Lemma state_bind_ret {A B} (c : M A) (f : A -> B) s :
  state_of (bind c (fun a => ret (f a)) s) = state_of (c s).
Proof.
  unfold bind, state_of. now destruct (c s) as [[[a| e |] s1] t1].
Qed.

Lemma preserves_ensures {A X} (f : St -> X) (c : M A) (v : X) :
  preserves f c -> ensures (fun s => f s = v) c (fun s => f s = v).
Proof.
  intros Hp s a s' t Hs Hrun. specialize (Hp s).
  unfold state_of in Hp. rewrite Hrun in Hp. cbn in Hp. congruence.
Qed.

Lemma ensures_anything {A} (P : St -> Prop) (c : M A) :
  ensures P c (fun _ => True).
Proof. intros s a s' t _ _. exact Logic.I. Qed.

End MoreRuns.

(** Splits a goal [terminates c] along the structure of [c]. *)
Ltac halts :=
  repeat first
    [ apply terminates_ret | apply terminates_gets | apply terminates_throw
    | apply terminates_emit | apply terminates_checked
    | apply terminates_modify
    | apply terminates_bind; [| intros ?]
    | apply terminates_if
    | match goal with
      | |- terminates (match ?x with _ => _ end) => destruct x
      end
    | assumption ].


(* ================================================================== *)
(** * Further properties of the core *)
(* ================================================================== *)

Section MoreFacts.

Context {elem : Type} `{Elem elem}.
Context {O I G : Type}.
Context `{OutputLayerOps (elem := elem) O}.
Context `{LayerGraphOps (elem := elem) G}.
Context `{InitializerOps (elem := elem) I G}.

(** The default arguments [setMode] and [training] of [CheckNetwork], and
    the default [inputDimensionality] of [UpdateDimensions]. *)
Variables (sm td : bool) (d0 : N).

Local Abbreviation Core := (FFN elem O I G).
Local Abbreviation M := (FFNMonad.M elem Core).
Local Open Scope ffn_scope.

(** ** The size check of UpdateDimensions *)

(** X1.  The total input size that [UpdateDimensions] compares with its
    argument is the product of the shape reduced modulo 2^64: it is the
    product when the product fits in a [size_t], and a shape whose product
    does not fit is accepted for the size that the product wraps to. *)
Theorem totalInputSize_is_product_mod (dims : list N) :
  totalInputSize dims = dims_product dims mod SizeT.modulus /\
  (dims_product dims < SizeT.modulus -> totalInputSize dims = dims_product dims).
Proof.
  assert (Hmod : totalInputSize dims = dims_product dims mod SizeT.modulus).
  { unfold totalInputSize, dims_product.
    rewrite <- (SizeTFacts.wrap_small (n := fold_left SizeT.mul dims 1)).
    - now apply fold_mul_wrap.
    - apply fold_mul_lt. reflexivity. }
  split; [exact Hmod|].
  intros Hlt. rewrite Hmod. now apply N.mod_small.
Qed.

(** ** What Reset(0) makes of the shape *)

Lemma accumulate_small dims :
  forall acc,
    (0 <= acc)%Z ->
    (acc + Z.of_N (fold_left N.add dims 0%N) < 2 ^ 31)%Z ->
    fold_left (fun a x =>
                 SizeT.to_int (Z.of_N (SizeT.add (SizeT.of_int a) x)))
              dims acc
    = (acc + Z.of_N (fold_left N.add dims 0%N))%Z.
Proof.
  induction dims as [|x dims IH]; intros acc Hacc Hsum; cbn [fold_left] in *.
  - cbn. lia.
  - assert (Hfold : forall l a, fold_left N.add l a = a + fold_left N.add l 0).
    { clear. induction l as [|y l IHl]; intros a; cbn [fold_left].
      - lia.
      - rewrite (IHl (a + y)), (IHl (0 + y)). lia. }
    rewrite (Hfold dims (0 + x)) in Hsum.
    assert (Hstep :
              SizeT.to_int (Z.of_N (SizeT.add (SizeT.of_int acc) x))
              = (acc + Z.of_N x)%Z).
    { unfold SizeT.of_int, SizeT.add, SizeT.wrap, SizeT.to_int, SizeT.modulus.
      rewrite (Z.mod_small acc) by lia.
      rewrite N.mod_small.
      - rewrite N2Z.inj_add, Z2N.id by lia.
        rewrite Z.mod_small by lia. lia.
      - apply N2Z.inj_lt. rewrite N2Z.inj_add, Z2N.id by lia.
        change (Z.of_N (2 ^ 64)) with (2 ^ 64)%Z. lia. }
    rewrite Hstep, IH by lia.
    rewrite (Hfold dims (0 + x)). lia.
Qed.

(** X2.  For a stored shape whose entries add up to less than 2^31, the
    input size that [Reset(0)] hands to [CheckNetwork] is the sum of the
    entries.  For a one-dimensional shape [[S]] with [0 < S < 2^31],
    [Reset(0)] therefore does exactly what [Reset(S)] does. *)
Theorem Reset_zero_uses_the_sum (s : Core) :
  (Z.of_N (dims_sum (inputDimensions s)) < 2 ^ 31)%Z ->
  SizeT.of_int (accumulate_int (inputDimensions s))
  = dims_sum (inputDimensions s) /\
  (forall S, inputDimensions s = [S] -> S <> 0 -> Reset 0 s = Reset S s).
Proof.
  intros Hsmall.
  assert (Hsum : SizeT.of_int (accumulate_int (inputDimensions s))
                 = dims_sum (inputDimensions s)).
  { unfold accumulate_int, dims_sum in *.
    rewrite accumulate_small by lia.
    unfold SizeT.of_int. rewrite Z.add_0_l, Z.mod_small by lia.
    apply N2Z.id. }
  split; [exact Hsum|].
  intros S HS HS0. unfold Reset. step. cbn [N.eqb negb]. step.
  cbn [inputDimensions set_parameters]. rewrite Hsum, HS.
  cbn [dims_sum fold_left]. rewrite N.add_0_l.
  apply N.eqb_neq in HS0. rewrite HS0. reflexivity.
Qed.

(** ** The steps of the life cycle as equations *)

Lemma dims_eqb_eq (a b : list N) : dims_eqb a b = true <-> a = b.
Proof.
  revert b. induction a as [|x a IH]; intros [|y b]; cbn [dims_eqb];
    try (split; [discriminate | discriminate]); [tauto|].
  rewrite andb_true_iff, N.eqb_eq, IH. split.
  - intros [-> ->]. reflexivity.
  - intros [= -> ->]. auto.
Qed.

Lemma dims_eqb_refl (a : list N) : dims_eqb a a = true.
Proof. now apply dims_eqb_eq. Qed.

Lemma SetNetworkMode_eq mode (s : Core) :
  SetNetworkMode mode s = (Val tt, mode_set mode s, [EvTraining mode]).
Proof. unfold SetNetworkMode. step. reflexivity. Qed.

Lemma InitializeWeights_eq (s : Core) :
  InitializeWeights s
  = (Val tt, weights_initialized s, [EvTraining false; EvInitialize]).
Proof.
  unfold InitializeWeights. erewrite bind_Val; [|apply SetNetworkMode_eq].
  step. unfold emit. rewrite after_triple.
  unfold weights_initialized.
  cbn [initializeRule network parameters mode_set set_network set_training].
  destruct (Initialize (initializeRule s)
              (net_set_Training false (network s)) (parameters s));
    reflexivity.
Qed.

Lemma SetLayerMemory_eq (s : Core) :
  SetLayerMemory s
  = if net_WeightSize (network s) =? n_elem (parameters s)
    then (Val tt, weights_bound s, [EvSetWeights])
    else (Throw (assertion_failure
                   "FFN::SetLayerMemory(): total layer weight size does not match parameter size!"),
          s, []).
Proof.
  unfold SetLayerMemory, Log_Assert. step.
  destruct (net_WeightSize (network s) =? n_elem (parameters s));
    [|reflexivity].
  step. unfold modify. rewrite after_triple. reflexivity.
Qed.

Lemma UpdateDimensions_eq functionName d (s : Core) :
  d < SizeT.modulus ->
  totalInputSize (effective_shape d s) = d \/ d = 0 ->
  UpdateDimensions functionName d s
  = (Val tt, dimensions_updated d s,
     if dims_eqb (effective_shape d s) (net_InputDimensions (network s))
     then [] else [EvComputeOutputDimensions]).
Proof.
  intros Hd Hok. unfold dimensions_updated, effective_shape in *.
  assert (Hcond :
            forall dims, (totalInputSize dims = d \/ d = 0) ->
                         negb (totalInputSize dims =? d) && negb (d =? 0)
                         = false).
  { intros dims [E | E].
    - apply N.eqb_eq in E. now rewrite E.
    - apply N.eqb_eq in E. rewrite E. now rewrite andb_false_r. }
  unfold UpdateDimensions. step. rewrite length_eqb_0.
  destruct (inputDimensions s) as [|x l] eqn:Hdims; step.
  - cbn [inputDimensions set_inputDimensions network].
    rewrite (Hcond [d] Hok). step.
    cbn [inputDimensions set_inputDimensions network].
    destruct (dims_eqb _ _); step; reflexivity.
  - rewrite Hdims. rewrite (Hcond (x :: l) Hok). step.
    destruct (dims_eqb _ _); step.
    + unfold modify. f_equal. f_equal.
      destruct s; cbn in *; subst; reflexivity.
    + unfold modify. rewrite after_triple. f_equal. f_equal.
      destruct s; cbn in *; subst; reflexivity.
Qed.

(** [CheckNetwork] on a core with layers whose dimensions are bound. *)
Lemma CheckNetwork_bound_eq functionName d setMode mode (s : Core) :
  net_size (network s) <> 0 ->
  inputDimensionsAreSet s = true ->
  CheckNetwork functionName d setMode mode s
  = if layerMemoryIsSet s
    then finished setMode mode (after_weight_step s) (weight_step_calls s)
    else if net_WeightSize (network (after_weight_step s))
            =? n_elem (parameters (after_weight_step s))
    then finished setMode mode (weights_bound (after_weight_step s))
                  (weight_step_calls s ++ [EvSetWeights])
    else (Throw (assertion_failure
                   "FFN::SetLayerMemory(): total layer weight size does not match parameter size!"),
          after_weight_step s, weight_step_calls s).
Proof.
  intros Hsize Hflag. unfold CheckNetwork. step.
  apply N.eqb_neq in Hsize. rewrite Hsize. step. rewrite Hflag.
  cbn [negb]. step.
  assert (Hmem : layerMemoryIsSet (after_weight_step s) = layerMemoryIsSet s).
  { unfold after_weight_step.
    destruct (is_empty (parameters s)); [reflexivity|].
    destruct (negb _); reflexivity. }
  assert (Hrest :
            forall (s1 : Core),
              (memSet <- gets layerMemoryIsSet ;;
               (if negb memSet then SetLayerMemory else ret tt) ;;
               (if setMode then SetNetworkMode mode else ret tt)) s1
              = if layerMemoryIsSet s1
                then finished setMode mode s1 []
                else if net_WeightSize (network s1) =? n_elem (parameters s1)
                then finished setMode mode (weights_bound s1) [EvSetWeights]
                else (Throw (assertion_failure
                               "FFN::SetLayerMemory(): total layer weight size does not match parameter size!"),
                      s1, [])).
  { intros s1. step. destruct (layerMemoryIsSet s1); cbn [negb].
    - step. unfold finished. destruct setMode; [|reflexivity].
      apply SetNetworkMode_eq.
    - rewrite ?bind_assoc.
      destruct (net_WeightSize (network s1) =? n_elem (parameters s1)) eqn:E.
      + erewrite bind_Val; [|rewrite SetLayerMemory_eq, E; reflexivity].
        step. unfold finished. destruct setMode.
        * rewrite SetNetworkMode_eq. reflexivity.
        * reflexivity.
      + apply bind_Throw. now rewrite SetLayerMemory_eq, E. }
  rewrite <- Hmem. clear Hmem Hsize.
  unfold after_weight_step, weight_step_calls, needs_weights.
  destruct (is_empty (parameters s)) eqn:He.
  - cbn [orb]. rewrite ?bind_assoc.
    erewrite bind_Val; [|apply InitializeWeights_eq].
    rewrite (Hrest _).
    destruct (layerMemoryIsSet _); [|destruct (net_WeightSize _ =? _)];
      unfold finished; destruct setMode; rewrite ?after_triple;
      reflexivity.
  - cbn [orb]. step.
    destruct (negb (n_elem (parameters s) =? net_WeightSize (network s)))
      eqn:Hn.
    + step. rewrite ?bind_assoc.
      erewrite bind_Val; [|apply InitializeWeights_eq].
      rewrite (Hrest _).
      change (set_parameters (clear (parameters s)) s)
        with (set_parameters empty_Mat s).
      destruct (layerMemoryIsSet _); [|destruct (net_WeightSize _ =? _)];
        unfold finished; destruct setMode; rewrite ?after_triple;
        reflexivity.
    + rewrite bind_ret, (Hrest _). reflexivity.
Qed.

(** [CheckNetwork] on a core with layers whose dimensions are not bound:
    the dimensions are updated, and the rest is [CheckNetwork] on the
    result, provided the graph still has layers. *)
Lemma CheckNetwork_unbound_eq functionName d setMode mode (s sa : Core) ta :
  net_size (network s) <> 0 ->
  inputDimensionsAreSet s = false ->
  UpdateDimensions functionName d s = (Val tt, sa, ta) ->
  net_size (network sa) <> 0 ->
  inputDimensionsAreSet sa = true ->
  CheckNetwork functionName d setMode mode s
  = after ta (CheckNetwork functionName d setMode mode sa).
Proof.
  intros Hsize Hflag Hupd Hsize' Hflag'.
  unfold CheckNetwork. step.
  apply N.eqb_neq in Hsize, Hsize'. rewrite Hsize, Hsize'. step.
  rewrite Hflag, Hflag'. cbn [negb]. rewrite ?bind_assoc.
  erewrite bind_Val; [|exact Hupd]. rewrite bind_ret. reflexivity.
Qed.

(** ** UpdateDimensions when it returns *)

(** X3.  When [UpdateDimensions] accepts the input size, it records the
    shape it worked with and marks the dimensions bound.  It touches the
    layer graph only if that shape is not the one the graph already has:
    then the shape is pushed into the graph and the output dimensions are
    computed, once; otherwise the graph is left alone and nothing is
    computed.  The parameter buffer, the weight-binding flag and the mode
    are never touched. *)
Theorem UpdateDimensions_on_success functionName d (s : Core) :
  d < SizeT.modulus ->
  totalInputSize (effective_shape d s) = d \/ d = 0 ->
  exists s' t,
    UpdateDimensions functionName d s = (Val tt, s', t) /\
    inputDimensions s' = effective_shape d s /\
    inputDimensionsAreSet s' = true /\
    parameters s' = parameters s /\
    layerMemoryIsSet s' = layerMemoryIsSet s /\
    training s' = training s /\
    (effective_shape d s = net_InputDimensions (network s) ->
     network s' = network s /\ t = []) /\
    (effective_shape d s <> net_InputDimensions (network s) ->
     network s'
     = net_ComputeOutputDimensions
         (net_set_InputDimensions (effective_shape d s) (network s)) /\
     t = [EvComputeOutputDimensions]).
Proof.
  intros Hd Hok. eexists. eexists.
  split; [now apply UpdateDimensions_eq|].
  unfold dimensions_updated.
  destruct (dims_eqb (effective_shape d s) (net_InputDimensions (network s)))
    eqn:E.
  - apply dims_eqb_eq in E.
    repeat split; try reflexivity; contradiction.
  - assert (Hne : effective_shape d s <> net_InputDimensions (network s)).
    { intros Heq. apply dims_eqb_eq in Heq. congruence. }
    repeat split; try reflexivity; contradiction.
Qed.

(** ** CheckNetwork: what it establishes, how it can fail *)

Lemma mismatch_dec d (s : Core) :
  (totalInputSize (effective_shape d s) <> d /\ d <> 0) \/
  (totalInputSize (effective_shape d s) = d \/ d = 0).
Proof.
  destruct (N.eq_dec (totalInputSize (effective_shape d s)) d);
    destruct (N.eq_dec d 0); auto.
Qed.

(** X4.  With a layer graph and an initializer that keep to
    [LifecycleLaws], every call of [CheckNetwork] that returns leaves a
    core that is ready for a pass: the graph has layers, the dimensions
    are bound, the weights are bound, the parameter buffer has exactly one
    element per weight of the graph, and the mode is the one asked for
    when [setMode] is set. *)
Theorem CheckNetwork_leaves_core_bound
    functionName d setMode mode (s s' : Core) t :
  LifecycleLaws (I := I) (G := G) ->
  CheckNetwork functionName d setMode mode s = (Val tt, s', t) ->
  net_size (network s') <> 0 /\
  inputDimensionsAreSet s' = true /\
  layerMemoryIsSet s' = true /\
  n_elem (parameters s') = net_WeightSize (network s') /\
  (setMode = true -> training s' = mode).
Proof.
  intros laws Hrun.
  assert (Hpost : WeightsBound s' /\ InMode setMode mode s').
  { eapply (CheckNetwork_ensures laws); [|exact Hrun]. exact Logic.I. }
  destruct Hpost as [[[[Hs Hd] Hsz] Hm] Hmode].
  repeat split; try assumption.
  intros Hset. now destruct (Hmode Hset).
Qed.

Lemma after_weight_step_sized (s : Core) :
  LifecycleLaws (I := I) (G := G) ->
  n_elem (parameters (after_weight_step s))
  = net_WeightSize (network (after_weight_step s)).
Proof.
  intros laws. unfold after_weight_step.
  destruct (is_empty (parameters s)) eqn:He.
  - unfold weights_initialized.
    cbn [parameters network set_parameters set_network].
    now apply (Initialize_sized laws).
  - destruct (negb (n_elem (parameters s) =? net_WeightSize (network s)))
      eqn:Hn.
    + unfold weights_initialized.
      cbn [parameters network set_parameters set_network initializeRule].
      now apply (Initialize_sized laws).
    + apply negb_false_iff, N.eqb_eq in Hn. exact Hn.
Qed.

Lemma CheckNetwork_bound_returns functionName d setMode mode (s : Core) :
  LifecycleLaws (I := I) (G := G) ->
  net_size (network s) <> 0 ->
  inputDimensionsAreSet s = true ->
  outcome_of (CheckNetwork functionName d setMode mode s) = Val tt.
Proof.
  intros laws Hsize Hflag.
  rewrite CheckNetwork_bound_eq by assumption.
  rewrite (after_weight_step_sized s laws), N.eqb_refl.
  destruct (layerMemoryIsSet s); unfold finished; destruct setMode;
    reflexivity.
Qed.

(** X5.  With collaborators that keep to [LifecycleLaws], [CheckNetwork]
    fails in two ways only, and in both it leaves the core as it was and
    has asked nothing of the collaborators: on a graph without layers, and,
    on a core whose dimensions are not bound, on an input size that the
    shape does not agree with.  In every other case it returns; in
    particular the assertion of [SetLayerMemory] never fails inside
    [CheckNetwork]. *)
Theorem CheckNetwork_outcomes functionName d setMode mode (s : Core) :
  LifecycleLaws (I := I) (G := G) ->
  d < SizeT.modulus ->
  (net_size (network s) = 0 ->
   refused functionName s (CheckNetwork functionName d setMode mode s)) /\
  (net_size (network s) <> 0 ->
   inputDimensionsAreSet s = false ->
   totalInputSize (effective_shape d s) <> d /\ d <> 0 ->
   CheckNetwork functionName d setMode mode s
   = (Throw (logic_error
               (functionName ++
                ": input size does not match expected size set with InputDimensions()!")),
      s, [])) /\
  (net_size (network s) <> 0 ->
   inputDimensionsAreSet s = true \/
   totalInputSize (effective_shape d s) = d \/ d = 0 ->
   outcome_of (CheckNetwork functionName d setMode mode s) = Val tt).
Proof.
  intros laws Hd. split; [|split].
  - intros Hsize. now apply CheckNetwork_no_layers.
  - intros Hsize Hflag [Hne Hd0]. unfold CheckNetwork. step.
    apply N.eqb_neq in Hsize. rewrite Hsize. step. rewrite Hflag.
    cbn [negb]. rewrite ?bind_assoc.
    apply bind_Throw. now apply UpdateDimensions_throws.
  - intros Hsize Hok.
    destruct (inputDimensionsAreSet s) eqn:Hflag.
    + now apply CheckNetwork_bound_returns.
    + destruct Hok as [Habs | Hok]; [discriminate|].
      pose proof (UpdateDimensions_eq functionName s Hd Hok) as Hupd.
      assert (Hbound : DimensionsBound (dimensions_updated d s)).
      { eapply (UpdateDimensions_ensures laws); [|exact Hupd]. exact Hsize. }
      destruct Hbound as [Hsize' Hflag'].
      rewrite (@CheckNetwork_unbound_eq functionName d setMode mode s _ _
                 Hsize Hflag Hupd Hsize' Hflag').
      rewrite outcome_after.
      now apply CheckNetwork_bound_returns.
Qed.

(** ** The mode after a check that initializes *)

Lemma after_weight_step_facts (s : Core) :
  layerMemoryIsSet (after_weight_step s) = layerMemoryIsSet s /\
  inputDimensionsAreSet (after_weight_step s) = inputDimensionsAreSet s /\
  (needs_weights s = true -> training (after_weight_step s) = false) /\
  (needs_weights s = false -> after_weight_step s = s).
Proof.
  unfold after_weight_step, needs_weights.
  destruct (is_empty (parameters s)); cbn [orb].
  - repeat split; try reflexivity. discriminate.
  - destruct (negb _); repeat split; try reflexivity; discriminate.
Qed.

Lemma initializes_weight_step (s : Core) :
  initializes (weight_step_calls s) = needs_weights s /\
  initializes (weight_step_calls s ++ [EvSetWeights]) = needs_weights s.
Proof.
  unfold weight_step_calls. destruct (needs_weights s); split; reflexivity.
Qed.

Lemma bound_check_facts functionName d mode (s s' : Core) t :
  net_size (network s) <> 0 ->
  inputDimensionsAreSet s = true ->
  CheckNetwork functionName d false mode s = (Val tt, s', t) ->
  initializes t = needs_weights s /\
  training s' = training (after_weight_step s) /\
  parameters s' = parameters (after_weight_step s).
Proof.
  intros Hsize Hflag. rewrite CheckNetwork_bound_eq by assumption.
  destruct (initializes_weight_step s) as [Hi1 Hi2].
  unfold finished.
  destruct (layerMemoryIsSet s).
  - intros [= <- <-]. auto.
  - destruct (net_WeightSize _ =? _); [|discriminate].
    intros [= <- <-]. auto.
Qed.

(** X6.  A call of [CheckNetwork] that does not ask for a mode still
    changes the mode when it has to initialize the weights: the core is
    then left in evaluation mode, whatever mode it was in.  When it does
    not initialize, the mode and the parameter buffer are left as they
    were. *)
Theorem CheckNetwork_initialization_resets_mode
    functionName d mode (s s' : Core) t :
  LifecycleLaws (I := I) (G := G) ->
  d < SizeT.modulus ->
  CheckNetwork functionName d false mode s = (Val tt, s', t) ->
  (initializes t = true -> training s' = false) /\
  (initializes t = false ->
   training s' = training s /\ parameters s' = parameters s).
Proof.
  intros laws Hd Hrun.
  assert (Hsize : net_size (network s) <> 0).
  { intros Hz.
    pose proof (CheckNetwork_no_layers functionName d false mode s Hz) as Hr.
    unfold refused in Hr. congruence. }
  assert (Hgoal :
            forall (sa : Core) ta,
              net_size (network sa) <> 0 ->
              inputDimensionsAreSet sa = true ->
              training sa = training s ->
              parameters sa = parameters s ->
              initializes ta = false ->
              (forall u, initializes (ta ++ u) = initializes u) ->
              after ta (CheckNetwork functionName d false mode sa)
              = (Val tt, s', t) ->
              (initializes t = true -> training s' = false) /\
              (initializes t = false ->
               training s' = training s /\ parameters s' = parameters s)).
  { intros sa ta Hsa Hfa Hta Hpa Hia Happ Hr.
    destruct (CheckNetwork functionName d false mode sa)
      as [[o s2] t2] eqn:Hc.
    rewrite after_triple in Hr. injection Hr as -> -> <-.
    destruct (@bound_check_facts functionName d mode sa s' t2 Hsa Hfa Hc) as (Hi & Htr & Hp).
    destruct (after_weight_step_facts sa) as (_ & _ & Hinit & Hsame).
    rewrite Happ, Hi. split.
    - intros Hn. rewrite Htr. now apply Hinit.
    - intros Hn. rewrite Htr, Hp, (Hsame Hn). auto. }
  destruct (inputDimensionsAreSet s) eqn:Hflag.
  - apply (Hgoal s []); auto. now rewrite after_nil.
  - destruct (mismatch_dec d s) as [[Hne Hd0] | Hok].
    + exfalso. revert Hrun. unfold CheckNetwork. step.
      apply N.eqb_neq in Hsize. rewrite Hsize. step. rewrite Hflag.
      cbn [negb]. rewrite ?bind_assoc.
      erewrite bind_Throw; [discriminate|].
      now apply UpdateDimensions_throws.
    + pose proof (UpdateDimensions_eq functionName s Hd Hok) as Hupd.
      assert (Hbound : DimensionsBound (dimensions_updated d s)).
      { eapply (UpdateDimensions_ensures laws); [|exact Hupd]. exact Hsize. }
      destruct Hbound as [Hsize' Hflag'].
      rewrite (@CheckNetwork_unbound_eq functionName d false mode s _ _
                 Hsize Hflag Hupd Hsize' Hflag') in Hrun.
      eapply Hgoal; [exact Hsize' | exact Hflag' | | | | | exact Hrun].
      * unfold dimensions_updated. now destruct (dims_eqb _ _).
      * unfold dimensions_updated. now destruct (dims_eqb _ _).
      * now destruct (dims_eqb _ _).
      * intros u. now destruct (dims_eqb _ _).
Qed.

(** ** WeightSize *)

Lemma effective_shape_recorded d (s : Core) :
  inputDimensions s <> [] -> effective_shape d s = inputDimensions s.
Proof.
  unfold effective_shape. destruct (inputDimensions s); [contradiction|auto].
Qed.

Lemma effective_shape_not_nil d (s : Core) : effective_shape d s <> [].
Proof.
  unfold effective_shape. destruct (inputDimensions s) eqn:E;
    [discriminate | try rewrite E; discriminate].
Qed.

Lemma set_inputDimensionsAreSet_same (s : Core) :
  inputDimensionsAreSet s = true -> set_inputDimensionsAreSet true s = s.
Proof. destruct s; cbn. now intros ->. Qed.

Lemma set_inputDimensions_same (s : Core) :
  set_inputDimensions (inputDimensions s) s = s.
Proof. now destruct s. Qed.

Lemma dimensions_updated_same d (s : Core) :
  inputDimensions s <> [] ->
  inputDimensions s = net_InputDimensions (network s) ->
  dimensions_updated d s = set_inputDimensionsAreSet true s.
Proof.
  intros Hne Heq. unfold dimensions_updated.
  rewrite (@effective_shape_recorded d _ Hne), <- Heq, dims_eqb_refl.
  now rewrite set_inputDimensions_same.
Qed.

Lemma dimensions_updated_shape (dl : DimensionLaws (G := G)) d (s : Core) :
  inputDimensions (dimensions_updated d s) = effective_shape d s /\
  net_InputDimensions (network (dimensions_updated d s)) = effective_shape d s /\
  inputDimensionsAreSet (dimensions_updated d s) = true.
Proof.
  unfold dimensions_updated.
  destruct (dims_eqb _ _) eqn:E.
  - apply dims_eqb_eq in E. cbn. auto.
  - cbn. now rewrite (InputDimensions_Compute dl), (InputDimensions_set dl).
Qed.

Lemma WeightSize_eq d (s : Core) :
  d < SizeT.modulus ->
  totalInputSize (effective_shape d s) = d \/ d = 0 ->
  WeightSize d s
  = (Val (net_WeightSize (network (dimensions_updated d s))),
     dimensions_updated d s,
     if dims_eqb (effective_shape d s) (net_InputDimensions (network s))
     then [] else [EvComputeOutputDimensions]).
Proof.
  intros Hd Hok. unfold WeightSize.
  erewrite bind_Val; [|now apply UpdateDimensions_eq].
  unfold gets. rewrite after_triple. now rewrite app_nil_r.
Qed.

(** X7.  With a layer graph that gives back the input shape it was given,
    a [WeightSize()] that returned returns the same number when it is
    called again, and the second call asks nothing of the graph and leaves
    the core as it is. *)
Theorem WeightSize_twice d (s s1 : Core) w t :
  DimensionLaws (G := G) ->
  d < SizeT.modulus ->
  WeightSize d s = (Val w, s1, t) ->
  WeightSize d s1 = (Val w, s1, []).
Proof.
  intros dl Hd Hrun.
  destruct (mismatch_dec d s) as [[Hne Hd0] | Hok].
  - exfalso. revert Hrun. unfold WeightSize.
    erewrite bind_Throw; [discriminate|].
    now apply UpdateDimensions_throws.
  - rewrite (@WeightSize_eq d s Hd Hok) in Hrun.
    injection Hrun as <- <- _.
    destruct (dimensions_updated_shape dl d s) as (Hdims & Hnet & Hflag).
    set (s1 := dimensions_updated d s) in *.
    assert (Hne : inputDimensions s1 <> []).
    { rewrite Hdims. apply effective_shape_not_nil. }
    assert (Hsame : dimensions_updated d s1 = s1).
    { rewrite dimensions_updated_same; [| exact Hne | congruence].
      now apply set_inputDimensionsAreSet_same. }
    assert (Hshape : effective_shape d s1 = effective_shape d s).
    { now rewrite (@effective_shape_recorded d _ Hne). }
    rewrite WeightSize_eq; [| exact Hd | now rewrite Hshape].
    rewrite Hsame, Hshape, Hnet, dims_eqb_refl. reflexivity.
Qed.

(** X8.  [WeightSize()] called with no input size (the value 0) never
    raises an error, whatever the core: it does not ask for layers, and it
    leaves the parameter buffer, the binding flag of the weights and the
    mode alone.  On a core with no recorded shape it records the shape
    [[0]] and marks the dimensions bound. *)
Theorem WeightSize_of_any_core (s : Core) :
  exists s' t,
    WeightSize 0 s = (Val (net_WeightSize (network s')), s', t) /\
    parameters s' = parameters s /\
    layerMemoryIsSet s' = layerMemoryIsSet s /\
    training s' = training s /\
    inputDimensionsAreSet s' = true /\
    (inputDimensions s = [] -> inputDimensions s' = [0]) /\
    (inputDimensions s <> [] -> inputDimensions s' = inputDimensions s).
Proof.
  eexists _, _. split.
  - apply WeightSize_eq; [reflexivity | now right].
  - unfold dimensions_updated, effective_shape.
    destruct (inputDimensions s) as [|x l] eqn:E.
    + destruct (dims_eqb _ _); cbn; repeat split; auto; contradiction.
    + try rewrite E.
      destruct (dims_eqb _ _); cbn; repeat split; auto; discriminate.
Qed.

(** ** Copies, moved cores and loaded cores *)

Lemma CheckNetwork_rebinds functionName d setMode mode (c : Core) :
  d < SizeT.modulus ->
  net_size (network c) <> 0 ->
  inputDimensions c <> [] ->
  inputDimensions c = net_InputDimensions (network c) ->
  totalInputSize (inputDimensions c) = d \/ d = 0 ->
  is_empty (parameters c) = false ->
  n_elem (parameters c) = net_WeightSize (network c) ->
  layerMemoryIsSet c = false ->
  CheckNetwork functionName d setMode mode c
  = finished setMode mode
             (weights_bound (set_inputDimensionsAreSet true c))
             [EvSetWeights].
Proof.
  intros Hd Hsize Hne Hnet Htot Hemp Hn Hmem.
  assert (Hbound :
            forall (b : Core),
              net_size (network b) <> 0 ->
              inputDimensionsAreSet b = true ->
              is_empty (parameters b) = false ->
              n_elem (parameters b) = net_WeightSize (network b) ->
              layerMemoryIsSet b = false ->
              CheckNetwork functionName d setMode mode b
              = finished setMode mode (weights_bound b) [EvSetWeights]).
  { intros b Hs Hf He Hw Hm.
    rewrite CheckNetwork_bound_eq by assumption.
    assert (Hneed : needs_weights b = false).
    { unfold needs_weights. rewrite He, Hw, N.eqb_refl. reflexivity. }
    destruct (after_weight_step_facts b) as (_ & _ & _ & Hsame).
    rewrite (Hsame Hneed), Hm, <- Hw, N.eqb_refl.
    unfold weight_step_calls. rewrite Hneed. reflexivity. }
  destruct (inputDimensionsAreSet c) eqn:Hflag.
  - rewrite (@set_inputDimensionsAreSet_same c Hflag). now apply Hbound.
  - assert (Hupd : UpdateDimensions functionName d c
                   = (Val tt, set_inputDimensionsAreSet true c, [])).
    { rewrite UpdateDimensions_eq;
        [| exact Hd | now rewrite (@effective_shape_recorded d _ Hne)].
      rewrite (@dimensions_updated_same d _ Hne Hnet).
      now rewrite (@effective_shape_recorded d _ Hne), <- Hnet, dims_eqb_refl. }
    assert (Hs : net_size (network (set_inputDimensionsAreSet true c)) <> 0)
      by (now destruct c).
    assert (Hf : inputDimensionsAreSet (set_inputDimensionsAreSet true c)
                 = true) by (now destruct c).
    rewrite (@CheckNetwork_unbound_eq functionName d setMode mode c _ _
               Hsize Hflag Hupd Hs Hf).
    rewrite after_nil. apply Hbound; try assumption; now destruct c.
Qed.

(** X9.  A copy of a checked core (made by the copy constructor or by copy
    assignment) and a core built by the move constructor keep the weights:
    the first check of such a core does not initialize, it only binds the
    layers again to the buffer that came with the copy, and the mode is the
    one of the original. *)
Theorem CheckNetwork_after_copy functionName d mode (s this c : Core) :
  d < SizeT.modulus ->
  Consistent d s ->
  c = FFN_copy s \/ c = copy_assign (Some s) this \/ c = FFN_move s ->
  exists s',
    CheckNetwork functionName d false mode c = (Val tt, s', [EvSetWeights]) /\
    parameters s' = parameters s /\
    network s' = net_SetWeights (parameters s) (network s) /\
    training s' = training s /\
    layerMemoryIsSet s' = true /\
    inputDimensionsAreSet s' = true.
Proof.
  intros Hd ((Hsize & Hflag & Hmem & Hemp & Hn) & Hne & Hnet & Htot) Hc.
  eexists. split.
  - rewrite (@CheckNetwork_rebinds functionName d false mode c); try assumption.
    + reflexivity.
    + destruct Hc as [-> | [-> | ->]]; assumption.
    + destruct Hc as [-> | [-> | ->]]; assumption.
    + destruct Hc as [-> | [-> | ->]]; assumption.
    + destruct Hc as [-> | [-> | ->]]; assumption.
    + destruct Hc as [-> | [-> | ->]]; assumption.
    + destruct Hc as [-> | [-> | ->]]; assumption.
    + destruct Hc as [-> | [-> | ->]]; reflexivity.
  - destruct Hc as [-> | [-> | ->]]; cbn; auto.
Qed.

(** X10.  Move assignment carries both readiness flags over: the target of
    a move assignment from a checked core passes the next check with no
    call to a collaborator at all, so the layers are not bound again to the
    buffer that was moved. *)
Theorem CheckNetwork_after_move_assign functionName d mode (s this : Core) :
  Consistent d s ->
  CheckNetwork functionName d false mode (move_assign (Some s) this)
  = (Val tt, move_assign (Some s) this, []) /\
  network (move_assign (Some s) this) = network s.
Proof.
  intros ((Hsize & Hflag & Hmem & Hemp & Hn) & _).
  split; [|reflexivity].
  set (m := move_assign (Some s) this).
  assert (Hm : layerMemoryIsSet m = true) by exact Hmem.
  assert (Hneed : needs_weights m = false).
  { unfold needs_weights, m. cbn [move_assign parameters network].
    rewrite Hemp, Hn, N.eqb_refl. reflexivity. }
  rewrite CheckNetwork_bound_eq; [| exact Hsize | exact Hflag].
  destruct (after_weight_step_facts m) as (_ & _ & _ & Hsame).
  rewrite Hm, (Hsame Hneed). unfold weight_step_calls. rewrite Hneed.
  reflexivity.
Qed.

(** X11.  Saving a checked core and loading the archive into any core
    gives a core whose first check does not initialize the weights: it
    binds the saved layers to the saved buffer and keeps the saved mode.
    The dataset of the loaded core is empty, whatever the target held. *)
Theorem serialize_round_trip functionName d mode (s target : Core) :
  d < SizeT.modulus ->
  Consistent d s ->
  let loaded := fst (serialize (Loading (snd (serialize Saving s))) target) in
  exists s',
    CheckNetwork functionName d false mode loaded
    = (Val tt, s', [EvSetWeights]) /\
    parameters s' = parameters s /\
    network s' = net_SetWeights (parameters s) (network s) /\
    inputDimensions s' = inputDimensions s /\
    training s' = training s /\
    is_empty (predictors s') = true /\
    is_empty (responses s') = true /\
    fst (serialize Saving s) = s.
Proof.
  intros Hd ((Hsize & Hflag & Hmem & Hemp & Hn) & Hne & Hnet & Htot).
  cbn [serialize fst snd].
  eexists. split.
  - rewrite CheckNetwork_rebinds; try assumption; reflexivity.
  - cbn. repeat split; reflexivity.
Qed.

(** ** Reset *)

Lemma CheckNetwork_to_bound functionName d setMode mode (s s' : Core) t :
  LifecycleLaws (I := I) (G := G) ->
  d < SizeT.modulus ->
  CheckNetwork functionName d setMode mode s = (Val tt, s', t) ->
  exists (sa : Core) ta t2,
    net_size (network sa) <> 0 /\
    inputDimensionsAreSet sa = true /\
    training sa = training s /\
    parameters sa = parameters s /\
    layerMemoryIsSet sa = layerMemoryIsSet s /\
    initializes ta = false /\
    t = ta ++ t2 /\
    CheckNetwork functionName d setMode mode sa = (Val tt, s', t2).
Proof.
  intros laws Hd Hrun.
  assert (Hsize : net_size (network s) <> 0).
  { intros Hz.
    pose proof (CheckNetwork_no_layers functionName d setMode mode s Hz)
      as Hr.
    unfold refused in Hr. congruence. }
  destruct (inputDimensionsAreSet s) eqn:Hflag.
  - exists s, [], t. repeat split; auto.
  - destruct (mismatch_dec d s) as [[Hne Hd0] | Hok].
    + exfalso. revert Hrun. unfold CheckNetwork. step.
      apply N.eqb_neq in Hsize. rewrite Hsize. step. rewrite Hflag.
      cbn [negb]. rewrite ?bind_assoc.
      erewrite bind_Throw; [discriminate|].
      now apply UpdateDimensions_throws.
    + pose proof (UpdateDimensions_eq functionName s Hd Hok) as Hupd.
      assert (Hbound : DimensionsBound (dimensions_updated d s)).
      { eapply (UpdateDimensions_ensures laws); [|exact Hupd]. exact Hsize. }
      destruct Hbound as [Hsize' Hflag'].
      rewrite (@CheckNetwork_unbound_eq functionName d setMode mode s _ _
                 Hsize Hflag Hupd Hsize' Hflag') in Hrun.
      destruct (CheckNetwork functionName d setMode mode
                             (dimensions_updated d s))
        as [[o s2] t2] eqn:Hc.
      rewrite after_triple in Hrun. injection Hrun as -> -> <-.
      exists (dimensions_updated d s),
        (if dims_eqb (effective_shape d s) (net_InputDimensions (network s))
         then [] else [EvComputeOutputDimensions]), t2.
      repeat split; auto;
        unfold dimensions_updated; now destruct (dims_eqb _ _).
Qed.

Lemma initializes_app (a b : list (Event elem)) :
  initializes (a ++ b) = initializes a || initializes b.
Proof. apply existsb_app. Qed.

(** X12.  [Reset] always initializes the weights again: it empties the
    parameter buffer before the check, so a call that returns has called
    the initializer, whatever the buffer held, and it leaves the core in
    evaluation mode with the weights bound and one element per weight. *)
Theorem Reset_initializes_again d (s s' : Core) t :
  LifecycleLaws (I := I) (G := G) ->
  d < SizeT.modulus ->
  Reset d s = (Val tt, s', t) ->
  initializes t = true /\
  training s' = false /\
  layerMemoryIsSet s' = true /\
  n_elem (parameters s') = net_WeightSize (network s').
Proof.
  intros laws Hd Hrun.
  set (s0 := set_parameters (clear (parameters s)) s).
  assert (Hcheck :
            exists d', d' < SizeT.modulus /\
                       CheckNetwork "FFN::Reset()" d' true false s0
                       = (Val tt, s', t)).
  { revert Hrun. unfold Reset. step. fold s0.
    destruct (d =? 0); cbn [negb].
    - step. intros Hrun. eexists. split; [apply of_int_lt | exact Hrun].
    - intros Hrun. now exists d. }
  destruct Hcheck as (d' & Hd' & Hcheck).
  assert (Hpost : WeightsBound s' /\ InMode true false s').
  { eapply (CheckNetwork_ensures laws); [|exact Hcheck]. exact Logic.I. }
  destruct Hpost as [[[_ Hsz] Hm] Hmode].
  destruct (Hmode eq_refl) as [Htr _].
  repeat split; try assumption.
  destruct (@CheckNetwork_to_bound _ _ _ _ _ _ _ laws Hd' Hcheck)
    as (sa & ta & t2 & Hs & Hf & _ & Hp & _ & _ & -> & Hc).
  rewrite initializes_app. apply orb_true_iff. right.
  assert (Hneed : needs_weights sa = true).
  { unfold needs_weights. now rewrite Hp. }
  rewrite CheckNetwork_bound_eq in Hc by assumption.
  unfold weight_step_calls, finished in Hc. rewrite Hneed in Hc.
  destruct (layerMemoryIsSet sa).
  - injection Hc as _ <-. reflexivity.
  - destruct (_ =? _); [|discriminate].
    injection Hc as _ <-. reflexivity.
Qed.

(** X13.  Once the dimensions of a core are bound, the input size passed
    to [CheckNetwork], and so to [Reset], is not looked at: any two sizes
    give the same run, a size that does not match the recorded shape
    included. *)
Theorem input_size_is_ignored_once_bound (s : Core) :
  inputDimensionsAreSet s = true ->
  (forall functionName d1 d2 setMode mode,
      CheckNetwork functionName d1 setMode mode s
      = CheckNetwork functionName d2 setMode mode s) /\
  (forall d1 d2, Reset d1 s = Reset d2 s).
Proof.
  intros Hflag.
  assert (Hcheck :
            forall (c : Core) functionName d1 d2 setMode mode,
              inputDimensionsAreSet c = true ->
              CheckNetwork functionName d1 setMode mode c
              = CheckNetwork functionName d2 setMode mode c).
  { intros c functionName d1 d2 setMode mode Hc. unfold CheckNetwork. step.
    destruct (net_size (network c) =? 0); [reflexivity|].
    step. rewrite Hc. reflexivity. }
  split.
  - intros. now apply Hcheck.
  - intros d1 d2. unfold Reset. step.
    assert (Hrun :
              forall d,
                (if negb (d =? 0)
                 then CheckNetwork "FFN::Reset()" d true false
                 else
                   dims <- gets inputDimensions ;;
                   CheckNetwork "FFN::Reset()"
                                (SizeT.of_int (accumulate_int dims))
                                true false)
                  (set_parameters (clear (parameters s)) s)
                = CheckNetwork "FFN::Reset()" 0 true false
                               (set_parameters (clear (parameters s)) s)).
    { intros d. destruct (d =? 0); cbn [negb]; step; now apply Hcheck. }
    now rewrite (Hrun d1), (Hrun d2).
Qed.

(** ** The stored dataset *)

Local Abbreviation dataset :=
  (fun s : Core => (predictors s, responses s)).

Lemma Forward_range_data X R b e :
  preserves dataset (Forward_range sm td X R b e).
Proof.
  unfold Forward_range, CheckNetwork_default, assign_results.
  pose proof (CheckNetwork_data (O := O) (I := I) (G := G)). frame.
Qed.

Lemma Forward_data X R : preserves dataset (Forward sm td X R).
Proof. unfold Forward. pose proof Forward_range_data. frame. Qed.

Lemma Evaluate_loop_data fuel p i res :
  preserves dataset (Evaluate_loop sm td fuel p i res).
Proof.
  revert i res. induction fuel as [|fuel IH]; intros i res;
    cbn [Evaluate_loop];
    pose proof (Evaluate_batch_data (O := O) (I := I) (G := G) sm td);
    frame; apply IH.
Qed.

Lemma EvaluateWithGradient_loop_data fuel p i res g :
  preserves dataset (EvaluateWithGradient_loop sm td fuel p i res g).
Proof.
  revert i res g. induction fuel as [|fuel IH]; intros i res g;
    cbn [EvaluateWithGradient_loop];
    pose proof (EvaluateWithGradient_batch_data (O := O) (I := I) (G := G)
                                                 sm td);
    frame; apply IH.
Qed.

Lemma Predict_loop_data fuel X bs i R :
  preserves dataset (Predict_loop sm td fuel X bs i R).
Proof.
  revert i R. induction fuel as [|fuel IH]; intros i R;
    cbn [Predict_loop]; pose proof Forward_data; frame; apply IH.
Qed.

(** X14.  No pass touches the stored dataset: whether they return or raise
    an error, the forward and backward passes, the objective functions,
    [Gradient], [Predict], [Reset] and [WeightSize] leave the stored
    predictors and responses as they found them.  In particular [Predict]
    and [Evaluate(predictors, responses)] do not store the data they are
    given. *)
Theorem passes_keep_the_dataset :
  (forall X R b e, preserves dataset (Forward_range sm td X R b e)) /\
  (forall X R, preserves dataset (Forward sm td X R)) /\
  (forall X Y g, preserves dataset (Backward X Y g)) /\
  (forall X Y, preserves dataset (Evaluate_predictors_responses sm td X Y)) /\
  (forall p b bs, preserves dataset (Evaluate_batch sm td p b bs)) /\
  (forall p, preserves dataset (Evaluate sm td p)) /\
  (forall p b g bs,
      preserves dataset (EvaluateWithGradient_batch sm td p b g bs)) /\
  (forall p g, preserves dataset (EvaluateWithGradient sm td p g)) /\
  (forall p b g bs, preserves dataset (Gradient sm td p b g bs)) /\
  (forall X R bs, preserves dataset (Predict sm td X R bs)) /\
  (forall d, preserves dataset (Reset d)) /\
  (forall d, preserves dataset (WeightSize d)).
Proof.
  pose proof (CheckNetwork_data (O := O) (I := I) (G := G)) as Hcheck.
  pose proof (UpdateDimensions_data (O := O) (I := I) (G := G)) as Hupd.
  pose proof (Evaluate_batch_data (O := O) (I := I) (G := G) sm td) as Hbatch.
  pose proof (EvaluateWithGradient_batch_data (O := O) (I := I) (G := G) sm td)
    as Hgrad.
  pose proof Evaluate_loop_data as Hloop.
  pose proof EvaluateWithGradient_loop_data as Hgloop.
  pose proof Predict_loop_data as Hploop.
  pose proof Forward_range_data as Hrange.
  pose proof Forward_data as Hforward.
  repeat split; intros.
  - apply Hrange.
  - apply Hforward.
  - unfold Backward. frame.
  - unfold Evaluate_predictors_responses, CheckNetwork_default. frame.
  - apply Hbatch.
  - unfold Evaluate.
    apply preserves_bind; [apply preserves_gets | intros n; apply Hloop].
  - apply Hgrad.
  - unfold EvaluateWithGradient.
    apply preserves_bind; [apply Hgrad | intros r].
    apply preserves_bind; [apply preserves_gets | intros n; apply Hgloop].
  - unfold Gradient.
    apply preserves_bind; [apply Hgrad | intros r; apply preserves_ret].
  - unfold Predict.
    apply preserves_bind; [apply Hcheck | intros _].
    apply preserves_bind; [apply preserves_gets | intros n; apply Hploop].
  - unfold Reset.
    apply preserves_bind; [now apply preserves_modify | intros _].
    apply preserves_if; [apply Hcheck|].
    apply preserves_bind; [apply preserves_gets | intros n; apply Hcheck].
  - unfold WeightSize.
    apply preserves_bind; [apply Hupd | intros _; apply preserves_gets].
Qed.

(** ** The loop of Predict *)

Lemma Predict_loop_zero_batch fuel X i R (s : Core) v s' t :
  i < n_cols X ->
  Predict_loop sm td fuel X 0 i R s <> (Val v, s', t).
Proof.
  revert i R s t. induction fuel as [|fuel IH]; intros i R s t Hi;
    cbn [Predict_loop]; pose proof Hi as Hlt; apply N.ltb_lt in Hlt;
    rewrite Hlt.
  - discriminate.
  - intros Hrun. apply bind_Val_inv in Hrun.
    destruct Hrun as (w & s1 & t1 & t2 & _ & Hk & _).
    revert Hk. apply IH.
    unfold SizeT.add, SizeT.wrap. rewrite N.add_0_r.
    eapply N.le_lt_trans; [apply N.Div0.mod_le | exact Hi].
Qed.

(** X15.  With a batch size of zero [Predict] never returns a result on a
    dataset that has an example: the index of its loop does not advance,
    so however many steps the loop is given, it either raises the error of
    a forward pass or is still running. *)
Theorem Predict_zero_batch_never_returns X R (s : Core) :
  0 < n_cols X ->
  (forall fuel R1 (s1 : Core) v s' t,
      Predict_loop sm td fuel X 0 0 R1 s1 <> (Val v, s', t)) /\
  (forall v s' t, Predict sm td X R 0 s <> (Val v, s', t)).
Proof.
  intros Hn. split.
  - intros. now apply Predict_loop_zero_batch.
  - intros v s' t Hrun. unfold Predict in Hrun.
    apply bind_Val_inv in Hrun.
    destruct Hrun as ([] & s1 & t1 & t2 & _ & Hk & _).
    revert Hk. step. now apply Predict_loop_zero_batch.
Qed.

Lemma Predict_loop_shape fuel X bs i R (s : Core) R' s' t :
  Predict_loop sm td fuel X bs i R s = (Val R', s', t) ->
  n_rows R' = n_rows R /\ n_cols R' = n_cols R.
Proof.
  revert i R s t. induction fuel as [|fuel IH]; intros i R s t;
    cbn [Predict_loop]; destruct (i <? n_cols X).
  - discriminate.
  - intros [= <- _ _]. auto.
  - intros Hrun. apply bind_Val_inv in Hrun.
    destruct Hrun as (w & s1 & t1 & t2 & _ & Hk & _).
    apply IH in Hk. exact Hk.
  - intros [= <- _ _]. auto.
Qed.

(** X16.  Whatever the batch size and whatever [results] held, the matrix
    that a returning [Predict] leaves in [results] has one column per
    column of the predictors and as many rows as the output size of the
    graph after the check that [Predict] starts with. *)
Theorem Predict_result_shape X R bs (s : Core) R' s' t :
  Predict sm td X R bs s = (Val R', s', t) ->
  exists s1 t1,
    CheckNetwork "FFN::Predict()" (n_rows X) true false s = (Val tt, s1, t1) /\
    n_rows R' = net_OutputSize (network s1) /\
    n_cols R' = n_cols X.
Proof.
  intros Hrun. unfold Predict in Hrun. apply bind_Val_inv in Hrun.
  destruct Hrun as ([] & s1 & t1 & t2 & Hcheck & Hk & _).
  exists s1, t1. split; [exact Hcheck|].
  revert Hk. step. intros Hk. apply Predict_loop_shape in Hk.
  now rewrite n_rows_set_size, n_cols_set_size in Hk.
Qed.

(** ** Termination of the loops *)

Lemma SetNetworkMode_halts b : terminates (SetNetworkMode b : M unit).
Proof. unfold SetNetworkMode. halts. Qed.

Lemma InitializeWeights_halts : terminates (InitializeWeights : M unit).
Proof. unfold InitializeWeights. pose proof SetNetworkMode_halts. halts. Qed.

Lemma SetLayerMemory_halts : terminates (SetLayerMemory : M unit).
Proof. unfold SetLayerMemory, Log_Assert. halts. Qed.

Lemma UpdateDimensions_halts functionName d :
  terminates (UpdateDimensions functionName d : M unit).
Proof. unfold UpdateDimensions. halts. Qed.

Lemma CheckNetwork_halts functionName d setMode mode :
  terminates (CheckNetwork functionName d setMode mode : M unit).
Proof.
  unfold CheckNetwork.
  pose proof SetNetworkMode_halts. pose proof InitializeWeights_halts.
  pose proof SetLayerMemory_halts. pose proof UpdateDimensions_halts.
  halts.
Qed.

Lemma Forward_halts X R : terminates (Forward sm td X R : M (Mat elem)).
Proof.
  unfold Forward, Forward_range, CheckNetwork_default, assign_results.
  pose proof CheckNetwork_halts. halts.
Qed.

Lemma Evaluate_batch_halts p b bs :
  terminates (Evaluate_batch sm td p b bs : M elem).
Proof.
  unfold Evaluate_batch, CheckNetwork_default, batch.
  pose proof CheckNetwork_halts. halts.
Qed.

Lemma EvaluateWithGradient_batch_halts p b g bs :
  terminates (EvaluateWithGradient_batch sm td p b g bs
              : M (elem * Mat elem)).
Proof.
  unfold EvaluateWithGradient_batch, CheckNetwork_default, batch.
  pose proof CheckNetwork_halts. halts.
Qed.

Lemma Evaluate_loop_halts p n :
  n < SizeT.modulus ->
  forall fuel i res (s : Core),
    n_cols (predictors s) = n ->
    (N.to_nat (n - i) <= fuel)%nat ->
    outcome_of (Evaluate_loop sm td fuel p i res s) <> OutOfFuel.
Proof.
  intros Hn. induction fuel as [|fuel IH]; intros i res s Hs Hfuel.
  - rewrite Evaluate_loop_done by lia. discriminate.
  - destruct (N.lt_ge_cases i n) as [Hi | Hi].
    + rewrite Evaluate_loop_S by lia. rewrite outcome_bind.
      pose proof (Evaluate_batch_halts p i 1 s) as Hb.
      destruct (Evaluate_batch sm td p i 1 s) as [[o s1] t1] eqn:Hrun.
      cbn [outcome_of state_of fst snd] in *.
      destruct o as [e| |]; [|discriminate|contradiction].
      apply IH.
      * erewrite Evaluate_batch_n_cols; [exact Hs | exact Hrun].
      * rewrite SizeTFacts.add_small by lia. lia.
    + rewrite Evaluate_loop_done by lia. discriminate.
Qed.

Lemma EvaluateWithGradient_loop_halts p n :
  n < SizeT.modulus ->
  forall fuel i res g (s : Core),
    n_cols (predictors s) = n ->
    (N.to_nat (n - i) <= fuel)%nat ->
    outcome_of (EvaluateWithGradient_loop sm td fuel p i res g s)
    <> OutOfFuel.
Proof.
  intros Hn. induction fuel as [|fuel IH]; intros i res g s Hs Hfuel.
  - rewrite EvaluateWithGradient_loop_done by lia. discriminate.
  - destruct (N.lt_ge_cases i n) as [Hi | Hi].
    + rewrite EvaluateWithGradient_loop_S by lia. rewrite outcome_bind.
      pose proof (EvaluateWithGradient_batch_halts
                    p i (Mat_new (n_rows g) (n_cols g)) 1 s) as Hb.
      destruct (EvaluateWithGradient_batch sm td p i _ 1 s)
        as [[o s1] t1] eqn:Hrun.
      cbn [outcome_of state_of fst snd] in *.
      destruct o as [r| |]; [|discriminate|contradiction].
      rewrite outcome_bind.
      destruct (mat_add g (snd r)) as [g'|]; cbn [checked];
        [|discriminate].
      cbn [ret outcome_of state_of fst snd]. apply IH.
      * erewrite EvaluateWithGradient_batch_n_cols; [exact Hs | exact Hrun].
      * rewrite SizeTFacts.add_small by lia. lia.
    + rewrite EvaluateWithGradient_loop_done by lia. discriminate.
Qed.

Lemma Predict_loop_halts X bs :
  1 <= bs ->
  n_cols X + bs <= SizeT.modulus ->
  forall fuel i R (s : Core),
    (N.to_nat (n_cols X - i) <= fuel)%nat ->
    outcome_of (Predict_loop sm td fuel X bs i R s) <> OutOfFuel.
Proof.
  intros Hbs Hfit. induction fuel as [|fuel IH]; intros i R s Hfuel;
    cbn [Predict_loop]; destruct (i <? n_cols X) eqn:Hi;
    try discriminate.
  - apply N.ltb_lt in Hi. lia.
  - apply N.ltb_lt in Hi. rewrite outcome_bind.
    pose proof (Forward_halts
                  (colptr_view i (N.min bs (SizeT.sub (n_cols X) i)) X)
                  (RefView
                     (colptr_view i (N.min bs (SizeT.sub (n_cols X) i)) R))
                  s) as Hf.
    destruct (outcome_of (Forward sm td _ _ s)) as [w| |];
      [|discriminate|contradiction].
    apply IH. rewrite SizeTFacts.add_small by lia. lia.
Qed.

(** X17.  The loops over the dataset come to an end.  With fewer than
    2^64 stored examples, the full-dataset [Evaluate] and
    [EvaluateWithGradient] return or raise an error; so does [Predict]
    when the batch size is at least one and adding it to the number of
    examples does not overflow the index. *)
Theorem full_dataset_passes_terminate p g X R bs (s : Core) :
  n_cols (predictors s) < SizeT.modulus ->
  1 <= bs ->
  n_cols X + bs <= SizeT.modulus ->
  outcome_of (Evaluate sm td p s) <> OutOfFuel /\
  outcome_of (EvaluateWithGradient sm td p g s) <> OutOfFuel /\
  outcome_of (Predict sm td X R bs s) <> OutOfFuel.
Proof.
  intros Hn Hbs Hfit. repeat split.
  - unfold Evaluate. step.
    apply (Evaluate_loop_halts p Hn); [reflexivity | lia].
  - unfold EvaluateWithGradient. rewrite outcome_bind.
    pose proof (EvaluateWithGradient_batch_halts p 0 g 1 s) as Hb.
    destruct (EvaluateWithGradient_batch sm td p 0 g 1 s)
      as [[o s1] t1] eqn:Hrun.
    cbn [outcome_of state_of fst snd] in *.
    destruct o as [r| |]; [|discriminate|contradiction].
    step.
    assert (Hc : n_cols (predictors s1) = n_cols (predictors s))
      by (eapply EvaluateWithGradient_batch_n_cols; exact Hrun).
    apply (@EvaluateWithGradient_loop_halts p (n_cols (predictors s1)));
      [now rewrite Hc | reflexivity | lia].
  - unfold Predict. rewrite outcome_bind.
    pose proof (CheckNetwork_halts "FFN::Predict()" (n_rows X) true false s)
      as Hc.
    destruct (outcome_of (CheckNetwork _ _ _ _ s)) as [[]| |];
      [|discriminate|contradiction].
    step. apply (@Predict_loop_halts X bs Hbs Hfit). lia.
Qed.

(** ** The objective and the gradient of a mini-batch *)

Lemma UpdateDimensions_name_irrelevant fn1 fn2 d (s s' : Core) t :
  UpdateDimensions fn1 d s = (Val tt, s', t) ->
  UpdateDimensions fn2 d s = (Val tt, s', t).
Proof.
  unfold UpdateDimensions. step.
  destruct (N.of_nat (List.length (inputDimensions s)) =? 0); step;
    destruct (negb _ && negb _); step; (discriminate || auto).
Qed.

Lemma CheckNetwork_name_irrelevant fn1 fn2 d setMode mode (s s' : Core) t :
  CheckNetwork fn1 d setMode mode s = (Val tt, s', t) ->
  CheckNetwork fn2 d setMode mode s = (Val tt, s', t).
Proof.
  unfold CheckNetwork. step.
  destruct (net_size (network s) =? 0); [discriminate|]. step.
  destruct (inputDimensionsAreSet s); cbn [negb]; [auto|].
  intros Hrun. apply bind_Val_inv in Hrun.
  destruct Hrun as ([] & s1 & t1 & t2 & Hupd & Hk & ->).
  erewrite bind_Val;
    [| eapply UpdateDimensions_name_irrelevant; exact Hupd].
  rewrite Hk. apply after_triple.
Qed.

(** X18.  The objective that [EvaluateWithGradient(parameters, begin,
    gradient, batchSize)] returns is the one that [Evaluate(parameters,
    begin, batchSize)] returns from the same core, with the same calls;
    computing the gradient as well changes neither the parameter buffer
    nor the network output that the forward pass left. *)
Theorem EvaluateWithGradient_batch_objective
    (p p' : MatArg elem) b g bs (s s' : Core) obj g' t :
  EvaluateWithGradient_batch sm td p b g bs s = (Val (obj, g'), s', t) ->
  exists s2,
    Evaluate_batch sm td p' b bs s = (Val obj, s2, t) /\
    parameters s' = parameters s2 /\
    networkOutput s' = networkOutput s2 /\
    training s' = training s2.
Proof.
  unfold EvaluateWithGradient_batch, Evaluate_batch, CheckNetwork_default.
  step. intros Hrun. apply bind_Val_inv in Hrun.
  destruct Hrun as ([] & s1 & t1 & t2 & Hcheck & Hrest & ->).
  erewrite bind_Val;
    [| eapply CheckNetwork_name_irrelevant; exact Hcheck].
  revert Hrest. step. unfold batch.
  cbn [predictors responses set_networkOutput].
  destruct (cols b _ (predictors s1)) as [x|]; [|discriminate].
  cbn [checked]. step.
  destruct (net_Forward _ _ _ _) as [g1 out].
  cbn [responses set_networkOutput set_network].
  destruct (cols b _ (responses s1)) as [y|]; [|discriminate].
  cbn [checked]. step.
  cbn [predictors set_error set_networkDelta set_network
       set_networkOutput].
  destruct (net_Backward _ _ _ _ _) as [g2 delta]. step.
  unfold gets, ret. rewrite !after_triple.
  intros [= <- _ <- <-]. eexists. split; [reflexivity|].
  cbn. auto.
Qed.

(** X19.  With a layer graph whose [Gradient] keeps the shape of the
    matrix it fills, the gradient that [EvaluateWithGradient] and
    [Gradient] leave has the shape of their [parameters] argument,
    whatever shape and content [gradient] had on entry: the shape of a
    matrix of the caller when one is passed, the shape of the parameter
    buffer when the member itself is passed.  [Gradient] is the same run
    with the objective dropped. *)
Theorem gradient_has_the_shape_of_the_parameters_argument
    (p : MatArg elem) b g bs (s s' : Core) obj g' t :
  GradientKeepsShape (G := G) ->
  EvaluateWithGradient_batch sm td p b g bs s = (Val (obj, g'), s', t) ->
  n_rows g' = n_rows (arg_value p s') /\
  n_cols g' = n_cols (arg_value p s') /\
  Gradient sm td p b g bs s = (Val g', s', t).
Proof.
  intros Hshape Hrun.
  assert (Hgrad : Gradient sm td p b g bs s = (Val g', s', t)).
  { unfold Gradient. erewrite bind_Val; [|exact Hrun].
    unfold ret. rewrite after_triple. now rewrite app_nil_r. }
  split; [|split; [|exact Hgrad]]; clear Hgrad; revert Hrun;
    unfold EvaluateWithGradient_batch, CheckNetwork_default;
    step; intros Hrun; apply bind_Val_inv in Hrun;
    destruct Hrun as ([] & s1 & t1 & t2 & _ & Hrest & _);
    revert Hrest; step; unfold batch;
    cbn [predictors responses set_networkOutput];
    (destruct (cols b _ (predictors s1)) as [x|]; [|discriminate]);
    cbn [checked]; step;
    destruct (net_Forward _ _ _ _) as [g1 out];
    cbn [responses set_networkOutput set_network];
    (destruct (cols b _ (responses s1)) as [y|]; [|discriminate]);
    cbn [checked]; step;
    cbn [predictors set_error set_networkDelta set_network
         set_networkOutput];
    destruct (net_Backward _ _ _ _ _) as [g2 delta]; step;
    unfold gets, ret; rewrite ?after_triple;
    intros [= _ <- <- _];
    match goal with
    | |- context [net_Gradient ?a ?x0 ?e ?gr ?gg] =>
        pose proof (proj1 (same_shape_iff _ _) (Hshape a x0 e gr gg))
          as [Hr Hc]
    end;
    rewrite ?Hr, ?Hc, ?n_rows_set_size, ?n_cols_set_size;
    destruct p; reflexivity.
Qed.

(** ** Train *)

(** X20.  [Train] stores the dataset and switches to training mode before
    it checks the network, so when the check returns, the optimizer is
    started on a core that holds the data it was given, is in training
    mode and is ready for a pass.  [Train] returns what the optimizer
    returns, after stopping the timer and logging the objective; when the
    optimizer raises an error, the error is passed on and the timer is not
    stopped. *)
Theorem Train_runs_the_optimizer_on_a_ready_core
    X Y MaxIterations (Optimize : M elem) (s s1 : Core) tc :
  LifecycleLaws (I := I) (G := G) ->
  CheckNetwork "FFN::Train()" (n_rows X) true true
               (mode_set true (set_responses Y (set_predictors X s)))
  = (Val tt, s1, tc) ->
  let before :=
    [EvTraining true] ++ warning_of MaxIterations (n_cols X) ++ tc
    ++ [EvTimer true "ffn_optimization"] in
  (predictors s1 = X /\ responses s1 = Y /\ training s1 = true /\
   net_size (network s1) <> 0 /\
   inputDimensionsAreSet s1 = true /\ layerMemoryIsSet s1 = true /\
   n_elem (parameters s1) = net_WeightSize (network s1)) /\
  (forall out s' t,
      Optimize s1 = (Val out, s', t) ->
      Train X Y MaxIterations Optimize s
      = (Val out, s',
         before ++ t ++ [EvTimer false "ffn_optimization"; EvInfo out])) /\
  (forall e s' t,
      Optimize s1 = (Throw e, s', t) ->
      Train X Y MaxIterations Optimize s = (Throw e, s', before ++ t)).
Proof.
  intros laws Hcheck before.
  assert (Hpost : WeightsBound s1 /\ InMode true true s1).
  { eapply (CheckNetwork_ensures laws); [|exact Hcheck]. exact Logic.I. }
  destruct Hpost as [[[[Hs Hd] Hsz] Hm] Hmode].
  destruct (Hmode eq_refl) as [Htr _].
  pose proof (CheckNetwork_data "FFN::Train()" (n_rows X) true true
                (mode_set true (set_responses Y (set_predictors X s))))
    as Hdata.
  unfold state_of in Hdata. rewrite Hcheck in Hdata. cbn in Hdata.
  injection Hdata as Hp Hr.
  assert (Hprefix :
            forall (k : M elem),
              Train X Y MaxIterations k s
              = after ([EvTraining true]
                       ++ warning_of MaxIterations (n_cols X) ++ tc
                       ++ [EvTimer true "ffn_optimization"])
                      ((out <- k ;;
                        emit (EvTimer false "ffn_optimization") ;;
                        emit (EvInfo out) ;;
                        ret out) s1)).
  { intros k. unfold Train, ResetData, SetNetworkMode. step.
    cbn [predictors set_predictors set_responses set_training set_network
         training].
    assert (Hwarn :
              forall (c : Core) (rest : M elem),
                (WarnMessageMaxIterations MaxIterations (n_cols X) ;; rest) c
                = after (warning_of MaxIterations (n_cols X)) (rest c)).
    { intros c rest. unfold WarnMessageMaxIterations, warning_of.
      destruct MaxIterations as [m|]; [|now step].
      destruct ((m <? n_cols X) && negb (m =? 0)); now step. }
    rewrite Hwarn. step.
    cbn [predictors set_predictors set_responses set_training set_network].
    erewrite bind_Val; [|exact Hcheck]. step.
    now rewrite <- !app_assoc. }
  split; [|split].
  - repeat split; assumption.
  - intros out s' t Hopt. rewrite Hprefix.
    erewrite bind_Val; [|exact Hopt]. step. unfold ret.
    rewrite !after_triple. unfold before.
    now rewrite app_nil_r, <- !app_assoc.
  - intros e s' t Hopt. rewrite Hprefix.
    erewrite bind_Throw; [|exact Hopt]. now rewrite after_triple.
Qed.

(** ** What a pass leaves alone on a ready core *)

Local Abbreviation weights :=
  (fun s : Core =>
     (parameters s, layerMemoryIsSet s, inputDimensionsAreSet s)).

Lemma after_check_keeps {A} functionName d (rest : M A) (s : Core) :
  Ready s ->
  preserves weights rest ->
  weights (state_of ((CheckNetwork_default sm td functionName d ;; rest) s))
  = weights s.
Proof.
  intros Hready Hrest. unfold CheckNetwork_default.
  pose proof (CheckNetwork_Ready functionName d sm td Hready) as Hcheck.
  destruct sm;
    (erewrite bind_Val; [|exact Hcheck]);
    rewrite state_after, (Hrest _); reflexivity.
Qed.

(** X21.  On a ready core the passes read the weights and do not write
    them: the forward pass, the mini-batch objective, the mini-batch
    gradient and [Evaluate(predictors, responses)] leave the parameter
    buffer and both readiness flags as they found them, whether they
    return or raise an error.  [Backward] does so on any core. *)
Theorem passes_keep_the_weights (s : Core) :
  Ready s ->
  (forall X R b e,
      weights (state_of (Forward_range sm td X R b e s)) = weights s) /\
  (forall X R, weights (state_of (Forward sm td X R s)) = weights s) /\
  (forall X Y,
      weights (state_of (Evaluate_predictors_responses sm td X Y s))
      = weights s) /\
  (forall p b bs,
      weights (state_of (Evaluate_batch sm td p b bs s)) = weights s) /\
  (forall p b g bs,
      weights (state_of (EvaluateWithGradient_batch sm td p b g bs s))
      = weights s) /\
  (forall p b g bs,
      weights (state_of (Gradient sm td p b g bs s)) = weights s) /\
  (forall X Y g (s0 : Core),
      weights (state_of (Backward X Y g s0)) = weights s0).
Proof.
  intros Hready.
  assert (Hrange :
            forall X R b e,
              weights (state_of (Forward_range sm td X R b e s))
              = weights s).
  { intros X R b e. unfold Forward_range.
    destruct (e <? b); [reflexivity|].
    apply after_check_keeps; [exact Hready|].
    unfold assign_results. frame. }
  assert (Hgrad :
            forall p b g bs,
              weights (state_of (EvaluateWithGradient_batch sm td p b g bs s))
              = weights s).
  { intros p b g bs. unfold EvaluateWithGradient_batch. step.
    apply after_check_keeps; [exact Hready|].
    unfold batch. frame. }
  repeat split; intros.
  - apply Hrange.
  - unfold Forward. step. apply Hrange.
  - unfold Evaluate_predictors_responses.
    apply after_check_keeps; [exact Hready|]. frame.
  - unfold Evaluate_batch. step.
    apply after_check_keeps; [exact Hready|]. unfold batch. frame.
  - apply Hgrad.
  - unfold Gradient. rewrite state_bind_ret. apply Hgrad.
  - assert (Hb : preserves weights (Backward X Y g : M (elem * Mat elem)))
      by (unfold Backward; frame).
    apply Hb.
Qed.

(** ** The mode after Predict *)

Lemma CheckNetwork_keeps_evaluation_mode functionName d mode :
  ensures (fun s : Core => training s = false)
          (CheckNetwork functionName d false mode)
          (fun s => training s = false).
Proof.
  assert (Hup : forall fn n,
             ensures (fun s : Core => training s = false)
                     (UpdateDimensions fn n)
                     (fun s => training s = false)).
  { intros fn n. apply preserves_ensures. unfold UpdateDimensions. frame. }
  assert (Hmem : ensures (fun s : Core => training s = false)
                         SetLayerMemory (fun s => training s = false)).
  { apply preserves_ensures. unfold SetLayerMemory, Log_Assert. frame. }
  assert (Hinit : forall P : Core -> Prop,
             ensures P InitializeWeights (fun s => training s = false)).
  { intros P s a s' t _. rewrite InitializeWeights_eq.
    intros [= _ <- _]. reflexivity. }
  unfold CheckNetwork.
  apply ensures_gets; intros size.
  apply ensures_if; intros _; [apply ensures_throw|].
  apply ensures_gets; intros dimsSet.
  apply ensures_bind with (R := fun s : Core => training s = false).
  { apply ensures_if; intros _.
    - eapply ensures_weaken; [apply Hup | | auto]. now intros s [[H' _] _].
    - apply ensures_ret. now intros s [[H' _] _]. }
  intros _. apply ensures_gets; intros empty.
  apply ensures_bind with (R := fun s : Core => training s = false).
  { apply ensures_if; intros _; [apply Hinit|].
    apply ensures_gets; intros n. apply ensures_gets; intros w.
    apply ensures_if; intros _.
    - apply ensures_bind with (R := fun _ : Core => True);
        [apply ensures_anything | intros _; apply Hinit].
    - apply ensures_ret. now intros s [[[H' _] _] _]. }
  intros _. apply ensures_gets; intros memSet.
  apply ensures_bind with (R := fun s : Core => training s = false).
  { apply ensures_if; intros _.
    - eapply ensures_weaken; [apply Hmem | | auto]. now intros s [H' _].
    - apply ensures_ret. now intros s [H' _]. }
  intros _. cbn [negb]. apply ensures_ret. auto.
Qed.

Lemma Forward_keeps_evaluation_mode X R :
  ensures (fun s : Core => training s = false)
          (Forward false td X R)
          (fun s => training s = false).
Proof.
  unfold Forward. apply ensures_gets; intros size.
  unfold Forward_range.
  apply ensures_if; intros _.
  - eapply ensures_weaken;
      [apply (@preserves_ensures _ _ _ _ (fun s : Core => training s)
                (gets (ref_value R)) false);
       apply preserves_gets
      | now intros s [H' _] | auto].
  - apply ensures_bind with (R := fun s : Core => training s = false).
    + unfold CheckNetwork_default.
      eapply ensures_weaken;
        [apply CheckNetwork_keeps_evaluation_mode | | auto].
      now intros s [H' _].
    + intros _. apply preserves_ensures. unfold assign_results. frame.
Qed.

Lemma Predict_loop_keeps_evaluation_mode fuel X bs i R :
  ensures (fun s : Core => training s = false)
          (Predict_loop false td fuel X bs i R)
          (fun s => training s = false).
Proof.
  revert i R. induction fuel as [|fuel IH]; intros i R;
    cbn [Predict_loop]; apply ensures_if; intros _.
  - intros s a s' t _ Hrun. discriminate.
  - apply ensures_ret. auto.
  - apply ensures_bind with (R := fun s : Core => training s = false).
    + apply Forward_keeps_evaluation_mode.
    + intros w. apply IH.
  - apply ensures_ret. auto.
Qed.

(** X22.  When a forward pass does not set the mode itself (the
    [setMode] default of [CheckNetwork] being false), a [Predict] that
    returns leaves the core in evaluation mode, whatever mode it was in
    before and whatever the batch size: the check it starts with switches
    to evaluation mode, and nothing in the loop switches back. *)
Theorem Predict_leaves_evaluation_mode X R bs (s s' : Core) R' t :
  Predict false td X R bs s = (Val R', s', t) ->
  training s' = false.
Proof.
  intros Hrun. unfold Predict in Hrun. apply bind_Val_inv in Hrun.
  destruct Hrun as ([] & s1 & t1 & t2 & Hcheck & Hk & _).
  assert (Hmode : training s1 = false).
  { revert Hcheck.
    assert (Hc : ensures (fun _ : Core => True)
                         (CheckNetwork "FFN::Predict()" (n_rows X) true false)
                         (fun s => training s = false)).
    { unfold CheckNetwork.
      apply ensures_gets; intros size.
      apply ensures_if; intros _; [apply ensures_throw|].
      apply ensures_gets; intros dimsSet.
      apply ensures_bind with (R := fun _ : Core => True);
        [apply ensures_anything | intros _].
      apply ensures_gets; intros empty.
      apply ensures_bind with (R := fun _ : Core => True);
        [apply ensures_anything | intros _].
      apply ensures_gets; intros memSet.
      apply ensures_bind with (R := fun _ : Core => True);
        [apply ensures_anything | intros _].
      intros s0 a s0' t0 _. rewrite SetNetworkMode_eq.
      intros [= _ <- _]. reflexivity. }
    intros Hcheck. eapply Hc; [exact Logic.I | exact Hcheck]. }
  revert Hk. step. intros Hk.
  eapply Predict_loop_keeps_evaluation_mode; [exact Hmode | exact Hk].
Qed.

End MoreFacts.

(* ================================================================== *)
(** * The small instance: runs of the further properties *)
(* ================================================================== *)

Module ToyExtras.

Import Toy.

Local Open Scope ffn_scope.

(** One weighted layer for inputs of two rows: as constructed, after a
    first check, and with the data set stored. *)
Local Abbreviation fresh_core := (core 1 true [2]).

Local Abbreviation ready :=
  (state_of (CheckNetwork "FFN::Forward()" 2 false false (core 1 true [2]))).

Local Abbreviation stored :=
  (set_responses labels (set_predictors data (core 1 true [2]))).

Lemma dimension_laws : DimensionLaws (G := Graph).
Proof. constructor; reflexivity. Qed.

Lemma ready_consistent : Consistent 2 ready.
Proof.
  unfold Consistent, Ready.
  refine (conj (conj _ (conj _ (conj _ (conj _ _))))
               (conj _ (conj _ (or_introl _))));
    vm_compute; solve [reflexivity | discriminate].
Qed.

Lemma two_is_small : 2 < SizeT.modulus.
Proof. vm_compute. reflexivity. Qed.

(** *** X2 *)

Lemma Reset_zero_uses_the_sum_witness :
  (Z.of_N (dims_sum (inputDimensions (core 1 true [2%N; 3%N]))) < 2 ^ 31)%Z /\
  SizeT.of_int (accumulate_int (inputDimensions (core 1 true [2; 3])))
  = dims_sum (inputDimensions (core 1 true [2; 3])).
Proof.
  assert (Hsmall :
            (Z.of_N (dims_sum (inputDimensions (core 1 true [2%N; 3%N])))
             < 2 ^ 31)%Z)
    by (vm_compute; reflexivity).
  split; [exact Hsmall|].
  exact (proj1 (@Reset_zero_uses_the_sum Z unit Z Graph _ _
                  (core 1 true [2; 3]) Hsmall)).
Defined.

(** *** X3 *)

Lemma UpdateDimensions_on_success_witness :
  6 < SizeT.modulus /\
  exists s' t,
    UpdateDimensions "FFN::Forward()" 6 (core 1 true [2; 3])
    = (Val tt, s', t) /\
    inputDimensions s' = [2; 3] /\
    inputDimensionsAreSet s' = true.
Proof.
  assert (Hsmall : 6 < SizeT.modulus) by (vm_compute; reflexivity).
  assert (Hfits :
            totalInputSize (effective_shape 6 (core 1 true [2; 3])) = 6
            \/ 6 = 0)
    by (left; vm_compute; reflexivity).
  split; [exact Hsmall|].
  destruct (@UpdateDimensions_on_success Z unit Z Graph _
              "FFN::Forward()" 6 (core 1 true [2; 3]) Hsmall Hfits)
    as (s' & t & Hrun & Hdims & Hflag & _).
  exists s', t. split; [exact Hrun|]. split; [|exact Hflag].
  rewrite Hdims. vm_compute. reflexivity.
Defined.

(** *** X4 *)

Lemma CheckNetwork_leaves_core_bound_witness :
  net_size (network ready) <> 0 /\
  inputDimensionsAreSet ready = true /\
  layerMemoryIsSet ready = true /\
  n_elem (parameters ready) = net_WeightSize (network ready) /\
  (false = true -> training ready = false).
Proof.
  assert (Hrun :
            CheckNetwork "FFN::Forward()" 2 false false fresh_core
            = (Val tt, ready,
               trace_of (CheckNetwork "FFN::Forward()" 2 false false
                                      fresh_core)))
    by (vm_compute; reflexivity).
  exact (@CheckNetwork_leaves_core_bound Z unit Z Graph _ _
           "FFN::Forward()" 2 false false fresh_core ready _
           ToyFacts.laws Hrun).
Defined.

(** *** X5 *)

Lemma CheckNetwork_outcomes_witness :
  2 < SizeT.modulus /\
  outcome_of (CheckNetwork "FFN::Forward()" 2 false false fresh_core)
  = Val tt.
Proof.
  split; [exact two_is_small|].
  assert (Hsize : net_size (network fresh_core) <> 0)
    by (vm_compute; discriminate).
  assert (Hfits :
            inputDimensionsAreSet fresh_core = true \/
            totalInputSize (effective_shape 2 fresh_core) = 2 \/ 2 = 0)
    by (right; left; vm_compute; reflexivity).
  exact (proj2 (proj2 (@CheckNetwork_outcomes Z unit Z Graph _ _
                         "FFN::Forward()" 2 false false fresh_core
                         ToyFacts.laws two_is_small))
               Hsize Hfits).
Defined.

(** *** X6 *)

Lemma CheckNetwork_initialization_resets_mode_witness :
  training (set_training true fresh_core) = true /\
  training (state_of (CheckNetwork "FFN::Forward()" 2 false false
                                   (set_training true fresh_core)))
  = false.
Proof.
  split; [vm_compute; reflexivity|].
  assert (Hrun :
            CheckNetwork "FFN::Forward()" 2 false false
                         (set_training true fresh_core)
            = (Val tt,
               state_of (CheckNetwork "FFN::Forward()" 2 false false
                                      (set_training true fresh_core)),
               trace_of (CheckNetwork "FFN::Forward()" 2 false false
                                      (set_training true fresh_core))))
    by (vm_compute; reflexivity).
  assert (Hinit :
            initializes
              (trace_of (CheckNetwork "FFN::Forward()" 2 false false
                                      (set_training true fresh_core)))
            = true)
    by (vm_compute; reflexivity).
  exact (proj1 (@CheckNetwork_initialization_resets_mode Z unit Z Graph _ _
                  "FFN::Forward()" 2 false
                  (set_training true fresh_core) _ _
                  ToyFacts.laws two_is_small Hrun)
               Hinit).
Defined.

(** *** X7 *)

Lemma WeightSize_twice_witness :
  WeightSize 0 (state_of (WeightSize 0 fresh_core))
  = (Val 2, state_of (WeightSize 0 fresh_core), []).
Proof.
  assert (Hzero : 0 < SizeT.modulus) by (vm_compute; reflexivity).
  assert (Hrun :
            WeightSize 0 fresh_core
            = (Val 2, state_of (WeightSize 0 fresh_core),
               trace_of (WeightSize 0 fresh_core)))
    by (vm_compute; reflexivity).
  exact (@WeightSize_twice Z unit Z Graph _ 0 fresh_core _ 2 _
           dimension_laws Hzero Hrun).
Defined.

(** *** X9 *)

Lemma CheckNetwork_after_copy_witness :
  exists s',
    CheckNetwork "FFN::Forward()" 2 false false (FFN_copy ready)
    = (Val tt, s', [EvSetWeights]) /\
    parameters s' = parameters ready.
Proof.
  destruct (@CheckNetwork_after_copy Z unit Z Graph _ _
              "FFN::Forward()" 2 false ready fresh_core (FFN_copy ready)
              two_is_small ready_consistent (or_introl eq_refl))
    as (s' & Hrun & Hp & _).
  exists s'. split; [exact Hrun | exact Hp].
Defined.

(** *** X10 *)

Lemma CheckNetwork_after_move_assign_witness :
  CheckNetwork "FFN::Forward()" 2 false false
               (move_assign (Some ready) fresh_core)
  = (Val tt, move_assign (Some ready) fresh_core, []).
Proof.
  exact (proj1 (@CheckNetwork_after_move_assign Z unit Z Graph _ _
                  "FFN::Forward()" 2 false ready fresh_core
                  ready_consistent)).
Defined.

(** *** X11 *)

Lemma serialize_round_trip_witness :
  exists s',
    CheckNetwork "FFN::Forward()" 2 false false
      (fst (serialize (Loading (snd (serialize Saving ready))) stored))
    = (Val tt, s', [EvSetWeights]) /\
    parameters s' = parameters ready /\
    is_empty (predictors s') = true.
Proof.
  pose proof (@serialize_round_trip Z unit Z Graph _ _
                "FFN::Forward()" 2 false ready stored
                two_is_small ready_consistent) as Hall.
  cbv zeta in Hall.
  destruct Hall as (s' & Hrun & Hp & _ & _ & _ & Hdata & _).
  exists s'. split; [exact Hrun|]. split; [exact Hp | exact Hdata].
Defined.

(** *** X12 *)

Lemma Reset_initializes_again_witness :
  initializes (trace_of (Reset 2 ready)) = true /\
  training (state_of (Reset 2 ready)) = false /\
  layerMemoryIsSet (state_of (Reset 2 ready)) = true /\
  n_elem (parameters (state_of (Reset 2 ready)))
  = net_WeightSize (network (state_of (Reset 2 ready))).
Proof.
  assert (Hrun :
            Reset 2 ready
            = (Val tt, state_of (Reset 2 ready), trace_of (Reset 2 ready)))
    by (vm_compute; reflexivity).
  exact (@Reset_initializes_again Z unit Z Graph _ _ 2 ready _ _
           ToyFacts.laws two_is_small Hrun).
Defined.

(** *** X13 *)

Lemma input_size_is_ignored_once_bound_witness :
  inputDimensionsAreSet ready = true /\
  Reset 2 ready = Reset 7 ready.
Proof.
  assert (Hflag : inputDimensionsAreSet ready = true)
    by (vm_compute; reflexivity).
  split; [exact Hflag|].
  exact (proj2 (@input_size_is_ignored_once_bound Z unit Z Graph _ _
                  ready Hflag)
               2 7).
Defined.

(** *** X15 *)

Lemma Predict_zero_batch_never_returns_witness :
  0 < n_cols data /\
  forall v s' t,
    Predict false false data empty_Mat 0 fresh_core <> (Val v, s', t).
Proof.
  assert (Hsome : 0 < n_cols data) by (vm_compute; reflexivity).
  split; [exact Hsome|].
  exact (proj2 (@Predict_zero_batch_never_returns Z _ unit Z Graph _ _
                  false false data empty_Mat fresh_core Hsome)).
Defined.

(** *** X16 *)

Lemma Predict_result_shape_witness :
  exists s1 t1,
    CheckNetwork "FFN::Predict()" (n_rows data) true false fresh_core
    = (Val tt, s1, t1) /\
    n_rows (mkMat 2 3 [8; 9; 10; 11; 12; 13]%Z)
    = net_OutputSize (network s1) /\
    n_cols (mkMat 2 3 [8; 9; 10; 11; 12; 13]%Z) = n_cols data.
Proof.
  assert (Hrun :
            Predict false false data empty_Mat 2 fresh_core
            = (Val (mkMat 2 3 [8; 9; 10; 11; 12; 13]%Z),
               state_of (Predict false false data empty_Mat 2 fresh_core),
               trace_of (Predict false false data empty_Mat 2 fresh_core)))
    by (vm_compute; reflexivity).
  exact (@Predict_result_shape Z _ unit Z Graph _ _ false false
           data empty_Mat 2 fresh_core _ _ _ Hrun).
Defined.

(** *** X17 *)

Lemma full_dataset_passes_terminate_witness :
  outcome_of (Evaluate false false ArgParameters stored) <> OutOfFuel /\
  outcome_of (EvaluateWithGradient false false ArgParameters empty_Mat
                                   stored) <> OutOfFuel /\
  outcome_of (Predict false false data empty_Mat 2 stored) <> OutOfFuel.
Proof.
  assert (Hsmall : n_cols (predictors stored) < SizeT.modulus)
    by (vm_compute; reflexivity).
  assert (Hbatch : 1 <= 2) by (vm_compute; discriminate).
  assert (Hfit : n_cols data + 2 <= SizeT.modulus)
    by (vm_compute; discriminate).
  exact (@full_dataset_passes_terminate Z _ unit Z Graph _ _ _ false false
           ArgParameters empty_Mat data empty_Mat 2 stored
           Hsmall Hbatch Hfit).
Defined.

(** *** X18 *)

Lemma EvaluateWithGradient_batch_objective_witness :
  exists s2,
    Evaluate_batch false false (ArgMat empty_Mat) 0 1 stored
    = (Val 17%Z, s2,
       trace_of (EvaluateWithGradient_batch false false ArgParameters 0
                                            empty_Mat 1 stored)).
Proof.
  assert (Hrun :
            EvaluateWithGradient_batch false false ArgParameters 0 empty_Mat
                                       1 stored
            = (Val (17%Z, mkMat 2 1 [17; 17]%Z),
               state_of (EvaluateWithGradient_batch false false ArgParameters
                                                    0 empty_Mat 1 stored),
               trace_of (EvaluateWithGradient_batch false false ArgParameters
                                                    0 empty_Mat 1 stored)))
    by (vm_compute; reflexivity).
  destruct (@EvaluateWithGradient_batch_objective Z _ unit Z Graph _ _ _
              false false ArgParameters (ArgMat empty_Mat) 0 empty_Mat 1
              stored _ _ _ _ Hrun)
    as (s2 & Hev & _).
  exists s2. exact Hev.
Defined.

(** *** X19 *)

Lemma gradient_has_the_shape_of_the_parameters_argument_witness :
  n_rows (mkMat 3 2 [17; 17; 17; 17; 17; 17]%Z) = 3 /\
  n_cols (mkMat 3 2 [17; 17; 17; 17; 17; 17]%Z) = 2 /\
  outcome_of (Gradient false false (ArgMat (mkMat 3 2 [])) 0 empty_Mat 1
                       stored)
  = Val (mkMat 3 2 [17; 17; 17; 17; 17; 17]%Z).
Proof.
  assert (Hrun :
            EvaluateWithGradient_batch false false (ArgMat (mkMat 3 2 [])) 0
                                       empty_Mat 1 stored
            = (Val (17%Z, mkMat 3 2 [17; 17; 17; 17; 17; 17]%Z),
               state_of (EvaluateWithGradient_batch
                           false false (ArgMat (mkMat 3 2 [])) 0 empty_Mat 1
                           stored),
               trace_of (EvaluateWithGradient_batch
                           false false (ArgMat (mkMat 3 2 [])) 0 empty_Mat 1
                           stored)))
    by (vm_compute; reflexivity).
  destruct (@gradient_has_the_shape_of_the_parameters_argument
              Z _ unit Z Graph _ _ _ false false (ArgMat (mkMat 3 2 [])) 0
              empty_Mat 1 stored _ _ _ _ ToyFacts.gradient_shape Hrun)
    as (Hrows & Hcols & Hgrad).
  split; [exact Hrows|]. split; [exact Hcols|].
  rewrite Hgrad. reflexivity.
Defined.

(** *** X20 *)

Lemma Train_runs_the_optimizer_on_a_ready_core_witness :
  outcome_of (Train data labels (Some 2) (Evaluate false false ArgParameters)
                    fresh_core)
  = Val 57%Z /\
  trace_of (Train data labels (Some 2) (Evaluate false false ArgParameters)
                  fresh_core)
  = [EvTraining true; EvWarn 3; EvComputeOutputDimensions;
     EvTraining false; EvInitialize; EvSetWeights; EvTraining true;
     EvTimer true "ffn_optimization";
     EvTimer false "ffn_optimization"; EvInfo 57%Z].
Proof.
  assert (Hcheck :
            CheckNetwork "FFN::Train()" (n_rows data) true true
              (mode_set true (set_responses labels
                                (set_predictors data fresh_core)))
            = (Val tt,
               state_of (CheckNetwork "FFN::Train()" (n_rows data) true true
                           (mode_set true
                              (set_responses labels
                                 (set_predictors data fresh_core)))),
               [EvComputeOutputDimensions; EvTraining false; EvInitialize;
                EvSetWeights; EvTraining true]))
    by (vm_compute; reflexivity).
  assert (Hopt :
            Evaluate false false ArgParameters
              (state_of (CheckNetwork "FFN::Train()" (n_rows data) true true
                           (mode_set true
                              (set_responses labels
                                 (set_predictors data fresh_core)))))
            = (Val 57%Z,
               state_of
                 (Evaluate false false ArgParameters
                    (state_of (CheckNetwork "FFN::Train()" (n_rows data)
                                 true true
                                 (mode_set true
                                    (set_responses labels
                                       (set_predictors data fresh_core)))))),
               []))
    by (vm_compute; reflexivity).
  pose proof (@Train_runs_the_optimizer_on_a_ready_core Z unit Z Graph _ _
                data labels (Some 2) (Evaluate false false ArgParameters)
                fresh_core _ _ ToyFacts.laws Hcheck) as Hall.
  cbv zeta in Hall.
  destruct Hall as (_ & Hval & _).
  rewrite (Hval _ _ _ Hopt). split; vm_compute; reflexivity.
Defined.

(** *** X21 *)

Lemma passes_keep_the_weights_witness :
  Ready (set_responses labels (set_predictors data ready)) /\
  (parameters
     (state_of (EvaluateWithGradient_batch
                  false false ArgParameters 0 empty_Mat 1
                  (set_responses labels (set_predictors data ready)))),
   layerMemoryIsSet
     (state_of (EvaluateWithGradient_batch
                  false false ArgParameters 0 empty_Mat 1
                  (set_responses labels (set_predictors data ready)))),
   inputDimensionsAreSet
     (state_of (EvaluateWithGradient_batch
                  false false ArgParameters 0 empty_Mat 1
                  (set_responses labels (set_predictors data ready)))))
  = (parameters (set_responses labels (set_predictors data ready)),
     layerMemoryIsSet (set_responses labels (set_predictors data ready)),
     inputDimensionsAreSet
       (set_responses labels (set_predictors data ready))).
Proof.
  assert (Hready : Ready (set_responses labels (set_predictors data ready))).
  { unfold Ready.
    refine (conj _ (conj _ (conj _ (conj _ _))));
      vm_compute; solve [reflexivity | discriminate]. }
  split; [exact Hready|].
  exact (proj1 (proj2 (proj2 (proj2 (proj2
           (@passes_keep_the_weights Z _ unit Z Graph _ _ _ false false
              (set_responses labels (set_predictors data ready))
              Hready)))))
           ArgParameters 0 empty_Mat 1).
Defined.

(** *** X22 *)

Lemma Predict_leaves_evaluation_mode_witness :
  training (set_training true fresh_core) = true /\
  training (state_of (Predict false false data empty_Mat 2
                              (set_training true fresh_core)))
  = false.
Proof.
  split; [vm_compute; reflexivity|].
  assert (Hrun :
            Predict false false data empty_Mat 2
                    (set_training true fresh_core)
            = (Val (mkMat 2 3 [8; 9; 10; 11; 12; 13]%Z),
               state_of (Predict false false data empty_Mat 2
                                 (set_training true fresh_core)),
               trace_of (Predict false false data empty_Mat 2
                                 (set_training true fresh_core))))
    by (vm_compute; reflexivity).
  exact (@Predict_leaves_evaluation_mode Z _ unit Z Graph _ _ false
           data empty_Mat 2 (set_training true fresh_core) _ _ _ Hrun).
Defined.

End ToyExtras.
